(** * The Bridge: a shallow embedding of the pane-composition runtime

  The development follows the Go sources package by package:
  - [Go]      the fragments of the Go runtime and standard library the
              program relies on (panics, [strings.TrimSpace],
              [strings.Fields], dynamically typed JSON values);
  - [Tea]     keys, messages and commands of the event loop;
  - [Widgets] the fields of the third-party widgets the program reads and
              writes;
  - [Shell], [Jira], [GitHub], [Chat]  the four panes;
  - [UI]      the composer that owns the panes.

  Everything the program obtains from the outside (the operating system,
  the HTTP and model services, the widget library) is an explicit
  argument: [Env] for the collaborators, [Lib] for the library. *)

From Stdlib Require Import ZArith List String Ascii Bool Lia DecimalString.
Import ListNotations.

Set Warnings "-register-all".

Local Open Scope string_scope.
Local Open Scope Z_scope.

(* ================================================================== *)
(** ** Go runtime and standard library fragments *)

Module Go.

(** A Go call either returns or panics. *)
Inductive result (A : Type) : Type :=
| Ok (a : A)
| Panic (reason : string).
Arguments Ok {A} a.
Arguments Panic {A} reason.

Definition bind {A B} (r : result A) (k : A -> result B) : result B :=
  match r with
  | Ok a => k a
  | Panic s => Panic s
  end.

Definition returns {A} (r : result A) : bool :=
  match r with Ok _ => true | Panic _ => false end.

(** A byte as a number. *)
Definition byte (c : ascii) : Z := Z.of_nat (nat_of_ascii c).

(** Whether a byte lies between two bounds. *)
Definition within (lo hi : Z) (c : ascii) : bool :=
  (lo <=? byte c) && (byte c <=? hi).

(** The low [n] bits of a byte. *)
Definition low (n : Z) (c : ascii) : Z := Z.land (byte c) (2 ^ n - 1).

(** [utf8.RuneError] *)
Definition RuneError : Z := 65533.

(** [utf8.DecodeRuneInString]: the first rune of a string and its width
    in bytes.  What is not the well-formed encoding of a rune is
    [RuneError] of width 1. *)
Definition DecodeRuneInString (s : string) : Z * nat :=
  match s with
  | EmptyString => (RuneError, 0%nat)
  | String c0 r =>
      if byte c0 <? 128 then (byte c0, 1%nat)
      else if within 194 223 c0 then
        match r with
        | String c1 _ =>
            if within 128 191 c1
            then (Z.lor (Z.shiftl (low 5 c0) 6) (low 6 c1), 2%nat)
            else (RuneError, 1%nat)
        | _ => (RuneError, 1%nat)
        end
      else if within 224 239 c0 then
        match r with
        | String c1 (String c2 _) =>
            if within (if byte c0 =? 224 then 160 else 128)
                      (if byte c0 =? 237 then 159 else 191) c1
               && within 128 191 c2
            then (Z.lor (Z.shiftl (low 4 c0) 12)
                    (Z.lor (Z.shiftl (low 6 c1) 6) (low 6 c2)), 3%nat)
            else (RuneError, 1%nat)
        | _ => (RuneError, 1%nat)
        end
      else if within 240 244 c0 then
        match r with
        | String c1 (String c2 (String c3 _)) =>
            if within (if byte c0 =? 240 then 144 else 128)
                      (if byte c0 =? 244 then 143 else 191) c1
               && within 128 191 c2 && within 128 191 c3
            then (Z.lor (Z.shiftl (low 3 c0) 18)
                    (Z.lor (Z.shiftl (low 6 c1) 12)
                       (Z.lor (Z.shiftl (low 6 c2) 6) (low 6 c3))), 4%nat)
            else (RuneError, 1%nat)
        | _ => (RuneError, 1%nat)
        end
      else (RuneError, 1%nat)
  end.

(** [unicode.IsSpace] *)
Definition IsSpace (r : Z) : bool :=
  if r <=? 255 then
    ((9 <=? r) && (r <=? 13)) || (r =? 32) || (r =? 133) || (r =? 160)
  else
    (r =? 5760) || ((8192 <=? r) && (r <=? 8202)) || (r =? 8232)
    || (r =? 8233) || (r =? 8239) || (r =? 8287) || (r =? 12288).

(** The runes of a string in order, each with the bytes that encode it,
    as a [for range] over the string meets them.  The first [skip] bytes
    belong to the rune before. *)
Fixpoint runesFrom (skip : nat) (s : string) : list (Z * string) :=
  match s with
  | EmptyString => []
  | String c r =>
      match skip with
      | S k => runesFrom k r
      | O =>
          let '(rn, size) := DecodeRuneInString s in
          (rn, substring 0 size s) :: runesFrom (Nat.pred size) r
      end
  end.

Definition runes (s : string) : list (Z * string) := runesFrom 0 s.

(** Dropping the white space at the head of a list of runes. *)
Fixpoint dropSpace (rs : list (Z * string)) : list (Z * string) :=
  match rs with
  | [] => []
  | (rn, _) :: rest => if IsSpace rn then dropSpace rest else rs
  end.

(** [strings.TrimSpace]: the string without the white space, as defined
    by Unicode, at its two ends.  Go reads the right end backwards, with
    [utf8.DecodeLastRuneInString]; a rune it finds there is a rune of the
    forward reading as well, since no byte that starts an encoding lies
    inside a well-formed one. *)
Definition TrimSpace (s : string) : string :=
  String.concat "" (map snd (rev (dropSpace (rev (dropSpace (runes s)))))).

(** [strings.Fields]: the maximal runs of runes that are not white space.
    [cur] is the field being read. *)
Fixpoint fieldsOf (cur : string) (rs : list (Z * string)) : list string :=
  match rs with
  | [] =>
      match cur with
      | EmptyString => []
      | _ => [cur]
      end
  | (rn, bytes) :: rest =>
      if IsSpace rn then
        match cur with
        | EmptyString => fieldsOf EmptyString rest
        | _ => cur :: fieldsOf EmptyString rest
        end
      else fieldsOf (cur ++ bytes) rest
  end.

Definition Fields (s : string) : list string := fieldsOf EmptyString (runes s).

(** A line of white space only, and a text without line feed. *)
Definition blank (s : string) : bool :=
  forallb (fun t => IsSpace (fst t)) (runes s).

Definition solid (s : string) : Prop :=
  Forall (fun c => c <> "010"%char) (list_ascii_of_string s).

(** A rune with its bytes as the reading of a string yields them: the
    bytes are not empty, and hold no line feed unless the rune is white
    space. *)
Definition sound (t : Z * string) : Prop :=
  snd t <> EmptyString /\ (IsSpace (fst t) = false -> solid (snd t)).

(** [strings.HasPrefix] *)
Definition HasPrefix (s p : string) : bool := String.prefix p s.

(** [filepath.IsAbs] on Unix. *)
Definition IsAbs (path : string) : bool := HasPrefix path "/".

(** The line feed of Go's ["\n"]. *)
Definition nl : string := String "010"%char EmptyString.

(** [%d] of [fmt.Sprintf]. *)
Definition itoa (z : Z) : string := NilZero.string_of_int (Z.to_int z).

(** Indexing a slice: out of range panics. *)
Definition index {A} (l : list A) (i : nat) : result A :=
  match nth_error l i with
  | Some a => Ok a
  | None =>
      Panic "runtime error: index out of range"
  end.

(** Wrap-around of the 64-bit [int]. *)
Definition wrap64 (z : Z) : Z :=
  (z + 2 ^ 63) mod 2 ^ 64 - 2 ^ 63.

(** A value of type [any] as [encoding/json] decodes it.  Numbers keep
    their literal. *)
Inductive any : Type :=
| Nil
| ABool (b : bool)
| ANumber (literal : string)
| AString (s : string)
| ASlice (elems : list any)
| AMap (entries : list (string * any)).

(** A [map[string]any]; reading a missing key (or a nil map) yields the
    zero value [nil]. *)
Definition gomap := list (string * any).

Fixpoint lookup (m : gomap) (k : string) : any :=
  match m with
  | [] => Nil
  | (k', v) :: r => if String.eqb k' k then v else lookup r k
  end.

(** Unchecked type assertions [x.([]interface{})] and
    [x.(map[string]interface{})]: any other dynamic type panics. *)
Definition assertSlice (x : any) : result (list any) :=
  match x with
  | ASlice l => Ok l
  | _ => Panic "interface conversion: interface {} is not []interface {}"
  end.

Definition assertMap (x : any) : result gomap :=
  match x with
  | AMap m => Ok m
  | _ => Panic "interface conversion: interface {} is not map[string]interface {}"
  end.

(** A [for range] loop whose body may panic, collecting with [append]. *)
Fixpoint forEach {A B} (f : A -> result B) (l : list A) : result (list B) :=
  match l with
  | [] => Ok []
  | a :: r =>
      bind (f a) (fun b => bind (forEach f r) (fun bs => Ok (b :: bs)))
  end.

(** A slice built only by [append] is nil when nothing was appended, and
    a nil slice stored in an [any] is the JSON [null]. *)
Definition sliceValue (l : list any) : any :=
  match l with [] => Nil | _ => ASlice l end.

End Go.

Notation "'let?' x ':=' r 'in' k" := (Go.bind r (fun x => k))
  (at level 10, x pattern, r at level 100, k at level 200).

(* ================================================================== *)
(** ** The model service client (package genai), as far as the program
    touches it *)

Module Genai.

Record FunctionDeclaration := {
  Name : string;
  Description : string
}.

(** The client, identified by the credential it was opened with. *)
Record Client := { apiKey : string }.

Record GenerativeModel := {
  gmClient : Client;
  gmName : string;
  Tools : list FunctionDeclaration
}.

(** The chat session; its history is kept by the service. *)
Record ChatSession := { csModel : GenerativeModel }.

(** A part of a reply: the two variants the program handles, and the
    rest. *)
Inductive Part :=
| Text (s : string)
| FunctionCall (name : string)
| OtherPart.

(** A candidate holds a pointer to its content: [None] is the nil
    pointer. *)
Record Candidate := { Content : option (list Part) }.

End Genai.

(* ================================================================== *)
(** ** Messages and commands of the event loop (package tea) *)

Module Tea.

Inductive Key :=
| KeyEnter
| KeyTab
| KeyCtrlC
| KeyRunes (runes : string)
| KeyOther (name : string).

(** [Key.String]: the name of a special key, the characters of typed
    text. *)
Definition keyString (k : Key) : string :=
  match k with
  | KeyEnter => "enter"
  | KeyTab => "tab"
  | KeyCtrlC => "ctrl+c"
  | KeyRunes r => r
  | KeyOther n => n
  end.

(** Payloads of the tracker replies ([jira.JiraIssue],
    [github.GitHubIssue]). *)
Record JiraIssue := {
  Key_ : string;
  Summary : string;
  StatusName : string
}.

Record GitHubIssue := {
  Number : Z;
  Title : string;
  State : string;
  Login : string
}.

(** [tea.Msg] is an open interface; these are the messages this program
    can meet.  The two trackers each declare their own [issuesFetchedMsg],
    slices of different element types: distinct types, hence distinct
    constructors.  Each of the three packages declares
    [type errMsg error], which is an interface type: [case errMsg] of a
    type switch takes every message whose dynamic type implements
    [error], whichever package's command made it, and an error message of
    the library as well.  [ErrMsg] is such a message, with the text of its
    [Error()]; [LibMsg] is any other message of the library. *)
Inductive Msg :=
| KeyMsg (k : Key)
| WindowSizeMsg (Width Height : Z)
| JiraIssuesFetched (issues : list JiraIssue)
| GitHubIssuesFetched (issues : list GitHubIssue)
| ChatResponse (s : string)
| ErrMsg (e : string)
| LibMsg (name : string).

(** [tea.Cmd]: a deferred computation, as a value.  [LibCmd] stands for a
    command of the widget library (cursor blinking and the like). *)
Inductive Cmd :=
| CmdNil
| Quit
| Batch (cmds : list Cmd)
| LibCmd (name : string)
| JiraFetchIssues
| GitHubFetchIssues
| ChatSendMessage (session : option Genai.ChatSession) (msg : string).

(** What the [Update] of a widget hands back: [tea.Quit] (the answer of
    the list widget to q and esc under its default key map) or a command
    of the library's own. *)
Inductive WidgetCmd :=
| WidgetQuit
| WidgetOwn (name : string).

Definition ofWidget (w : WidgetCmd) : Cmd :=
  match w with
  | WidgetQuit => Quit
  | WidgetOwn n => LibCmd n
  end.

(** The command of a widget, given by the commands it fans out to: none
    for nil. *)
Definition ofLib (c : list WidgetCmd) : Cmd := Batch (map ofWidget c).

(** The commands a (possibly batched) command fans out to; nil commands
    are dropped. *)
Fixpoint atoms (c : Cmd) : list Cmd :=
  match c with
  | CmdNil => []
  | Batch l => flat_map atoms l
  | _ => [c]
  end.

Definition isSend (c : Cmd) : bool :=
  match c with
  | ChatSendMessage _ _ => true
  | _ => false
  end.

(** Number of model-send commands a command fans out to. *)
Definition sends (c : Cmd) : nat := List.length (filter isSend (atoms c)).

End Tea.

(* ================================================================== *)
(** ** Widgets of the component library (package bubbles): the fields the
    program sets and reads *)

Module Widgets.

(** [viewport.Model] *)
Record Viewport := {
  vpWidth : Z;
  vpHeight : Z;
  vpContent : string;
  vpYOffset : Z
}.

(** [textinput.Model] *)
Record TextInput := {
  tiValue : string;
  tiPlaceholder : string;
  tiFocus : bool;
  tiCharLimit : Z;
  tiWidth : Z
}.

(** [textarea.Model] *)
Record TextArea := {
  taValue : string;
  taPlaceholder : string;
  taFocus : bool;
  taPrompt : string;
  taCharLimit : Z;
  taWidth : Z;
  taHeight : Z;
  taShowLineNumbers : bool;
  taInsertNewline : bool
}.

(** A list entry: both trackers declare the same [item] struct. *)
Record item := {
  title : string;
  desc : string
}.

(** [list.Model] *)
Record ListModel := {
  listTitle : string;
  listItems : list item;
  listWidth : Z;
  listHeight : Z;
  listShowHelp : bool
}.

Definition listNew (items : list item) (w h : Z) : ListModel :=
  {| listTitle := "List"; listItems := items;
     listWidth := w; listHeight := h; listShowHelp := true |}.

Definition SetSize (l : ListModel) (w h : Z) : ListModel :=
  {| listTitle := listTitle l; listItems := listItems l;
     listWidth := w; listHeight := h; listShowHelp := listShowHelp l |}.

Definition SetItems (l : ListModel) (items : list item) : ListModel :=
  {| listTitle := listTitle l; listItems := items;
     listWidth := listWidth l; listHeight := listHeight l;
     listShowHelp := listShowHelp l |}.

Definition SetShowHelp (l : ListModel) (b : bool) : ListModel :=
  {| listTitle := listTitle l; listItems := listItems l;
     listWidth := listWidth l; listHeight := listHeight l;
     listShowHelp := b |}.

Definition setTitle (l : ListModel) (t : string) : ListModel :=
  {| listTitle := t; listItems := listItems l;
     listWidth := listWidth l; listHeight := listHeight l;
     listShowHelp := listShowHelp l |}.

Definition viewportNew (w h : Z) : Viewport :=
  {| vpWidth := w; vpHeight := h; vpContent := ""; vpYOffset := 0 |}.

Definition setVpWidth (v : Viewport) (w : Z) : Viewport :=
  {| vpWidth := w; vpHeight := vpHeight v;
     vpContent := vpContent v; vpYOffset := vpYOffset v |}.

Definition setVpHeight (v : Viewport) (h : Z) : Viewport :=
  {| vpWidth := vpWidth v; vpHeight := h;
     vpContent := vpContent v; vpYOffset := vpYOffset v |}.

Definition setVpYOffset (v : Viewport) (y : Z) : Viewport :=
  {| vpWidth := vpWidth v; vpHeight := vpHeight v;
     vpContent := vpContent v; vpYOffset := y |}.

Definition setVpContent (v : Viewport) (s : string) : Viewport :=
  {| vpWidth := vpWidth v; vpHeight := vpHeight v;
     vpContent := s; vpYOffset := vpYOffset v |}.

(** Number of lines of a content string. *)
Fixpoint lineCount (s : string) : Z :=
  match s with
  | EmptyString => 1
  | String c r =>
      if Ascii.eqb c "010"%char then 1 + lineCount r else lineCount r
  end.

Definition textinputNew : TextInput :=
  {| tiValue := ""; tiPlaceholder := ""; tiFocus := false;
     tiCharLimit := 0; tiWidth := 0 |}.

Definition setTiValue (t : TextInput) (s : string) : TextInput :=
  {| tiValue := s; tiPlaceholder := tiPlaceholder t; tiFocus := tiFocus t;
     tiCharLimit := tiCharLimit t; tiWidth := tiWidth t |}.

Definition setTiWidth (t : TextInput) (w : Z) : TextInput :=
  {| tiValue := tiValue t; tiPlaceholder := tiPlaceholder t;
     tiFocus := tiFocus t; tiCharLimit := tiCharLimit t; tiWidth := w |}.

(** [textinput.Reset] *)
Definition tiReset (t : TextInput) : TextInput := setTiValue t "".

Definition setTaValue (t : TextArea) (s : string) : TextArea :=
  {| taValue := s; taPlaceholder := taPlaceholder t; taFocus := taFocus t;
     taPrompt := taPrompt t; taCharLimit := taCharLimit t;
     taWidth := taWidth t; taHeight := taHeight t;
     taShowLineNumbers := taShowLineNumbers t;
     taInsertNewline := taInsertNewline t |}.

(** [textarea.Reset] *)
Definition taReset (t : TextArea) : TextArea := setTaValue t "".

End Widgets.

(* ================================================================== *)
(** ** The outside world *)

(** The collaborators: operating system, HTTP and the model service.  An
    error is its text. *)
Module Collab.

Record Request := {
  URL : string;
  Header : list (string * string)
}.

Record Response := {
  StatusCode : Z;
  Status : string;
  Body : string
}.

Record Env := {
  (** [os.Getenv] *)
  Getenv : string -> string;
  (** [os.Getwd], its error dropped *)
  Getwd : string;
  (** [os.UserHomeDir], its error dropped: the empty string when the home
      directory is not known *)
  UserHomeDir : string;
  (** [os.Stat]: [None] on error, else whether the path is a directory *)
  Stat : string -> option bool;
  (** [exec.Command(name, args...)] run in a directory, by
      [CombinedOutput]: the output and the error, if any *)
  CombinedOutput : string -> list string -> string -> string * option string;
  (** [http.Client.Do] *)
  Do : Request -> string + Response;
  (** [genai.NewClient] *)
  NewClient : string -> string + Genai.Client;
  (** [ChatSession.SendMessage]: an error or the candidates of the reply *)
  SendMessage : Genai.ChatSession -> string -> string + list Genai.Candidate
}.

End Collab.

(** The library functions whose results the program uses without the
    program determining them: styling, path arithmetic, JSON coding and
    the widgets' own event handling and rendering. *)
Module Library.

Import Tea Widgets.

Record Lib := {
  (** [lipgloss.Style.Render] of the two styles the shell uses *)
  pathStyle : string -> string;
  errStyle : string -> string;
  (** [filepath.Base], [filepath.Join] *)
  Base : string -> string;
  Join : string -> string -> string;
  (** whether [http.NewRequest] can parse the URL; it returns a nil
      request otherwise *)
  urlParses : string -> bool;
  (** [base64.StdEncoding.EncodeToString] *)
  EncodeToString : string -> string;
  (** [json.Decoder.Decode] into the four targets the program uses: an
      error or the decoded value *)
  decodeJiraSearch : string -> string + list JiraIssue;
  decodeGitHubIssues : string -> string + list GitHubIssue;
  decodeMap : string -> string + Go.gomap;
  decodeMapSlice : string -> string + list Go.gomap;
  (** [json.MarshalIndent], its error dropped *)
  MarshalIndent : Go.any -> string;
  (** [viewport.View] and the largest scroll offset of a viewport *)
  viewportView : Viewport -> string;
  maxYOffset : Viewport -> Z;
  (** the widgets' [Update] *)
  viewportUpdate : Viewport -> Msg -> Viewport * list WidgetCmd;
  textinputUpdate : TextInput -> Msg -> TextInput * list WidgetCmd;
  textareaUpdate : TextArea -> Msg -> TextArea * list WidgetCmd;
  listUpdate : ListModel -> Msg -> ListModel * list WidgetCmd;
  (** what a command of the library yields when it is run *)
  libYield : string -> option Msg;
  (** [textarea.SetWidth], [textarea.SetHeight] *)
  textareaSetWidth : TextArea -> Z -> TextArea;
  textareaSetHeight : TextArea -> Z -> TextArea;
  (** the list widget changes its items only through [SetItems] and the
      like, never in [Update] *)
  listUpdate_items :
    forall l m, listItems (fst (listUpdate l m)) = listItems l
}.

Section Viewport.
Variable L : Lib.

(** [viewport.GotoBottom] *)
Definition GotoBottom (v : Viewport) : Viewport :=
  setVpYOffset v (maxYOffset L v).

(** [viewport.SetContent] *)
Definition SetContent (v : Viewport) (s : string) : Viewport :=
  let v := setVpContent v s in
  if vpYOffset v >? lineCount s - 1 then GotoBottom v else v.

End Viewport.

End Library.

(* ================================================================== *)
(** ** The Shell pane (package shell) *)

Module Shell.

Import Go Tea Widgets Collab Library.

Record Model := {
  viewport : Viewport;
  textInput : TextInput;
  currentDir : string
}.

Definition setViewport (m : Model) (v : Viewport) : Model :=
  {| viewport := v; textInput := textInput m; currentDir := currentDir m |}.

Definition setTextInput (m : Model) (t : TextInput) : Model :=
  {| viewport := viewport m; textInput := t; currentDir := currentDir m |}.

Definition setCurrentDir (m : Model) (d : string) : Model :=
  {| viewport := viewport m; textInput := textInput m; currentDir := d |}.

Section WithWorld.
Variable env : Env.
Variable L : Lib.

Definition New : Model :=
  let cwd := Getwd env in
  let ti :=
    {| tiValue := ""; tiPlaceholder := "Enter command..."; tiFocus := true;
       tiCharLimit := 156; tiWidth := 20 |} in
  let vp := viewportNew 30 20 in
  let vp :=
    SetContent L vp
      ("Welcome to TermiFlow Shell!" ++ nl ++
       "Current Directory: " ++ cwd ++ nl) in
  {| textInput := ti; viewport := vp; currentDir := cwd |}.

Definition Init (m : Model) : Cmd := LibCmd "textinput.Blink".

(** The directory [cd] is to enter: its argument, or the home directory
    without one, taken from the current directory unless absolute. *)
Definition cdTarget (m : Model) (cmdArgs : list string) : string :=
  let targetDir :=
    match cmdArgs with
    | a :: _ => a
    | [] => UserHomeDir env
    end in
  if negb (IsAbs targetDir) then Join L (currentDir m) targetDir
  else targetDir.

(** [executeCommand]: the output and the new directory (empty when the
    directory does not change). *)
Definition executeCommand (m : Model) (input : string)
  : result (string * string) :=
  if String.eqb (TrimSpace input) "" then Ok ("", "") else
  let parts := Fields input in
  let? cmdName := index parts 0 in
  let cmdArgs := tl parts in
  if String.eqb cmdName "cd" then
    let targetDir := cdTarget m cmdArgs in
    match Stat env targetDir with
    | Some true => Ok ("", targetDir)
    | _ =>
        let? a := index cmdArgs 0 in
        Ok (errStyle L ("cd: " ++ a ++ ": No such directory"), "")
    end
  else
    match CombinedOutput env cmdName cmdArgs (currentDir m) with
    | (_, Some err) => Ok (errStyle L ("Error: " ++ err), "")
    | (out, None) => Ok (out, "")
    end.

(** The line shown before an executed input. *)
Definition promptLine (m : Model) (cmdStr : string) : string :=
  pathStyle L (Base L (currentDir m)) ++ " $ " ++ cmdStr.

Definition Update (m : Model) (msg : Msg) : result (Model * Cmd) :=
  let '(ti, tiCmd) := textinputUpdate L (textInput m) msg in
  let '(vp, vpCmd) := viewportUpdate L (viewport m) msg in
  let m := setViewport (setTextInput m ti) vp in
  let? m :=
    match msg with
    | KeyMsg KeyEnter =>
        let cmdStr := tiValue (textInput m) in
        let m := setTextInput m (tiReset (textInput m)) in
        let? (output, newDir) := executeCommand m cmdStr in
        let m := if negb (String.eqb newDir "") then setCurrentDir m newDir
                 else m in
        let prompt := promptLine m cmdStr in
        let newContent :=
          viewportView L (viewport m) ++ nl ++ prompt ++ nl ++ output in
        Ok (setViewport m
              (GotoBottom L (SetContent L (viewport m) newContent)))
    | WindowSizeMsg w h =>
        let m := setViewport m (setVpWidth (viewport m) w) in
        let m := setTextInput m (setTiWidth (textInput m) w) in
        Ok (setViewport m (setVpHeight (viewport m) (wrap64 (h - 3))))
    | _ => Ok m
    end in
  Ok (m, Batch [ofLib tiCmd; ofLib vpCmd]).

(** The input line an Enter submits, and the transcript as the viewport
    shows it at that moment: both after the widgets have seen the key. *)
Definition submitted (m : Model) : string :=
  tiValue (fst (textinputUpdate L (textInput m) (KeyMsg KeyEnter))).

Definition shown (m : Model) : string :=
  viewportView L (fst (viewportUpdate L (viewport m) (KeyMsg KeyEnter))).

End WithWorld.

End Shell.

(* ================================================================== *)
(** ** The Jira pane (package jira) *)

Module Jira.

Import Go Tea Widgets Collab Library.

Record Model := {
  list : ListModel;
  loading : bool;
  err : option string
}.

Definition setList (m : Model) (l : ListModel) : Model :=
  {| list := l; loading := loading m; err := err m |}.

Definition setLoading (m : Model) (b : bool) : Model :=
  {| list := list m; loading := b; err := err m |}.

Definition setErr (m : Model) (e : option string) : Model :=
  {| list := list m; loading := loading m; err := e |}.

Definition New : Model :=
  let l :=
    listNew
      [ {| title := "Setup Required";
           desc := "Please set JIRA_URL, JIRA_EMAIL, JIRA_TOKEN" |} ] 0 0 in
  let l := setTitle l "Jira Issues" in
  let l := SetShowHelp l false in
  {| list := l; loading := false; err := None |}.

Definition noIssues : item :=
  {| title := "No issues found"; desc := "You have no assigned issues." |}.

Definition issueItem (issue : JiraIssue) : item :=
  {| title := Key_ issue ++ " " ++ Summary issue;
     desc := "Status: " ++ StatusName issue |}.

Section WithWorld.
Variable env : Env.
Variable L : Lib.

(** The work of the command [fetchIssues] returns: the message it yields,
    if any. *)
Definition fetchIssues : result (option Msg) :=
  let baseURL := Getenv env "JIRA_URL" in
  let email := Getenv env "JIRA_EMAIL" in
  let token := Getenv env "JIRA_TOKEN" in
  if String.eqb baseURL "" || String.eqb email "" || String.eqb token ""
  then Ok None
  else
    let url := baseURL ++ "/rest/api/3/search?jql=assignee=currentUser()" in
    if negb (urlParses L url)
    then Panic "invalid memory address or nil pointer dereference"
    else
      let auth := EncodeToString L (email ++ ":" ++ token) in
      let req :=
        {| URL := url;
           Header := [("Authorization", "Basic " ++ auth);
                      ("Accept", "application/json")] |} in
      match Do env req with
      | inl e => Ok (Some (ErrMsg e))
      | inr resp =>
          if negb (StatusCode resp =? 200)
          then Ok (Some (ErrMsg ("API Error: " ++ Status resp)))
          else
            match decodeJiraSearch L (Body resp) with
            | inl e => Ok (Some (ErrMsg e))
            | inr issues => Ok (Some (JiraIssuesFetched issues))
            end
      end.

Definition Init (m : Model) : Cmd := JiraFetchIssues.

Definition Update (m : Model) (msg : Msg) : Model * Cmd :=
  let m :=
    match msg with
    | WindowSizeMsg w h => setList m (SetSize (list m) w h)
    | JiraIssuesFetched issues =>
        let items := map issueItem issues in
        let m :=
          if (0 <? Z.of_nat (List.length items))
          then setList m (SetItems (list m) items)
          else setList m (SetItems (list m) [noIssues]) in
        setLoading m false
    | ErrMsg e =>
        let m := setErr m (Some e) in
        let m := setLoading m false in
        setList m (SetItems (list m) [ {| title := "Error"; desc := e |} ])
    | _ => m
    end in
  let '(l, cmd) := listUpdate L (list m) msg in
  (setList m l, ofLib cmd).

(** [SetSize] on the pane. *)
Definition SetSize (m : Model) (width height : Z) : Model :=
  setList m (Widgets.SetSize (list m) width height).

End WithWorld.

End Jira.

(* ================================================================== *)
(** ** The GitHub pane (package github) *)

Module GitHub.

Import Go Tea Widgets Collab Library.

Record Model := {
  list : ListModel;
  loading : bool;
  err : option string
}.

Definition setList (m : Model) (l : ListModel) : Model :=
  {| list := l; loading := loading m; err := err m |}.

Definition setLoading (m : Model) (b : bool) : Model :=
  {| list := list m; loading := b; err := err m |}.

Definition setErr (m : Model) (e : option string) : Model :=
  {| list := list m; loading := loading m; err := e |}.

Definition New : Model :=
  let l := listNew [] 0 0 in
  let l := setTitle l "GitHub Issues (charmbracelet/bubbletea)" in
  let l := SetShowHelp l false in
  {| list := l; loading := false; err := None |}.

Definition issueItem (issue : GitHubIssue) : item :=
  {| title := "#" ++ itoa (Number issue) ++ " " ++ Title issue;
     desc := "by " ++ Login issue ++ " [" ++ State issue ++ "]" |}.

Section WithWorld.
Variable env : Env.
Variable L : Lib.

Definition fetchIssues : result (option Msg) :=
  let url :=
    "https://api.github.com/repos/charmbracelet/bubbletea/issues?state=open&per_page=10" in
  if negb (urlParses L url)
  then Panic "invalid memory address or nil pointer dereference"
  else
    let token := Getenv env "GITHUB_TOKEN" in
    let req :=
      {| URL := url;
         Header :=
           ("User-Agent", "TermiFlow") ::
           (if negb (String.eqb token "")
            then [("Authorization", "Bearer " ++ token)] else []) |} in
    match Do env req with
    | inl e => Ok (Some (ErrMsg e))
    | inr resp =>
        if negb (StatusCode resp =? 200)
        then Ok (Some (ErrMsg ("API Error: " ++ Status resp)))
        else
          match decodeGitHubIssues L (Body resp) with
          | inl e => Ok (Some (ErrMsg e))
          | inr issues => Ok (Some (GitHubIssuesFetched issues))
          end
    end.

Definition Init (m : Model) : Cmd := GitHubFetchIssues.

Definition Update (m : Model) (msg : Msg) : Model * Cmd :=
  let m :=
    match msg with
    | WindowSizeMsg w h => setList m (SetSize (list m) w h)
    | GitHubIssuesFetched issues =>
        let items := map issueItem issues in
        let m := setList m (SetItems (list m) items) in
        setLoading m false
    | ErrMsg e =>
        let m := setErr m (Some e) in
        setLoading m false
    | _ => m
    end in
  let '(l, cmd) := listUpdate L (list m) msg in
  (setList m l, ofLib cmd).

Definition SetSize (m : Model) (width height : Z) : Model :=
  setList m (Widgets.SetSize (list m) width height).

End WithWorld.

End GitHub.

(* ================================================================== *)
(** ** The Chat pane and its tools (package chat) *)

Module Chat.

Import Go Tea Widgets Collab Library.

Record Message := {
  Role : string;
  Content : string
}.

Record Model := {
  viewport : Viewport;
  textarea : TextArea;
  messages : list Message;
  client : option Genai.Client;
  model : option Genai.GenerativeModel;
  chatSession : option Genai.ChatSession;
  initialized : bool
}.

Definition setViewport (m : Model) (v : Viewport) : Model :=
  {| viewport := v; textarea := textarea m; messages := messages m;
     client := client m; model := model m; chatSession := chatSession m;
     initialized := initialized m |}.

Definition setTextarea (m : Model) (t : TextArea) : Model :=
  {| viewport := viewport m; textarea := t; messages := messages m;
     client := client m; model := model m; chatSession := chatSession m;
     initialized := initialized m |}.

Definition setMessages (m : Model) (l : list Message) : Model :=
  {| viewport := viewport m; textarea := textarea m; messages := l;
     client := client m; model := model m; chatSession := chatSession m;
     initialized := initialized m |}.

(** Tool declarations advertised to the model. *)
Definition tools : list Genai.FunctionDeclaration :=
  [ {| Genai.Name := "get_github_issues";
       Genai.Description :=
         "Get list of open GitHub issues for the configured repository." |};
    {| Genai.Name := "get_jira_issues";
       Genai.Description :=
         "Get list of Jira issues assigned to the current user." |} ].

Section WithWorld.
Variable env : Env.
Variable L : Lib.

(** *** Tools.  A tool returns an error ([inl]) or a payload, or panics. *)

Definition getGitHubIssues : result (string + any) :=
  let repo := Getenv env "GITHUB_REPO" in
  let repo := if String.eqb repo "" then "charmbracelet/bubbletea" else repo in
  let url :=
    "https://api.github.com/repos/" ++ repo ++
    "/issues?state=open&per_page=5" in
  if negb (urlParses L url)
  then Panic "invalid memory address or nil pointer dereference"
  else
    let token := Getenv env "GITHUB_TOKEN" in
    let req :=
      {| URL := url;
         Header :=
           ("User-Agent", "TermiFlow") ::
           (if negb (String.eqb token "")
            then [("Authorization", "Bearer " ++ token)] else []) |} in
    match Do env req with
    | inl e => Ok (inl e)
    | inr resp =>
        if negb (StatusCode resp =? 200)
        then Ok (inl ("GitHub API Error: " ++ Status resp))
        else
          match decodeMapSlice L (Body resp) with
          | inl e => Ok (inl e)
          | inr issues =>
              let? simplified :=
                forEach
                  (fun i : gomap =>
                     let? user := assertMap (lookup i "user") in
                     Ok (AMap [("number", lookup i "number");
                               ("title", lookup i "title");
                               ("user", lookup user "login");
                               ("state", lookup i "state")]))
                  issues in
              Ok (inr (AMap [("issues", sliceValue simplified)]))
          end
    end.

(** The request of the Jira tool. *)
Definition jiraToolRequest : Request :=
  let baseURL := Getenv env "JIRA_URL" in
  let email := Getenv env "JIRA_EMAIL" in
  let token := Getenv env "JIRA_TOKEN" in
  let url :=
    baseURL ++ "/rest/api/3/search?jql=assignee=currentUser()&maxResults=5" in
  let auth := EncodeToString L (email ++ ":" ++ token) in
  {| URL := url;
     Header := [("Authorization", "Basic " ++ auth);
                ("Accept", "application/json")] |}.

Definition getJiraIssues : result (string + any) :=
  let baseURL := Getenv env "JIRA_URL" in
  let email := Getenv env "JIRA_EMAIL" in
  let token := Getenv env "JIRA_TOKEN" in
  if String.eqb baseURL "" || String.eqb email "" || String.eqb token ""
  then Ok (inl "Jira credentials not set (JIRA_URL, JIRA_EMAIL, JIRA_TOKEN)")
  else
    let req := jiraToolRequest in
    if negb (urlParses L (URL req))
    then Panic "invalid memory address or nil pointer dereference"
    else
      match Do env req with
      | inl e => Ok (inl e)
      | inr resp =>
          if negb (StatusCode resp =? 200)
          then Ok (inl ("Jira API Error: " ++ Status resp))
          else
            match decodeMap L (Body resp) with
            | inl e => Ok (inl e)
            | inr result =>
                let? issues := assertSlice (lookup result "issues") in
                let? simplified :=
                  forEach
                    (fun i : any =>
                       let? issue := assertMap i in
                       let? fields := assertMap (lookup issue "fields") in
                       let? status := assertMap (lookup fields "status") in
                       Ok (AMap [("key", lookup issue "key");
                                 ("summary", lookup fields "summary");
                                 ("status", lookup status "name")]))
                    issues in
                Ok (inr (AMap [("issues", sliceValue simplified)]))
            end
      end.

(** The catalog [toolFunctions]. *)
Definition toolFunctions (name : string) : option (result (string + any)) :=
  if String.eqb name "get_github_issues" then Some getGitHubIssues
  else if String.eqb name "get_jira_issues" then Some getJiraIssues
  else None.

(** *** The pane *)

Definition New : Model :=
  let ta :=
    {| taValue := "";
       taPlaceholder := "Ask Gemini... (Ensure GEMINI_API_KEY is set)";
       taFocus := true; taPrompt := "┃ "; taCharLimit := 1000;
       taWidth := 0; taHeight := 0;
       taShowLineNumbers := false; taInsertNewline := false |} in
  let ta := textareaSetWidth L ta 50 in
  let ta := textareaSetHeight L ta 3 in
  let vp := viewportNew 50 10 in
  let vp :=
    SetContent L vp
      ("Welcome to The Bridge Chat! 🤖" ++ nl ++
       "Type a message and press Enter to chat with Gemini." ++ nl) in
  {| textarea := ta; viewport := vp; messages := [];
     client := None; model := None; chatSession := None;
     initialized := false |}.

Definition Init (m : Model) : Cmd := LibCmd "textarea.Blink".

(** [ensureClient]: the model as the method leaves it, and its error. *)
Definition ensureClient (m : Model) : Model * option string :=
  match client m with
  | Some _ => (m, None)
  | None =>
      let apiKey := Getenv env "GEMINI_API_KEY" in
      if String.eqb apiKey ""
      then (m, Some "GEMINI_API_KEY environment variable not set")
      else
        match NewClient env apiKey with
        | inl e => (m, Some e)
        | inr c =>
            let modelName := Getenv env "GEMINI_MODEL" in
            let modelName :=
              if String.eqb modelName "" then "gemini-1.5-flash-002"
              else modelName in
            let gm :=
              {| Genai.gmClient := c; Genai.gmName := modelName;
                 Genai.Tools := tools |} in
            ({| viewport := viewport m; textarea := textarea m;
                messages := messages m; client := Some c; model := Some gm;
                chatSession := Some {| Genai.csModel := gm |};
                initialized := true |}, None)
        end
  end.

(** What one part of a reply adds to the response text. *)
Definition renderPart (p : Genai.Part) : result string :=
  match p with
  | Genai.Text t => Ok t
  | Genai.FunctionCall name =>
      match toolFunctions name with
      | Some fn =>
          let? r := fn in
          match r with
          | inl e =>
              Ok (nl ++ "[Error executing " ++ name ++ ": " ++ e ++ "]" ++ nl)
          | inr res =>
              Ok (nl ++ "[Tool " ++ name ++ " Output]:" ++ nl ++
                  MarshalIndent L res ++ nl)
          end
      | None => Ok (nl ++ "[Unknown tool: " ++ name ++ "]" ++ nl)
      end
  | Genai.OtherPart => Ok ""
  end.

(** The work of the command [sendMessage] returns. *)
Definition runSendMessage (session : option Genai.ChatSession) (msg : string)
  : result Msg :=
  let apiKey := Getenv env "GEMINI_API_KEY" in
  if String.eqb apiKey "" then Ok (ErrMsg "GEMINI_API_KEY not set")
  else
    match session with
    | None => Ok (ErrMsg "Chat session not initialized")
    | Some s =>
        match SendMessage env s msg with
        | inl e => Ok (ErrMsg e)
        | inr [] => Ok (ErrMsg "empty response")
        | inr (c :: _) =>
            match Genai.Content c with
            | None => Panic "invalid memory address or nil pointer dereference"
            | Some [] => Ok (ErrMsg "empty response")
            | Some parts =>
                let? texts := forEach renderPart parts in
                Ok (ChatResponse (String.concat "" texts))
            end
        end
    end.

(** The command [sendMessage] captures the model by value; the work reads
    its session pointer only. *)
Definition sendMessage (m : Model) (msg : string) : Cmd :=
  ChatSendMessage (chatSession m) msg.

Definition renderMessage (msg : Message) : string :=
  if String.eqb (Role msg) "user" then nl ++ "You: " ++ Content msg ++ nl
  else if String.eqb (Role msg) "model" then "Gemini: " ++ Content msg ++ nl
  else Content msg ++ nl.

Definition updateViewport (m : Model) : Model :=
  let sb := String.concat "" (map renderMessage (messages m)) in
  if (0 <? Z.of_nat (List.length (messages m)))
  then setViewport m (GotoBottom L (SetContent L (viewport m) sb))
  else m.

Definition append (m : Model) (role content : string) : Model :=
  setMessages m (messages m ++ [ {| Role := role; Content := content |} ]).

Definition Update (m : Model) (msg : Msg) : Model * Cmd :=
  let '(ta, tiCmd) := textareaUpdate L (textarea m) msg in
  let '(vp, vpCmd) := viewportUpdate L (viewport m) msg in
  let m := setViewport (setTextarea m ta) vp in
  let done (m : Model) := (m, Batch [ofLib tiCmd; ofLib vpCmd]) in
  match msg with
  | KeyMsg KeyEnter =>
      if String.eqb (taValue (textarea m)) "" then done m
      else
        let userMsg := taValue (textarea m) in
        match ensureClient m with
        | (m, Some e) =>
            let m := append m "system" ("Error: " ++ e) in
            let m := updateViewport m in
            let m := setTextarea m (taReset (textarea m)) in
            (m, CmdNil)
        | (m, None) =>
            let m := append m "user" userMsg in
            let m := updateViewport m in
            let m := setTextarea m (taReset (textarea m)) in
            (m, Batch [ofLib tiCmd; ofLib vpCmd; sendMessage m userMsg])
        end
  | ChatResponse s =>
      done (updateViewport (append m "model" s))
  | ErrMsg e =>
      done (updateViewport (append m "system" ("Error: " ++ e)))
  | _ => done m
  end.

(** Whether [ensureClient] has or obtains a client. *)
Definition clientReady (m : Model) : bool :=
  match snd (ensureClient m) with
  | None => true
  | Some _ => false
  end.

(** Whether a message is an Enter that submits text to the model: the
    text is not empty and the client is there. *)
Definition submits (m : Model) (msg : Msg) : bool :=
  match msg with
  | KeyMsg KeyEnter =>
      negb (String.eqb (taValue (fst (textareaUpdate L (textarea m) msg))) "")
      && clientReady m
  | _ => false
  end.

(** Model-send commands issued in a run of the pane and not answered in
    it: every command issued adds one and every reply the pane handles
    answers one.  An error the pane handles is counted as an answer, too,
    although it need not stem from a send (an error value does not tell
    which command made it): the number errs on the low side. *)
Fixpoint inFlight (m : Model) (pending : nat) (msgs : list Msg) : nat :=
  match msgs with
  | [] => pending
  | msg :: rest =>
      let '(m', c) := Update m msg in
      let settled :=
        match msg with
        | ChatResponse _ | ErrMsg _ => 1%nat
        | _ => 0%nat
        end in
      inFlight m' (pending - settled + sends c)%nat rest
  end.

Definition SetSize (m : Model) (w h : Z) : Model :=
  let m := setTextarea m (textareaSetWidth L (textarea m) w) in
  let m := setViewport m (setVpWidth (viewport m) w) in
  setViewport m
    (setVpHeight (viewport m) (wrap64 (wrap64 (h - taHeight (textarea m)) - 2))).

End WithWorld.

End Chat.

(* ================================================================== *)
(** ** The composer (package ui) *)

Module UI.

Import Go Tea Widgets Collab Library.

(** [sessionState] *)
Definition viewShell : Z := 0.
Definition viewJira : Z := 1.
Definition viewGitHub : Z := 2.
Definition viewChat : Z := 3.

Record Model := {
  state : Z;
  tabs : list string;
  shell : Shell.Model;
  jira : Jira.Model;
  github : GitHub.Model;
  chat : Chat.Model;
  width : Z;
  height : Z
}.

Definition setState (m : Model) (s : Z) : Model :=
  {| state := s; tabs := tabs m; shell := shell m; jira := jira m;
     github := github m; chat := chat m;
     width := width m; height := height m |}.

Definition setShell (m : Model) (p : Shell.Model) : Model :=
  {| state := state m; tabs := tabs m; shell := p; jira := jira m;
     github := github m; chat := chat m;
     width := width m; height := height m |}.

Definition setJira (m : Model) (p : Jira.Model) : Model :=
  {| state := state m; tabs := tabs m; shell := shell m; jira := p;
     github := github m; chat := chat m;
     width := width m; height := height m |}.

Definition setGitHub (m : Model) (p : GitHub.Model) : Model :=
  {| state := state m; tabs := tabs m; shell := shell m; jira := jira m;
     github := p; chat := chat m;
     width := width m; height := height m |}.

Definition setChat (m : Model) (p : Chat.Model) : Model :=
  {| state := state m; tabs := tabs m; shell := shell m; jira := jira m;
     github := github m; chat := p;
     width := width m; height := height m |}.

Definition setSize (m : Model) (w h : Z) : Model :=
  {| state := state m; tabs := tabs m; shell := shell m; jira := jira m;
     github := github m; chat := chat m;
     width := w; height := h |}.

Section WithWorld.
Variable env : Env.
Variable L : Lib.

Definition New : Model :=
  {| state := viewShell;
     tabs := ["Shell"; "Jira"; "GitHub"; "Chat"];
     shell := Shell.New env L;
     jira := Jira.New;
     github := GitHub.New;
     chat := Chat.New L;
     width := 0; height := 0 |}.

Definition Init (m : Model) : Cmd :=
  Batch [Shell.Init (shell m); Jira.Init (jira m);
         GitHub.Init (github m); Chat.Init (chat m)].

(** The second half of [Update]: the message goes to the active pane. *)
Definition updateActive (m : Model) (msg : Msg) : result (Model * Cmd) :=
  let? (m, cmds) :=
    if state m =? viewShell then
      let? (p, cmd) := Shell.Update env L (shell m) msg in
      Ok (setShell m p, [cmd])
    else if state m =? viewJira then
      let '(p, cmd) := Jira.Update L (jira m) msg in
      Ok (setJira m p, [cmd])
    else if state m =? viewGitHub then
      let '(p, cmd) := GitHub.Update L (github m) msg in
      Ok (setGitHub m p, [cmd])
    else if state m =? viewChat then
      let '(p, cmd) := Chat.Update env L (chat m) msg in
      Ok (setChat m p, [cmd])
    else Ok (m, []) in
  Ok (m, Batch cmds).

Definition Update (m : Model) (msg : Msg) : result (Model * Cmd) :=
  match msg with
  | KeyMsg k =>
      if String.eqb (keyString k) "ctrl+c" then Ok (m, Quit)
      else if String.eqb (keyString k) "tab" then
        let n := Z.of_nat (List.length (tabs m)) in
        if n =? 0 then Panic "runtime error: integer divide by zero"
        else Ok (setState m (Z.rem (wrap64 (state m + 1)) n), CmdNil)
      else updateActive m msg
  | WindowSizeMsg w h =>
      let m := setSize m w h in
      let contentHeight := wrap64 (h - 5) in
      let m := setJira m (Jira.SetSize (jira m) w contentHeight) in
      let m := setGitHub m (GitHub.SetSize (github m) w contentHeight) in
      let m := setChat m (Chat.SetSize L (chat m) w contentHeight) in
      updateActive m msg
  | _ => updateActive m msg
  end.

(** What the executor obtains from running one command that is not a
    batch: the message it yields, if any.  The three commands of the
    program do the work below; a command of the library yields what the
    library decides. *)
Definition run (c : Cmd) : result (option Msg) :=
  match c with
  | JiraFetchIssues => Jira.fetchIssues env L
  | GitHubFetchIssues => GitHub.fetchIssues env L
  | ChatSendMessage session msg =>
      let? r := Chat.runSendMessage env L session msg in Ok (Some r)
  | LibCmd n => Ok (libYield L n)
  | _ => Ok None
  end.

(** The loop threads the model through the messages as they arrive and
    hands the commands to the executor. *)
Fixpoint runAll (m : Model) (msgs : list Msg) : result (Model * list Cmd) :=
  match msgs with
  | [] => Ok (m, [])
  | msg :: rest =>
      let? (m, c) := Update m msg in
      let? (m, cs) := runAll m rest in
      Ok (m, c :: cs)
  end.

End WithWorld.

(** The active-pane index names a tab, and the tab count is an [int]. *)
Definition wf (m : Model) : Prop :=
  0 <= state m < Z.of_nat (List.length (tabs m)) /\
  Z.of_nat (List.length (tabs m)) < 2 ^ 63.

(** The four panes. *)
Inductive Pane := PShell | PJira | PGitHub | PChat.

(** The pane under the active tab. *)
Definition active (m : Model) : option Pane :=
  if state m =? viewShell then Some PShell
  else if state m =? viewJira then Some PJira
  else if state m =? viewGitHub then Some PGitHub
  else if state m =? viewChat then Some PChat
  else None.

(** Between two models of the composer: the pane handled the message, or
    the pane is as it was. *)
Definition delivered (env : Env) (L : Lib) (p : Pane) (msg : Msg)
           (m m' : Model) : Prop :=
  match p with
  | PShell => exists c, Shell.Update env L (shell m) msg = Ok (shell m', c)
  | PJira => jira m' = fst (Jira.Update L (jira m) msg)
  | PGitHub => github m' = fst (GitHub.Update L (github m) msg)
  | PChat => chat m' = fst (Chat.Update env L (chat m) msg)
  end.

Definition untouched (p : Pane) (m m' : Model) : Prop :=
  match p with
  | PShell => shell m' = shell m
  | PJira => jira m' = jira m
  | PGitHub => github m' = github m
  | PChat => chat m' = chat m
  end.

End UI.

(* ================================================================== *)
(** ** A concrete world, for running the program on examples *)

Module Sample.

Import Go Tea Widgets Collab Library.

Definition dq : string := String "034"%char EmptyString.

(** Last element of a slash-separated path. *)
Fixpoint lastElem (cur : string) (s : string) : string :=
  match s with
  | EmptyString => cur
  | String c r =>
      if Ascii.eqb c "/"%char then lastElem EmptyString r
      else lastElem (cur ++ String c EmptyString) r
  end.

(** A widget library without styling whose text widgets append typed
    characters, on a terminal that shows a viewport's whole content. *)
Definition typed (v : string) (msg : Msg) : string :=
  match msg with
  | KeyMsg (KeyRunes r) => v ++ r
  | _ => v
  end.

Definition jiraBody : string := "{issues:[BR-7]}".

Definition lib : Lib :=
  {| pathStyle := fun s => s;
     errStyle := fun s => s;
     Base := lastElem EmptyString;
     Join := fun a b => if String.eqb b "" then a else a ++ "/" ++ b;
     urlParses := fun _ => true;
     EncodeToString := fun s => "base64:" ++ s;
     decodeJiraSearch := fun body =>
       if String.eqb body jiraBody
       then inr [ {| Key_ := "BR-7"; Summary := "Fix tabs";
                     StatusName := "Open" |} ]
       else if String.eqb body "{}" then inr []
       else inl "invalid character";
     decodeGitHubIssues := fun body =>
       if String.eqb body "[]" then inr [] else inl "invalid character";
     decodeMap := fun body =>
       if String.eqb body "{}" then inr [] else inl "invalid character";
     decodeMapSlice := fun body =>
       if String.eqb body "[]" then inr [] else inl "invalid character";
     MarshalIndent := fun v =>
       match v with
       | AMap [(k, Nil)] =>
           "{" ++ nl ++ "  " ++ dq ++ k ++ dq ++ ": null" ++ nl ++ "}"
       | _ => "{}"
       end;
     viewportView := vpContent;
     maxYOffset := fun v => Z.max 0 (lineCount (vpContent v) - vpHeight v);
     viewportUpdate := fun v _ => (v, []);
     textinputUpdate := fun t msg => (setTiValue t (typed (tiValue t) msg), []);
     textareaUpdate := fun t msg => (setTaValue t (typed (taValue t) msg), []);
     listUpdate := fun l _ => (l, []);
     libYield := fun n => Some (LibMsg n);
     textareaSetWidth := fun t w =>
       {| taValue := taValue t; taPlaceholder := taPlaceholder t;
          taFocus := taFocus t; taPrompt := taPrompt t;
          taCharLimit := taCharLimit t; taWidth := w; taHeight := taHeight t;
          taShowLineNumbers := taShowLineNumbers t;
          taInsertNewline := taInsertNewline t |};
     textareaSetHeight := fun t h =>
       {| taValue := taValue t; taPlaceholder := taPlaceholder t;
          taFocus := taFocus t; taPrompt := taPrompt t;
          taCharLimit := taCharLimit t; taWidth := taWidth t; taHeight := h;
          taShowLineNumbers := taShowLineNumbers t;
          taInsertNewline := taInsertNewline t |};
     listUpdate_items := fun _ _ => eq_refl |}.

(** A machine with Jira and model credentials.  Its file system holds the
    directories [/home/dev] and [/home/dev/bridge] and the file
    [/home/dev/bridge/notes.txt]; [home] is what [os.UserHomeDir]
    reports.  The Jira search of the pane answers with one issue, the
    search of the chat tool with an empty object, GitHub with an empty
    array; the model answers the question [issues?] with a call of
    [get_github_issues], [jira?] with a call of [get_jira_issues] and
    anything else with a greeting. *)
Definition machine (home : string) : Env :=
  {| Getenv := fun k =>
       if String.eqb k "JIRA_URL" then "https://acme.example"
       else if String.eqb k "JIRA_EMAIL" then "dev@acme.example"
       else if String.eqb k "JIRA_TOKEN" then "s3cret"
       else if String.eqb k "GEMINI_API_KEY" then "key"
       else "";
     Getwd := "/home/dev/bridge";
     UserHomeDir := home;
     Stat := fun p =>
       if String.eqb p "/home/dev" then Some true
       else if String.eqb p "/home/dev/bridge" then Some true
       else if String.eqb p "/home/dev/bridge/notes.txt" then Some false
       else None;
     CombinedOutput := fun name args dir =>
       if String.eqb name "echo" then (String.concat " " args ++ nl, None)
       else ("", Some "exec: not found");
     Do := fun req =>
       if String.eqb (URL req)
            "https://acme.example/rest/api/3/search?jql=assignee=currentUser()"
       then inr {| StatusCode := 200; Status := "200 OK"; Body := jiraBody |}
       else if HasPrefix (URL req) "https://acme.example/"
       then inr {| StatusCode := 200; Status := "200 OK"; Body := "{}" |}
       else if HasPrefix (URL req) "https://api.github.com/"
       then inr {| StatusCode := 200; Status := "200 OK"; Body := "[]" |}
       else inl "no such host";
     NewClient := fun k => inr {| Genai.apiKey := k |};
     SendMessage := fun _ text =>
       if String.eqb text "issues?"
       then inr [ {| Genai.Content :=
                       Some [Genai.FunctionCall "get_github_issues"] |} ]
       else if String.eqb text "jira?"
       then inr [ {| Genai.Content :=
                       Some [Genai.FunctionCall "get_jira_issues"] |} ]
       else inr [ {| Genai.Content := Some [Genai.Text "Hello!"] |} ] |}.

Definition env : Env := machine "/home/dev".

(** The same machine when the reported home directory does not exist. *)
Definition homeless : Env := machine "/home/ghost".

(** Typing a text, as one key message. *)
Definition type (s : string) : Msg := KeyMsg (KeyRunes s).
Definition enter : Msg := KeyMsg KeyEnter.
Definition tab : Msg := KeyMsg KeyTab.

(** The chat session [ensureClient] opens on this machine. *)
Definition session : Genai.ChatSession :=
  {| Genai.csModel :=
       {| Genai.gmClient := {| Genai.apiKey := "key" |};
          Genai.gmName := "gemini-1.5-flash-002";
          Genai.Tools := Chat.tools |} |}.

(** The fresh Chat pane with a text typed into its input. *)
Definition chatTyped (text : string) : Chat.Model :=
  let m := Chat.New lib in
  Chat.setTextarea m (setTaValue (Chat.textarea m) text).

(** The fresh Shell pane with a line typed into its input. *)
Definition shellTyped (line : string) : Shell.Model :=
  let m := Shell.New env lib in
  Shell.setTextInput m (setTiValue (Shell.textInput m) line).

End Sample.

(* ================================================================== *)
(** ** Rendering: the [View] methods *)

Module Render.

Import Go Tea Widgets Collab Library.

(** What the views obtain from the rendering library: the widgets' own
    views and the styles of package ui. *)
Record Surface := {
  (** [list.Model.View], [textinput.Model.View], [textarea.Model.View] *)
  listView : ListModel -> string;
  textinputView : TextInput -> string;
  textareaView : TextArea -> string;
  (** [lipgloss.NewStyle().Margin(1, 2).Render] *)
  marginStyle : string -> string;
  (** [activeTabStyle.Render], [inactiveTabStyle.Render] *)
  activeTabStyle : string -> string;
  inactiveTabStyle : string -> string;
  (** [lipgloss.JoinHorizontal(lipgloss.Top, ...)] *)
  JoinHorizontal : list string -> string;
  (** [docStyle.Render] *)
  docStyle : string -> string
}.

Section WithSurface.
Variable L : Lib.
Variable S : Surface.

(** [shell.Model.View] *)
Definition ShellView (m : Shell.Model) : string :=
  viewportView L (Shell.viewport m) ++ nl ++
  pathStyle L (Base L (Shell.currentDir m)) ++ " $ " ++
  textinputView S (Shell.textInput m).

(** [jira.Model.View] *)
Definition JiraView (m : Jira.Model) : string :=
  marginStyle S (listView S (Jira.list m)).

(** [github.Model.View] *)
Definition GitHubView (m : GitHub.Model) : string :=
  match GitHub.err m with
  | Some e => "Error: " ++ e
  | None => marginStyle S (listView S (GitHub.list m))
  end.

(** [chat.Model.View] *)
Definition ChatView (m : Chat.Model) : string :=
  viewportView L (Chat.viewport m) ++ nl ++ nl ++
  textareaView S (Chat.textarea m).

(** The loop over the tabs in [ui.Model.View]: [i] is the index of the
    first of [tabs]. *)
Fixpoint renderTabs (state i : Z) (tabs : list string) : list string :=
  match tabs with
  | [] => []
  | t :: rest =>
      (if i =? state then activeTabStyle S t else inactiveTabStyle S t)
        :: renderTabs state (i + 1) rest
  end.

(** [ui.Model.View] *)
Definition View (m : UI.Model) : string :=
  let row := JoinHorizontal S (renderTabs (UI.state m) 0 (UI.tabs m)) in
  docStyle S
    (row ++ nl ++ nl ++
     (if UI.state m =? UI.viewShell then ShellView (UI.shell m)
      else if UI.state m =? UI.viewJira then JiraView (UI.jira m)
      else if UI.state m =? UI.viewGitHub then GitHubView (UI.github m)
      else if UI.state m =? UI.viewChat then ChatView (UI.chat m)
      else "")).

End WithSurface.

End Render.

(* ================================================================== *)
(** ** Runs of a single pane, and shapes of tool payloads *)

Module Runs.

Import Go Tea Widgets Collab Library.

(** A tracker pane handling messages one after the other. *)
Definition githubRun (L : Lib) (m : GitHub.Model) (msgs : list Msg)
  : GitHub.Model :=
  fold_left (fun m msg => fst (GitHub.Update L m msg)) msgs m.

Definition jiraRun (L : Lib) (m : Jira.Model) (msgs : list Msg)
  : Jira.Model :=
  fold_left (fun m msg => fst (Jira.Update L m msg)) msgs m.

(** The Chat pane handling messages one after the other. *)
Definition chatRun (env : Env) (L : Lib) (m : Chat.Model) (msgs : list Msg)
  : Chat.Model :=
  fold_left (fun m msg => fst (Chat.Update env L m msg)) msgs m.

(** An issue of a Jira search reply as the Jira tool reads it, and the
    entry the tool makes of it. *)
Definition jiraEntry (i out : any) : Prop :=
  exists issue fields status,
    i = AMap issue /\
    lookup issue "fields" = AMap fields /\
    lookup fields "status" = AMap status /\
    out = AMap [("key", lookup issue "key");
                ("summary", lookup fields "summary");
                ("status", lookup status "name")].

(** Whether a message is a key. *)
Definition isKey (msg : Msg) : bool :=
  match msg with
  | KeyMsg _ => true
  | _ => false
  end.

(** Whether a command is one of the two fetches. *)
Definition isFetch (c : Cmd) : bool :=
  match c with
  | JiraFetchIssues | GitHubFetchIssues => true
  | _ => false
  end.

End Runs.

(* ================================================================== *)
(** ** Further concrete worlds *)

Module Lab.

Import Go Tea Widgets Collab Library.

(** The reply of a Jira search with one issue, decoded. *)
Definition jiraReply : gomap :=
  [("issues",
    ASlice
      [AMap [("key", AString "BR-7");
             ("fields",
              AMap [("summary", AString "Fix tabs");
                    ("status", AMap [("name", AString "Open")])])]])].

(** The sample library, which also decodes that reply for the tool. *)
Definition lib : Lib :=
  {| pathStyle := pathStyle Sample.lib;
     errStyle := errStyle Sample.lib;
     Base := Base Sample.lib;
     Join := Join Sample.lib;
     urlParses := urlParses Sample.lib;
     EncodeToString := EncodeToString Sample.lib;
     decodeJiraSearch := decodeJiraSearch Sample.lib;
     decodeGitHubIssues := decodeGitHubIssues Sample.lib;
     decodeMap := fun body =>
       if String.eqb body Sample.jiraBody then inr jiraReply
       else decodeMap Sample.lib body;
     decodeMapSlice := decodeMapSlice Sample.lib;
     MarshalIndent := MarshalIndent Sample.lib;
     viewportView := viewportView Sample.lib;
     maxYOffset := maxYOffset Sample.lib;
     viewportUpdate := viewportUpdate Sample.lib;
     textinputUpdate := textinputUpdate Sample.lib;
     textareaUpdate := textareaUpdate Sample.lib;
     listUpdate := listUpdate Sample.lib;
     libYield := libYield Sample.lib;
     textareaSetWidth := textareaSetWidth Sample.lib;
     textareaSetHeight := textareaSetHeight Sample.lib;
     listUpdate_items := listUpdate_items Sample.lib |}.

(** A library that can parse no URL. *)
Definition noURL : Lib :=
  {| pathStyle := pathStyle Sample.lib;
     errStyle := errStyle Sample.lib;
     Base := Base Sample.lib;
     Join := Join Sample.lib;
     urlParses := fun _ => false;
     EncodeToString := EncodeToString Sample.lib;
     decodeJiraSearch := decodeJiraSearch Sample.lib;
     decodeGitHubIssues := decodeGitHubIssues Sample.lib;
     decodeMap := decodeMap Sample.lib;
     decodeMapSlice := decodeMapSlice Sample.lib;
     MarshalIndent := MarshalIndent Sample.lib;
     viewportView := viewportView Sample.lib;
     maxYOffset := maxYOffset Sample.lib;
     viewportUpdate := viewportUpdate Sample.lib;
     textinputUpdate := textinputUpdate Sample.lib;
     textareaUpdate := textareaUpdate Sample.lib;
     listUpdate := listUpdate Sample.lib;
     libYield := libYield Sample.lib;
     textareaSetWidth := textareaSetWidth Sample.lib;
     textareaSetHeight := textareaSetHeight Sample.lib;
     listUpdate_items := listUpdate_items Sample.lib |}.

(** The sample machine whose Jira answers every search with the one
    issue. *)
Definition tracker : Env :=
  {| Getenv := Getenv Sample.env;
     Getwd := Getwd Sample.env;
     UserHomeDir := UserHomeDir Sample.env;
     Stat := Stat Sample.env;
     CombinedOutput := CombinedOutput Sample.env;
     Do := fun req =>
       if HasPrefix (URL req) "https://acme.example/"
       then inr {| StatusCode := 200; Status := "200 OK";
                   Body := Sample.jiraBody |}
       else Do Sample.env req;
     NewClient := NewClient Sample.env;
     SendMessage := SendMessage Sample.env |}.

(** The sample machine without any environment variable set. *)
Definition unset : Env :=
  {| Getenv := fun _ => "";
     Getwd := Getwd Sample.env;
     UserHomeDir := UserHomeDir Sample.env;
     Stat := Stat Sample.env;
     CombinedOutput := CombinedOutput Sample.env;
     Do := Do Sample.env;
     NewClient := NewClient Sample.env;
     SendMessage := SendMessage Sample.env |}.

(** The sample machine with the model credential only: the Jira tool
    lacks its configuration. *)
Definition modelOnly : Env :=
  {| Getenv := fun k => if String.eqb k "GEMINI_API_KEY" then "key" else "";
     Getwd := Getwd Sample.env;
     UserHomeDir := UserHomeDir Sample.env;
     Stat := Stat Sample.env;
     CombinedOutput := CombinedOutput Sample.env;
     Do := Do Sample.env;
     NewClient := NewClient Sample.env;
     SendMessage := SendMessage Sample.env |}.

(** The sample machine with GITHUB_REPO naming a repository that has no
    open issue either. *)
Definition repoSet : Env :=
  {| Getenv := fun k =>
       if String.eqb k "GITHUB_REPO" then "charmbracelet/bubbles"
       else Getenv Sample.env k;
     Getwd := Getwd Sample.env;
     UserHomeDir := UserHomeDir Sample.env;
     Stat := Stat Sample.env;
     CombinedOutput := CombinedOutput Sample.env;
     Do := Do Sample.env;
     NewClient := NewClient Sample.env;
     SendMessage := SendMessage Sample.env |}.

(** The sample machine with GITHUB_REPO naming another repository, for
    which GitHub has no issues to show: it answers 404. *)
Definition fork : Env :=
  {| Getenv := fun k =>
       if String.eqb k "GITHUB_REPO" then "acme/widgets"
       else Getenv Sample.env k;
     Getwd := Getwd Sample.env;
     UserHomeDir := UserHomeDir Sample.env;
     Stat := Stat Sample.env;
     CombinedOutput := CombinedOutput Sample.env;
     Do := fun req =>
       if HasPrefix (URL req) "https://api.github.com/repos/acme/widgets/"
       then inr {| StatusCode := 404; Status := "404 Not Found";
                   Body := "{}" |}
       else Do Sample.env req;
     NewClient := NewClient Sample.env;
     SendMessage := SendMessage Sample.env |}.

(** A plain rendering surface: tabs in brackets, the active one
    starred. *)
Definition surface : Render.Surface :=
  {| Render.listView := fun l =>
       String.concat nl (map title (listItems l));
     Render.textinputView := tiValue;
     Render.textareaView := taValue;
     Render.marginStyle := fun s => s;
     Render.activeTabStyle := fun t => "[*" ++ t ++ "]";
     Render.inactiveTabStyle := fun t => "[" ++ t ++ "]";
     Render.JoinHorizontal := String.concat "";
     Render.docStyle := fun s => s |}.

End Lab.

(* ================================================================== *)
(** * Properties *)

Import Go Tea Widgets Collab Library.

(** ** Blank lines and fields *)

Lemma within_lf (lo hi : Z) : 11 <= lo -> within lo hi "010"%char = false.
Proof.
  intros H. unfold within. change (byte "010"%char) with 10.
  destruct (lo <=? 10) eqn:E; [apply Z.leb_le in E; lia | reflexivity].
Qed.

Lemma within_lf' (lo hi : Z) (c : ascii) :
  11 <= lo -> within lo hi c = true -> c <> "010"%char.
Proof. intros H Hw ->. rewrite within_lf in Hw by exact H. discriminate. Qed.

Lemma not_ascii_lf (c : ascii) : (byte c <? 128) = false -> c <> "010"%char.
Proof. intros H ->. discriminate H. Qed.

Lemma IsSpace_lf (c : ascii) : IsSpace (byte c) = false -> c <> "010"%char.
Proof. intros H ->. discriminate H. Qed.

(** The first rune of a non-empty string takes at least one byte, and
    unless it is white space its bytes hold no line feed. *)
Lemma DecodeRune_bytes (c0 : ascii) (r : string) :
  let '(rn, size) := DecodeRuneInString (String c0 r) in
  substring 0 size (String c0 r) <> EmptyString /\
  (IsSpace rn = false -> solid (substring 0 size (String c0 r))).
Proof.
  assert (H1 : forall rn,
             (byte c0 <? 128) = false ->
             substring 0 1 (String c0 r) <> EmptyString /\
             (IsSpace rn = false -> solid (substring 0 1 (String c0 r)))).
  { intros rn Hb. cbn [substring]. rewrite substring_zero_0' || idtac.
    split; [discriminate|]. intros _. unfold solid.
    destruct r; cbn; (constructor; [now apply not_ascii_lf | constructor]). }
  cbn [DecodeRuneInString].
  destruct (byte c0 <? 128) eqn:Ea.
  { cbn [substring]. split; [discriminate|]. intros Hs. unfold solid.
    destruct r; cbn; (constructor; [now apply IsSpace_lf | constructor]). }
  destruct (within 194 223 c0) eqn:E2.
  { destruct r as [|c1 r]; [now apply H1|].
    destruct (within 128 191 c1) eqn:W1; [|now apply H1].
    cbn [substring]. split; [discriminate|]. intros _. unfold solid.
    destruct r; cbn;
      (constructor; [now apply not_ascii_lf|]);
      (constructor; [apply (within_lf' 128 191); [lia | exact W1]|]);
      constructor. }
  destruct (within 224 239 c0) eqn:E3.
  { destruct r as [|c1 [|c2 r]]; try now apply H1.
    destruct (within _ _ c1 && within 128 191 c2) eqn:W; [|now apply H1].
    apply andb_true_iff in W as [W1 W2].
    cbn [substring]. split; [discriminate|]. intros _. unfold solid.
    destruct r; cbn;
      (constructor; [now apply not_ascii_lf|]);
      (constructor;
       [eapply within_lf'; [|exact W1]; destruct (byte c0 =? 224); lia|]);
      (constructor; [apply (within_lf' 128 191); [lia | exact W2]|]);
      constructor. }
  destruct (within 240 244 c0) eqn:E4; [|now apply H1].
  destruct r as [|c1 [|c2 [|c3 r]]]; try now apply H1.
  destruct (within _ _ c1 && within 128 191 c2 && within 128 191 c3) eqn:W;
    [|now apply H1].
  apply andb_true_iff in W as [W W3]. apply andb_true_iff in W as [W1 W2].
  cbn [substring]. split; [discriminate|]. intros _. unfold solid.
  destruct r; cbn;
    (constructor; [now apply not_ascii_lf|]);
    (constructor;
     [eapply within_lf'; [|exact W1]; destruct (byte c0 =? 240); lia|]);
    (constructor; [apply (within_lf' 128 191); [lia | exact W2]|]);
    (constructor; [apply (within_lf' 128 191); [lia | exact W3]|]);
    constructor.
Qed.

Lemma runesFrom_sound (s : string) (skip : nat) :
  Forall sound (runesFrom skip s).
Proof.
  revert skip. induction s as [|c r IH]; intros skip; [constructor|].
  cbn [runesFrom]. destruct skip as [|k]; [|apply IH].
  pose proof (DecodeRune_bytes c r) as H.
  destruct (DecodeRuneInString (String c r)) as [rn size].
  constructor; [exact H | apply IH].
Qed.

Lemma dropSpace_sound (rs : list (Z * string)) :
  Forall sound rs -> Forall sound (dropSpace rs).
Proof.
  induction 1 as [|[rn b] rest H HF IH]; cbn [dropSpace]; [constructor|].
  destruct (IsSpace rn); [exact IH | now constructor].
Qed.

Lemma dropSpace_nil (rs : list (Z * string)) :
  dropSpace rs = [] <-> forallb (fun t => IsSpace (fst t)) rs = true.
Proof.
  induction rs as [|[rn b] rest IH]; cbn [dropSpace forallb fst]; [tauto|].
  destruct (IsSpace rn); cbn [andb]; [exact IH|]. split; discriminate.
Qed.

Lemma dropSpace_head (rs : list (Z * string)) :
  match dropSpace rs with
  | [] => True
  | t :: _ => IsSpace (fst t) = false
  end.
Proof.
  induction rs as [|[rn b] rest IH]; cbn [dropSpace]; [exact I|].
  destruct (IsSpace rn) eqn:E; [exact IH | exact E].
Qed.

Lemma forallb_rev {A : Type} (f : A -> bool) (l : list A) :
  forallb f (rev l) = forallb f l.
Proof.
  induction l as [|a l IH]; [reflexivity|].
  cbn [rev forallb]. rewrite forallb_app, IH. cbn [forallb].
  rewrite andb_true_r. apply andb_comm.
Qed.

Lemma concat_sound_nil (rs : list (Z * string)) :
  Forall sound rs ->
  String.concat "" (map snd rs) = EmptyString <-> rs = [].
Proof.
  intros H. split; [|intros ->; reflexivity].
  destruct H as [|[rn b] rest [Hb _] HF]; [reflexivity|].
  cbn [map snd String.concat] in *. intros E. exfalso.
  destruct b as [|c b']; [now apply Hb|].
  destruct (map snd rest); discriminate E.
Qed.

Lemma rev_nil_iff {A : Type} (l : list A) : rev l = [] <-> l = [].
Proof.
  split; [|intros ->; reflexivity].
  intros H. apply (f_equal (@rev A)) in H. now rewrite rev_involutive in H.
Qed.

(** [TrimSpace] is empty exactly on blank lines. *)
Lemma TrimSpace_blank (s : string) :
  TrimSpace s = EmptyString <-> blank s = true.
Proof.
  unfold TrimSpace, blank.
  assert (HS : Forall sound (runes s)) by apply runesFrom_sound.
  rewrite concat_sound_nil
    by (apply Forall_rev, dropSpace_sound, Forall_rev, dropSpace_sound, HS).
  rewrite rev_nil_iff, dropSpace_nil, forallb_rev.
  rewrite <- (dropSpace_nil (runes s)).
  split.
  - intros H. pose proof (dropSpace_head (runes s)) as Hh.
    destruct (dropSpace (runes s)) as [|t rest]; [reflexivity|].
    cbn [forallb] in H. rewrite Hh in H. discriminate H.
  - intros ->. reflexivity.
Qed.

Lemma fieldsOf_nil (cur : string) (rs : list (Z * string)) :
  Forall sound rs ->
  fieldsOf cur rs = [] <->
  cur = EmptyString /\ forallb (fun t => IsSpace (fst t)) rs = true.
Proof.
  intros H. revert cur.
  induction H as [|[rn b] rest [Hb _] HF IH]; intros cur;
    cbn [fieldsOf forallb fst snd] in *.
  - destruct cur; split; try tauto; try discriminate.
    intros [E _]. discriminate E.
  - destruct (IsSpace rn); cbn [andb].
    + destruct cur; [rewrite IH; tauto|].
      split; [discriminate | intros [E _]; discriminate E].
    + rewrite IH. split; [|intros [_ E]; discriminate E].
      intros [E _]. exfalso. destruct cur; [now apply Hb | discriminate E].
Qed.

(** [Fields] finds no field exactly on blank lines. *)
Lemma Fields_blank (s : string) : Fields s = [] <-> blank s = true.
Proof.
  unfold Fields, blank. rewrite fieldsOf_nil by apply runesFrom_sound. tauto.
Qed.

Lemma TrimSpace_Fields (s : string) :
  String.eqb (TrimSpace s) "" = true <-> Fields s = [].
Proof.
  rewrite String.eqb_eq, TrimSpace_blank, Fields_blank. tauto.
Qed.

Lemma solid_app (a b : string) : solid a -> solid b -> solid (a ++ b).
Proof.
  unfold solid. intros Ha Hb.
  induction a as [|c r IH]; cbn [String.append list_ascii_of_string] in *;
    [exact Hb|].
  inversion Ha; subst. constructor; [assumption | now apply IH].
Qed.

Lemma fieldsOf_solid (cur : string) (rs : list (Z * string)) :
  Forall sound rs -> solid cur -> Forall solid (fieldsOf cur rs).
Proof.
  intros H. revert cur.
  induction H as [|[rn b] rest [_ Hb] HF IH]; intros cur Hcur;
    cbn [fieldsOf fst snd] in *.
  - destruct cur; constructor; [exact Hcur | constructor].
  - destruct (IsSpace rn).
    + assert (He : solid EmptyString) by constructor.
      destruct cur; [now apply IH|]. constructor; [exact Hcur | now apply IH].
    + apply IH, solid_app; [exact Hcur | now apply Hb].
Qed.

(** No field of a line holds a line feed. *)
Lemma Fields_solid (s : string) : Forall solid (Fields s).
Proof. apply fieldsOf_solid; [apply runesFrom_sound | constructor]. Qed.

(** White space beyond ASCII: a no-break space (C2 A0) separates fields,
    an em space (E2 80 83) is trimmed, and a line that is a next-line
    character (C2 85) is blank; a byte that encodes nothing is no white
    space. *)
Lemma unicode_space_example :
  Fields ("cd" ++ String "194" (String "160" "") ++ "docs") = ["cd"; "docs"] /\
  TrimSpace (String "226" (String "128" (String "131" "")) ++ "ls ") = "ls" /\
  TrimSpace (String "194" (String "133" "")) = "" /\
  Fields (String "160" "") = [String "160" ""].
Proof. repeat split. Qed.

Lemma lineCount_app (a b : string) :
  lineCount (a ++ b) = lineCount a + lineCount b - 1.
Proof.
  induction a as [|c r IH]; cbn [lineCount String.append]; [lia|].
  destruct (Ascii.eqb c "010"%char); lia.
Qed.

(** A text without line feed is one line. *)
Lemma solid_one_line (s : string) : solid s -> lineCount s = 1.
Proof.
  unfold solid.
  induction s as [|c r IH]; cbn [lineCount list_ascii_of_string]; intros H;
    [reflexivity|].
  inversion H as [|? ? Hc Hr]; subst.
  destruct (Ascii.eqb c "010"%char) eqn:E; [|now apply IH].
  apply Ascii.eqb_eq in E. subst c. now elim Hc.
Qed.

Lemma append_empty_r (s : string) : s ++ "" = s.
Proof. induction s as [|c r IH]; simpl; [reflexivity | now rewrite IH]. Qed.

(** ** The viewport keeps what [SetContent] gives it *)

Lemma GotoBottom_content (L : Lib) (v : Viewport) :
  vpContent (GotoBottom L v) = vpContent v.
Proof. reflexivity. Qed.

Lemma SetContent_content (L : Lib) (v : Viewport) (s : string) :
  vpContent (SetContent L v s) = s.
Proof.
  unfold SetContent.
  destruct (vpYOffset (setVpContent v s) >? lineCount s - 1); reflexivity.
Qed.

Lemma GotoBottom_size (L : Lib) (v : Viewport) :
  vpWidth (GotoBottom L v) = vpWidth v /\
  vpHeight (GotoBottom L v) = vpHeight v.
Proof. split; reflexivity. Qed.

Lemma SetContent_size (L : Lib) (v : Viewport) (s : string) :
  vpWidth (SetContent L v s) = vpWidth v /\
  vpHeight (SetContent L v s) = vpHeight v.
Proof.
  unfold SetContent.
  destruct (vpYOffset (setVpContent v s) >? lineCount s - 1);
    split; reflexivity.
Qed.

(** ** The shell's command interpreter *)

Section ShellProps.
Variable env : Env.
Variable L : Lib.

(** A blank line executes nothing. *)
Lemma executeCommand_blank (m : Shell.Model) (input : string) :
  Fields input = [] ->
  Shell.executeCommand env L m input = Ok ("", "").
Proof.
  intros H. apply TrimSpace_Fields in H.
  unfold Shell.executeCommand. now rewrite H.
Qed.

(** A line with fields runs [cd] or the named program. *)
Lemma executeCommand_fields (m : Shell.Model) (input name : string)
      (args : list string) :
  Fields input = name :: args ->
  Shell.executeCommand env L m input =
  if String.eqb name "cd" then
    match Stat env (Shell.cdTarget env L m args) with
    | Some true => Ok ("", Shell.cdTarget env L m args)
    | _ =>
        let? a := index args 0 in
        Ok (errStyle L ("cd: " ++ a ++ ": No such directory"), "")
    end
  else
    match CombinedOutput env name args (Shell.currentDir m) with
    | (_, Some err) => Ok (errStyle L ("Error: " ++ err), "")
    | (out, None) => Ok (out, "")
    end.
Proof.
  intros H. unfold Shell.executeCommand.
  destruct (String.eqb (TrimSpace input) "") eqn:E.
  - apply TrimSpace_Fields in E. rewrite E in H. discriminate H.
  - rewrite H. reflexivity.
Qed.

(** [Update] on Enter, once the outcome of the line is known. *)
Lemma Shell_Update_enter (m : Shell.Model) (output newDir : string) :
  let ti := fst (textinputUpdate L (Shell.textInput m) (KeyMsg KeyEnter)) in
  let vp := fst (viewportUpdate L (Shell.viewport m) (KeyMsg KeyEnter)) in
  let m1 := Shell.setTextInput (Shell.setViewport (Shell.setTextInput m ti) vp)
              (tiReset ti) in
  Shell.executeCommand env L m1 (Shell.submitted L m) = Ok (output, newDir) ->
  exists m' c,
    Shell.Update env L m (KeyMsg KeyEnter) = Ok (m', c) /\
    Shell.currentDir m' =
      (if String.eqb newDir "" then Shell.currentDir m else newDir) /\
    tiValue (Shell.textInput m') = "" /\
    vpContent (Shell.viewport m') =
      Shell.shown L m ++ nl ++
      (pathStyle L (Base L (Shell.currentDir m')) ++ " $ " ++
       Shell.submitted L m) ++ nl ++ output.
Proof.
  intros ti vp m1 H.
  unfold Shell.Update, Shell.submitted, Shell.shown in *.
  subst ti vp m1.
  destruct (textinputUpdate L (Shell.textInput m) (KeyMsg KeyEnter))
    as [ti tiCmd].
  destruct (viewportUpdate L (Shell.viewport m) (KeyMsg KeyEnter))
    as [vp vpCmd].
  cbn [fst] in *.
  cbn [Shell.textInput Shell.setViewport Shell.setTextInput Shell.viewport
       Shell.currentDir] in *.
  rewrite H. cbn [bind].
  eexists. eexists. split; [reflexivity|].
  destruct (String.eqb newDir ""); cbn;
    rewrite ?SetContent_content; repeat split; reflexivity.
Qed.

(** [Update] on Enter when the interpreter panics: the panic leaves
    [Update]. *)
Lemma Shell_Update_enter_panic (m : Shell.Model) (reason : string) :
  let ti := fst (textinputUpdate L (Shell.textInput m) (KeyMsg KeyEnter)) in
  let vp := fst (viewportUpdate L (Shell.viewport m) (KeyMsg KeyEnter)) in
  let m1 := Shell.setTextInput (Shell.setViewport (Shell.setTextInput m ti) vp)
              (tiReset ti) in
  Shell.executeCommand env L m1 (Shell.submitted L m) = Panic reason ->
  Shell.Update env L m (KeyMsg KeyEnter) = Panic reason.
Proof.
  intros ti vp m1 H.
  unfold Shell.Update, Shell.submitted in *.
  subst ti vp m1.
  destruct (textinputUpdate L (Shell.textInput m) (KeyMsg KeyEnter))
    as [ti tiCmd].
  destruct (viewportUpdate L (Shell.viewport m) (KeyMsg KeyEnter))
    as [vp vpCmd].
  cbn [fst] in *.
  cbn [Shell.textInput Shell.setViewport Shell.setTextInput Shell.viewport
       Shell.currentDir] in *.
  rewrite H. reflexivity.
Qed.

End ShellProps.

(** The interpreter reads the pane's directory only. *)
Lemma executeCommand_dir (env : Env) (L : Lib) (m1 m2 : Shell.Model)
      (input : string) :
  Shell.currentDir m1 = Shell.currentDir m2 ->
  Shell.executeCommand env L m1 input = Shell.executeCommand env L m2 input.
Proof.
  intros H. unfold Shell.executeCommand, Shell.cdTarget.
  now rewrite H.
Qed.

Lemma cd_error_one_line (arg : string) :
  solid arg -> lineCount ("cd: " ++ arg ++ ": No such directory") = 1.
Proof.
  intros H. rewrite !lineCount_app, (solid_one_line arg H). reflexivity.
Qed.

Lemma IsAbs_nonempty (p : string) : IsAbs p = true -> String.eqb p "" = false.
Proof. destruct p; [discriminate | reflexivity]. Qed.

(** C7 (as amended).  An empty or white-space-only line submitted to the
    Shell pane runs nothing: the outcome is the same whatever the outside
    world is, the current directory is kept and the input is cleared.  The
    transcript is still rewritten: to what the viewport shows, the prompt
    line with the submitted text, and an empty output line. *)
Theorem shell_blank_line_prompt_only (env : Env) (L : Lib) (m : Shell.Model) :
  TrimSpace (Shell.submitted L m) = "" ->
  exists m' c,
    (forall env', Shell.Update env' L m (KeyMsg KeyEnter) = Ok (m', c)) /\
    Shell.Update env L m (KeyMsg KeyEnter) = Ok (m', c) /\
    Shell.currentDir m' = Shell.currentDir m /\
    tiValue (Shell.textInput m') = "" /\
    vpContent (Shell.viewport m') =
      Shell.shown L m ++ nl ++
      Shell.promptLine L m (Shell.submitted L m) ++ nl.
Proof.
  intros H.
  assert (HF : Fields (Shell.submitted L m) = []).
  { apply TrimSpace_Fields. now rewrite H. }
  destruct (Shell_Update_enter env L m "" "") as (m' & c & HU & Hd & Hi & Hc).
  { now apply executeCommand_blank. }
  exists m', c. cbn [String.eqb] in Hd.
  assert (Hany : forall env', Shell.Update env' L m (KeyMsg KeyEnter) = Ok (m', c)).
  { intros env'. revert HU.
    unfold Shell.Update.
    destruct (textinputUpdate L (Shell.textInput m) (KeyMsg KeyEnter))
      as [ti tiCmd] eqn:Eti.
    destruct (viewportUpdate L (Shell.viewport m) (KeyMsg KeyEnter))
      as [vp vpCmd].
    assert (Hs : tiValue ti = Shell.submitted L m).
    { unfold Shell.submitted. now rewrite Eti. }
    cbn [Shell.textInput Shell.setViewport Shell.setTextInput].
    rewrite Hs.
    rewrite (executeCommand_blank env _ _ _ HF).
    rewrite (executeCommand_blank env' _ _ _ HF).
    trivial. }
  split; [exact Hany|]. split; [exact HU|].
  split; [exact Hd|]. split; [exact Hi|].
  rewrite Hc, Hd, append_empty_r. reflexivity.
Qed.

(** C8 (what the code does).  In the Shell pane, [cd] with an argument
    to a path that does not exist or is not a directory keeps the current
    directory, and the transcript becomes what the viewport shows, the
    prompt line and exactly one error line.  The target of [cd] without an
    argument is what [os.UserHomeDir] reports, its error dropped: that
    path when it is absolute, and else that path joined to the current
    directory, which is the current directory itself when no home
    directory is known.  When the target is an existing directory the pane
    enters it; when it is not, no error line is written: [Update]
    panics. *)
Theorem shell_cd (env : Env) (L : Lib) (m : Shell.Model) :
  (forall arg rest,
      Fields (Shell.submitted L m) = "cd" :: arg :: rest ->
      Stat env (Shell.cdTarget env L m (arg :: rest)) <> Some true ->
      exists m' c,
        Shell.Update env L m (KeyMsg KeyEnter) = Ok (m', c) /\
        Shell.currentDir m' = Shell.currentDir m /\
        vpContent (Shell.viewport m') =
          Shell.shown L m ++ nl ++
          Shell.promptLine L m (Shell.submitted L m) ++ nl ++
          errStyle L ("cd: " ++ arg ++ ": No such directory") /\
        lineCount ("cd: " ++ arg ++ ": No such directory") = 1) /\
  Shell.cdTarget env L m [] =
    (if IsAbs (UserHomeDir env) then UserHomeDir env
     else Join L (Shell.currentDir m) (UserHomeDir env)) /\
  (Fields (Shell.submitted L m) = ["cd"] ->
   (Stat env (Shell.cdTarget env L m []) = Some true ->
    exists m' c,
      Shell.Update env L m (KeyMsg KeyEnter) = Ok (m', c) /\
      Shell.currentDir m' =
        (if String.eqb (Shell.cdTarget env L m []) "" then Shell.currentDir m
         else Shell.cdTarget env L m [])) /\
   (Stat env (Shell.cdTarget env L m []) <> Some true ->
    Shell.Update env L m (KeyMsg KeyEnter)
    = Panic "runtime error: index out of range")).
Proof.
  split; [|split].
  - intros arg rest HF HS.
    destruct (Shell_Update_enter env L m
                (errStyle L ("cd: " ++ arg ++ ": No such directory")) "")
      as (m' & c & HU & Hd & _ & Hc).
    { rewrite (executeCommand_fields env L _ _ _ _ HF).
      cbn [String.eqb Ascii.eqb Bool.eqb].
      change (Shell.cdTarget env L _ (arg :: rest))
        with (Shell.cdTarget env L m (arg :: rest)).
      destruct (Stat env (Shell.cdTarget env L m (arg :: rest)))
        as [[|]|]; [now elim HS | reflexivity | reflexivity]. }
    exists m', c. cbn [String.eqb] in Hd.
    split; [exact HU|]. split; [exact Hd|]. split.
    + rewrite Hc, Hd. reflexivity.
    + apply cd_error_one_line.
      pose proof (Fields_solid (Shell.submitted L m)) as HA.
      rewrite HF in HA. inversion HA as [|? ? _ HB]; subst.
      now inversion HB.
  - unfold Shell.cdTarget. destruct (IsAbs (UserHomeDir env)); reflexivity.
  - intros HF. split; intros HS.
    + destruct (Shell_Update_enter env L m "" (Shell.cdTarget env L m []))
        as (m' & c & HU & Hd & _).
      { rewrite (executeCommand_fields env L _ _ _ _ HF).
        cbn [String.eqb Ascii.eqb Bool.eqb].
        change (Shell.cdTarget env L _ []) with (Shell.cdTarget env L m []).
        rewrite HS. reflexivity. }
      exists m', c. split; [exact HU | exact Hd].
    + apply Shell_Update_enter_panic.
      rewrite (executeCommand_fields env L _ _ _ _ HF).
      cbn [String.eqb Ascii.eqb Bool.eqb].
      change (Shell.cdTarget env L _ []) with (Shell.cdTarget env L m []).
      destruct (Stat env (Shell.cdTarget env L m [])) as [[|]|];
        [now elim HS | reflexivity | reflexivity].
Qed.

(** C10 (what the code does).  [executeCommand] fails to return exactly
    when the line is a bare [cd] and its target, the home directory, is
    not an existing directory: reporting the error indexes the empty
    argument list. *)
Theorem executeCommand_panics_iff (env : Env) (L : Lib) (m : Shell.Model)
        (input : string) :
  returns (Shell.executeCommand env L m input) = false <->
  Fields input = ["cd"] /\ Stat env (Shell.cdTarget env L m []) <> Some true.
Proof.
  destruct (Fields input) as [|name args] eqn:HF.
  - rewrite (executeCommand_blank env L m input HF).
    split; [discriminate | intros [H _]; discriminate H].
  - rewrite (executeCommand_fields env L m input name args HF).
    destruct (String.eqb name "cd") eqn:En.
    + apply String.eqb_eq in En. subst name.
      destruct args as [|a rest].
      * destruct (Stat env (Shell.cdTarget env L m [])) as [[|]|]; cbn.
        -- split; [discriminate | intros [_ H]; now elim H].
        -- split; intros _; [split; [reflexivity | discriminate] | reflexivity].
        -- split; intros _; [split; [reflexivity | discriminate] | reflexivity].
      * split; [|intros [H _]; discriminate H].
        destruct (Stat env (Shell.cdTarget env L m (a :: rest))) as [[|]|];
          cbn; discriminate.
    + split.
      * destruct (CombinedOutput env name args (Shell.currentDir m))
          as [out [e|]]; cbn; discriminate.
      * intros [H _]. injection H as H _. subst name. discriminate En.
Qed.

(** The amended C7 on a fresh pane with two spaces typed. *)
Lemma shell_blank_line_prompt_only_witness :
  TrimSpace (Shell.submitted Sample.lib (Sample.shellTyped "  ")) = "" /\
  exists m' c,
    (forall env',
        Shell.Update env' Sample.lib (Sample.shellTyped "  ") (KeyMsg KeyEnter)
        = Ok (m', c)) /\
    Shell.Update Sample.env Sample.lib (Sample.shellTyped "  ") (KeyMsg KeyEnter)
    = Ok (m', c) /\
    Shell.currentDir m' = Shell.currentDir (Sample.shellTyped "  ") /\
    tiValue (Shell.textInput m') = "" /\
    vpContent (Shell.viewport m') =
      Shell.shown Sample.lib (Sample.shellTyped "  ") ++ nl ++
      Shell.promptLine Sample.lib (Sample.shellTyped "  ")
        (Shell.submitted Sample.lib (Sample.shellTyped "  ")) ++ nl.
Proof.
  split; [reflexivity|].
  apply (shell_blank_line_prompt_only Sample.env Sample.lib
           (Sample.shellTyped "  ")).
  reflexivity.
Defined.

(** C7 as stated fails: on a fresh pane with two spaces typed, Enter adds
    the prompt line and an empty line to the transcript. *)
Lemma shell_blank_line_extends_transcript :
  TrimSpace (Shell.submitted Sample.lib (Sample.shellTyped "  ")) = "" /\
  exists m' c,
    Shell.Update Sample.env Sample.lib (Sample.shellTyped "  ") (KeyMsg KeyEnter)
    = Ok (m', c) /\
    vpContent (Shell.viewport m') =
      vpContent (Shell.viewport (Sample.shellTyped "  ")) ++ nl ++
      "bridge $   " ++ nl /\
    vpContent (Shell.viewport m') <>
      vpContent (Shell.viewport (Sample.shellTyped "  ")).
Proof.
  split; [reflexivity|].
  eexists. eexists. split; [reflexivity|].
  split; [reflexivity | discriminate].
Qed.

(** C8 on the sample machine: [cd nope] fails with one error line and a
    bare [cd] enters [/home/dev]; on the machine whose home directory is
    missing a bare [cd] panics. *)
Lemma shell_cd_witness :
  (Fields (Shell.submitted Sample.lib (Sample.shellTyped "cd nope"))
   = ["cd"; "nope"] /\
   Stat Sample.env
     (Shell.cdTarget Sample.env Sample.lib (Sample.shellTyped "cd nope")
        ["nope"]) <> Some true /\
   exists m' c,
     Shell.Update Sample.env Sample.lib (Sample.shellTyped "cd nope")
       (KeyMsg KeyEnter) = Ok (m', c) /\
     Shell.currentDir m' = "/home/dev/bridge" /\
     vpContent (Shell.viewport m') =
       Shell.shown Sample.lib (Sample.shellTyped "cd nope") ++ nl ++
       Shell.promptLine Sample.lib (Sample.shellTyped "cd nope")
         (Shell.submitted Sample.lib (Sample.shellTyped "cd nope")) ++ nl ++
       errStyle Sample.lib ("cd: " ++ "nope" ++ ": No such directory") /\
     lineCount ("cd: " ++ "nope" ++ ": No such directory") = 1) /\
  (Fields (Shell.submitted Sample.lib (Sample.shellTyped "cd")) = ["cd"] /\
   Shell.cdTarget Sample.env Sample.lib (Sample.shellTyped "cd") []
   = "/home/dev" /\
   Stat Sample.env "/home/dev" = Some true /\
   exists m' c,
     Shell.Update Sample.env Sample.lib (Sample.shellTyped "cd")
       (KeyMsg KeyEnter) = Ok (m', c) /\
     Shell.currentDir m' = "/home/dev") /\
  (Shell.cdTarget Sample.homeless Sample.lib (Sample.shellTyped "cd") []
   = "/home/ghost" /\
   Stat Sample.homeless "/home/ghost" <> Some true /\
   Shell.Update Sample.homeless Sample.lib (Sample.shellTyped "cd")
     (KeyMsg KeyEnter) = Panic "runtime error: index out of range").
Proof.
  split; [|split].
  - split; [reflexivity|]. split; [discriminate|].
    apply (proj1 (shell_cd Sample.env Sample.lib
                    (Sample.shellTyped "cd nope")) "nope" []);
      [reflexivity | discriminate].
  - split; [reflexivity|]. split; [reflexivity|]. split; [reflexivity|].
    apply (proj1 (proj2 (proj2 (shell_cd Sample.env Sample.lib
                                  (Sample.shellTyped "cd"))) eq_refl)).
    reflexivity.
  - split; [reflexivity|]. split; [discriminate|].
    apply (proj2 (proj2 (proj2 (shell_cd Sample.homeless Sample.lib
                                  (Sample.shellTyped "cd"))) eq_refl)).
    discriminate.
Defined.

(** C8's failures in two runs.  On the machine whose home directory is
    missing, a bare [cd] is a [cd] to a path that does not exist: the pane
    panics, where one error line was due.  On the machine that knows no
    home directory ([os.UserHomeDir] fails and reports the empty path), the
    target of a bare [cd] is the current directory, and the pane stays
    where it is without a word. *)
Lemma bare_cd_missing_home_panics :
  Fields (Shell.submitted Sample.lib (Sample.shellTyped "cd")) = ["cd"] /\
  Stat Sample.homeless (UserHomeDir Sample.homeless) = None /\
  Shell.Update Sample.homeless Sample.lib (Sample.shellTyped "cd")
    (KeyMsg KeyEnter) = Panic "runtime error: index out of range".
Proof. repeat split. Qed.

Lemma bare_cd_without_home_stays :
  UserHomeDir (Sample.machine "") = "" /\
  Shell.cdTarget (Sample.machine "") Sample.lib (Sample.shellTyped "cd") []
  = "/home/dev/bridge" /\
  exists m' c,
    Shell.Update (Sample.machine "") Sample.lib (Sample.shellTyped "cd")
      (KeyMsg KeyEnter) = Ok (m', c) /\
    Shell.currentDir m' = Shell.currentDir (Sample.shellTyped "cd") /\
    vpContent (Shell.viewport m') =
      Shell.shown Sample.lib (Sample.shellTyped "cd") ++ nl ++
      "bridge $ cd" ++ nl.
Proof.
  split; [reflexivity|]. split; [reflexivity|].
  eexists. eexists. repeat split.
Qed.

(** A bare [cd] on the machine whose home directory is missing. *)
Lemma executeCommand_bare_cd_homeless :
  Shell.executeCommand Sample.homeless Sample.lib
    (Shell.New Sample.homeless Sample.lib) "cd"
  = Panic "runtime error: index out of range".
Proof. reflexivity. Qed.

(** Apart from that, the interpreter always returns. *)
Lemma executeCommand_returns (env : Env) (L : Lib) (m : Shell.Model)
      (input : string) :
  Fields input <> ["cd"] ->
  exists output newDir,
    Shell.executeCommand env L m input = Ok (output, newDir).
Proof.
  intros H.
  destruct (Fields input) as [|name args] eqn:HF.
  - rewrite (executeCommand_blank env L m input HF). eauto.
  - rewrite (executeCommand_fields env L m input name args HF).
    destruct (String.eqb name "cd") eqn:En.
    + apply String.eqb_eq in En. subst name.
      destruct args as [|a rest]; [now elim H|].
      destruct (Stat env (Shell.cdTarget env L m (a :: rest))) as [[|]|];
        cbn; eauto.
    + destruct (CombinedOutput env name args (Shell.currentDir m))
        as [out [e|]]; eauto.
Qed.

(** ** The composer *)

Section ComposerProps.
Variable env : Env.
Variable L : Lib.

Lemma wrap64_small (z : Z) : - 2 ^ 63 <= z < 2 ^ 63 -> wrap64 z = z.
Proof.
  intros H. unfold wrap64.
  rewrite Z.mod_small; lia.
Qed.

(** One tab-advance event. *)
Lemma Update_tab (m : UI.Model) (k : Key) :
  UI.wf m ->
  keyString k = "tab" ->
  UI.Update env L m (KeyMsg k) =
  Ok (UI.setState m ((UI.state m + 1) mod Z.of_nat (List.length (UI.tabs m))),
      CmdNil).
Proof.
  intros [Hs Hn] Hk. unfold UI.Update. rewrite Hk.
  cbn [String.eqb Ascii.eqb Bool.eqb andb].
  destruct (Z.of_nat (List.length (UI.tabs m)) =? 0) eqn:E; [lia|].
  rewrite wrap64_small by lia.
  rewrite Z.rem_mod_nonneg by lia.
  reflexivity.
Qed.

Lemma setState_wf (m : UI.Model) (s : Z) :
  0 <= s < Z.of_nat (List.length (UI.tabs m)) ->
  Z.of_nat (List.length (UI.tabs m)) < 2 ^ 63 ->
  UI.wf (UI.setState m s).
Proof. intros H1 H2. split; assumption. Qed.

(** Any number of tab-advance events. *)
Lemma runAll_tabs (ks : list Key) :
  Forall (fun k => keyString k = "tab") ks ->
  forall m, UI.wf m ->
  UI.runAll env L m (map KeyMsg ks) =
  Ok (UI.setState m
        ((UI.state m + Z.of_nat (List.length ks))
           mod Z.of_nat (List.length (UI.tabs m))),
      map (fun _ => CmdNil) ks).
Proof.
  induction 1 as [|k ks Hk Hks IH]; intros m Hwf.
  - cbn [map UI.runAll List.length Z.of_nat].
    destruct Hwf as [Hs _]. rewrite Z.add_0_r, Z.mod_small by exact Hs.
    destruct m; reflexivity.
  - cbn [map UI.runAll]. rewrite (Update_tab m k Hwf Hk). cbn [bind].
    assert (Hwf' : UI.wf
              (UI.setState m
                 ((UI.state m + 1) mod Z.of_nat (List.length (UI.tabs m))))).
    { destruct Hwf as [Hs Hn]. apply setState_wf; [|exact Hn].
      apply Z.mod_pos_bound. lia. }
    rewrite (IH _ Hwf'). cbn [bind UI.setState UI.state UI.tabs].
    rewrite Zplus_mod_idemp_l.
    replace (UI.state m + 1 + Z.of_nat (List.length ks))
      with (UI.state m + Z.of_nat (List.length (k :: ks)))
      by (cbn [List.length]; lia).
    reflexivity.
Qed.

End ComposerProps.

(** The fresh composer's index names a tab, and no message the composer
    handles makes it name none: the models of a run all satisfy [wf]. *)
Lemma New_wf (env : Env) (L : Lib) : UI.wf (UI.New env L).
Proof.
  unfold UI.wf. change (UI.state (UI.New env L)) with 0.
  change (Z.of_nat (List.length (UI.tabs (UI.New env L)))) with 4.
  lia.
Qed.

Lemma updateActive_frame (env : Env) (L : Lib) (m m' : UI.Model) (msg : Msg)
      (c : Cmd) :
  UI.updateActive env L m msg = Ok (m', c) ->
  UI.state m' = UI.state m /\ UI.tabs m' = UI.tabs m.
Proof.
  unfold UI.updateActive.
  destruct (UI.state m =? UI.viewShell).
  { destruct (Shell.Update env L (UI.shell m) msg) as [[p c']|r];
      cbn [bind]; intros H; [|discriminate H].
    injection H as <- _. split; reflexivity. }
  destruct (UI.state m =? UI.viewJira).
  { destruct (Jira.Update L (UI.jira m) msg) as [p c'].
    cbn [bind]. intros H. injection H as <- _. split; reflexivity. }
  destruct (UI.state m =? UI.viewGitHub).
  { destruct (GitHub.Update L (UI.github m) msg) as [p c'].
    cbn [bind]. intros H. injection H as <- _. split; reflexivity. }
  destruct (UI.state m =? UI.viewChat).
  { destruct (Chat.Update env L (UI.chat m) msg) as [p c'].
    cbn [bind]. intros H. injection H as <- _. split; reflexivity. }
  cbn [bind]. intros H. injection H as <- _. split; reflexivity.
Qed.

Lemma Update_wf (env : Env) (L : Lib) (m m' : UI.Model) (msg : Msg) (c : Cmd) :
  UI.wf m ->
  UI.Update env L m msg = Ok (m', c) ->
  UI.wf m'.
Proof.
  intros Hwf. unfold UI.Update.
  destruct msg as [k|w h| | | | |];
    try (intros H; apply updateActive_frame in H as [Hs Ht];
         unfold UI.wf; rewrite Hs, Ht; exact Hwf).
  destruct (String.eqb (keyString k) "ctrl+c").
  { intros H. injection H as <- _. exact Hwf. }
  destruct (String.eqb (keyString k) "tab").
  - destruct Hwf as [Hs Hn].
    destruct (Z.of_nat (List.length (UI.tabs m)) =? 0); [discriminate|].
    intros H. injection H as <- _.
    apply setState_wf; [|exact Hn].
    rewrite wrap64_small by lia.
    rewrite Z.rem_mod_nonneg by lia.
    apply Z.mod_pos_bound. lia.
  - intros H. apply updateActive_frame in H as [Hs Ht].
    unfold UI.wf. rewrite Hs, Ht. exact Hwf.
Qed.

(** C9.  From a model whose index names a tab, any sequence of tab-advance
    events is handled without a command and without touching a pane, and
    leaves the index advanced by the number of events modulo the number of
    tabs; a single event steps from the last tab to tab zero and from any
    other tab to the next. *)
Theorem tab_cycles (env : Env) (L : Lib) (m : UI.Model) (ks : list Key) :
  UI.wf m ->
  Forall (fun k => keyString k = "tab") ks ->
  exists m' cs,
    UI.runAll env L m (map KeyMsg ks) = Ok (m', cs) /\
    UI.state m' =
      (UI.state m + Z.of_nat (List.length ks))
        mod Z.of_nat (List.length (UI.tabs m)) /\
    UI.tabs m' = UI.tabs m /\
    (UI.shell m' = UI.shell m /\ UI.jira m' = UI.jira m /\
     UI.github m' = UI.github m /\ UI.chat m' = UI.chat m) /\
    Forall (fun c => c = CmdNil) cs /\
    (List.length ks = 1%nat ->
     (UI.state m = Z.of_nat (List.length (UI.tabs m)) - 1 -> UI.state m' = 0) /\
     (UI.state m < Z.of_nat (List.length (UI.tabs m)) - 1 ->
      UI.state m' = UI.state m + 1)).
Proof.
  intros Hwf Hks.
  eexists. eexists. split; [apply runAll_tabs; assumption|].
  cbn [UI.setState UI.state UI.tabs UI.shell UI.jira UI.github UI.chat].
  split; [reflexivity|]. split; [reflexivity|].
  split; [repeat split|].
  split.
  - clear. induction ks; constructor; [reflexivity | assumption].
  - intros H1. rewrite H1. destruct Hwf as [Hs Hn].
    change (Z.of_nat 1) with 1. split; intros H.
    + rewrite H. replace (_ - 1 + 1) with (Z.of_nat (List.length (UI.tabs m)))
        by lia.
      apply Z_mod_same_full.
    + apply Z.mod_small. lia.
Qed.

(** C9 on the fresh composer: five tabs lead from Shell to Jira. *)
Lemma tab_cycles_witness :
  UI.wf (UI.New Sample.env Sample.lib) /\
  Forall (fun k => keyString k = "tab") [KeyTab; KeyTab; KeyTab; KeyTab; KeyTab] /\
  exists m' cs,
    UI.runAll Sample.env Sample.lib (UI.New Sample.env Sample.lib)
      (map KeyMsg [KeyTab; KeyTab; KeyTab; KeyTab; KeyTab]) = Ok (m', cs) /\
    UI.state m' = (0 + 5) mod 4 /\
    UI.tabs m' = ["Shell"; "Jira"; "GitHub"; "Chat"] /\
    (UI.shell m' = UI.shell (UI.New Sample.env Sample.lib) /\
     UI.jira m' = UI.jira (UI.New Sample.env Sample.lib) /\
     UI.github m' = UI.github (UI.New Sample.env Sample.lib) /\
     UI.chat m' = UI.chat (UI.New Sample.env Sample.lib)) /\
    Forall (fun c => c = CmdNil) cs /\
    (5%nat = 1%nat ->
     (0 = 4 - 1 -> UI.state m' = 0) /\
     (0 < 4 - 1 -> UI.state m' = 0 + 1)).
Proof.
  assert (Hwf : UI.wf (UI.New Sample.env Sample.lib)).
  { unfold UI.wf. change (UI.state (UI.New Sample.env Sample.lib)) with 0.
    change (Z.of_nat (List.length (UI.tabs (UI.New Sample.env Sample.lib))))
      with 4.
    lia. }
  assert (Hks : Forall (fun k => keyString k = "tab")
                  [KeyTab; KeyTab; KeyTab; KeyTab; KeyTab]).
  { repeat constructor. }
  split; [exact Hwf|]. split; [exact Hks|].
  exact (tab_cycles Sample.env Sample.lib (UI.New Sample.env Sample.lib)
           [KeyTab; KeyTab; KeyTab; KeyTab; KeyTab] Hwf Hks).
Defined.

Section RoutingProps.
Variable env : Env.
Variable L : Lib.

(** The Shell pane handles every message but a key by returning. *)
Lemma Shell_Update_returns (sm : Shell.Model) (msg : Msg) :
  (forall k, msg <> KeyMsg k) ->
  exists sm' c, Shell.Update env L sm msg = Ok (sm', c).
Proof.
  intros H. unfold Shell.Update.
  destruct (textinputUpdate L (Shell.textInput sm) msg) as [ti tiCmd].
  destruct (viewportUpdate L (Shell.viewport sm) msg) as [vp vpCmd].
  destruct msg as [k| | | | | |]; try (eexists; eexists; reflexivity).
  now elim (H k).
Qed.

(** The second half of [Update], pane by pane. *)
Lemma updateActive_spec (m : UI.Model) (msg : Msg) :
  (forall k, msg <> KeyMsg k) ->
  exists m' c,
    UI.updateActive env L m msg = Ok (m', c) /\
    UI.state m' = UI.state m /\
    UI.tabs m' = UI.tabs m /\
    forall p,
      (UI.active m = Some p -> UI.delivered env L p msg m m') /\
      (UI.active m <> Some p -> UI.untouched p m m').
Proof.
  intros Hk. unfold UI.updateActive, UI.active.
  destruct (UI.state m =? UI.viewShell) eqn:E0.
  { destruct (Shell_Update_returns (UI.shell m) msg Hk) as (sm' & c & HS).
    rewrite HS. cbn [bind]. eexists. eexists. split; [reflexivity|].
    split; [reflexivity|]. split; [reflexivity|].
    intros p. split.
    - intros Hp. injection Hp as <-. exists c. exact HS.
    - intros Hp. destruct p; try reflexivity. now elim Hp. }
  destruct (UI.state m =? UI.viewJira) eqn:E1.
  { destruct (Jira.Update L (UI.jira m) msg) as [p' c] eqn:HP.
    cbn [bind]. eexists. eexists. split; [reflexivity|].
    split; [reflexivity|]. split; [reflexivity|].
    intros p. split.
    - intros Hp. injection Hp as <-. cbn. now rewrite HP.
    - intros Hp. destruct p; try reflexivity. now elim Hp. }
  destruct (UI.state m =? UI.viewGitHub) eqn:E2.
  { destruct (GitHub.Update L (UI.github m) msg) as [p' c] eqn:HP.
    cbn [bind]. eexists. eexists. split; [reflexivity|].
    split; [reflexivity|]. split; [reflexivity|].
    intros p. split.
    - intros Hp. injection Hp as <-. cbn. now rewrite HP.
    - intros Hp. destruct p; try reflexivity. now elim Hp. }
  destruct (UI.state m =? UI.viewChat) eqn:E3.
  { destruct (Chat.Update env L (UI.chat m) msg) as [p' c] eqn:HP.
    cbn [bind]. eexists. eexists. split; [reflexivity|].
    split; [reflexivity|]. split; [reflexivity|].
    intros p. split.
    - intros Hp. injection Hp as <-. cbn. now rewrite HP.
    - intros Hp. destruct p; try reflexivity. now elim Hp. }
  cbn [bind]. eexists. eexists. split; [reflexivity|].
  split; [reflexivity|]. split; [reflexivity|].
  intros p. split; [discriminate|].
  intros _. destruct p; reflexivity.
Qed.

End RoutingProps.

(** A message that a command yields is neither a key nor a resize, the
    commands of the library apart. *)
Lemma run_yields (env : Env) (L : Lib) (c : Cmd) (msg : Msg) :
  UI.run env L c = Ok (Some msg) ->
  (exists n, c = LibCmd n) \/
  (forall k, msg <> KeyMsg k) /\ (forall w h, msg <> WindowSizeMsg w h).
Proof.
  intros H. destruct c as [| | |n| | |session text]; cbn [UI.run] in H;
    try discriminate H.
  - left. now exists n.
  - right. unfold Jira.fetchIssues in H.
    repeat match type of H with
           | (if ?b then _ else _) = _ => destruct b
           | match ?x with _ => _ end = _ => destruct x
           end;
      try discriminate H; injection H as <-; split; intros; discriminate.
  - right. unfold GitHub.fetchIssues in H.
    repeat match type of H with
           | (if ?b then _ else _) = _ => destruct b
           | match ?x with _ => _ end = _ => destruct x
           end;
      try discriminate H; injection H as <-; split; intros; discriminate.
  - right. destruct (Chat.runSendMessage env L session text) as [r|] eqn:E;
      cbn [bind] in H; [|discriminate H].
    injection H as <-. unfold Chat.runSendMessage in E.
    repeat match type of E with
           | (if ?b then _ else _) = _ => destruct b
           | match ?x with _ => _ end = _ => destruct x eqn:?
           | bind ?x _ = _ => destruct x; cbn [bind] in E
           end;
      try discriminate E; injection E as <-; split; intros; discriminate.
Qed.

(** C1 (what the code does).  A message that is neither a key nor a
    resize, as is every message produced by a pane's command, is handled
    by the pane that is active when it arrives, whichever pane issued the
    command, and every other pane is left as it was.  A window-resize is
    passed, besides the active pane, to the Jira, GitHub and Chat panes as
    a size of five rows less. *)
Theorem message_goes_to_active_pane (env : Env) (L : Lib) (m : UI.Model) :
  (forall msg,
      (forall k, msg <> KeyMsg k) ->
      (forall w h, msg <> WindowSizeMsg w h) ->
      exists m' c,
        UI.Update env L m msg = Ok (m', c) /\
        UI.state m' = UI.state m /\
        forall p,
          (UI.active m = Some p -> UI.delivered env L p msg m m') /\
          (UI.active m <> Some p -> UI.untouched p m m')) /\
  (forall w h,
      exists m' c,
        UI.Update env L m (WindowSizeMsg w h) = Ok (m', c) /\
        (UI.active m <> Some UI.PJira ->
         UI.jira m' = Jira.SetSize (UI.jira m) w (wrap64 (h - 5))) /\
        (UI.active m <> Some UI.PGitHub ->
         UI.github m' = GitHub.SetSize (UI.github m) w (wrap64 (h - 5))) /\
        (UI.active m <> Some UI.PChat ->
         UI.chat m' = Chat.SetSize L (UI.chat m) w (wrap64 (h - 5)))).
Proof.
  split.
  - intros msg Hk Hw.
    destruct (updateActive_spec env L m msg Hk) as (m' & c & HU & Hs & _ & Hp).
    exists m', c. split; [|split; assumption].
    rewrite <- HU. destruct msg as [k|w h| | | | |]; try reflexivity.
    + now elim (Hk k).
    + now elim (Hw w h).
  - intros w h.
    unfold UI.Update.
    match goal with
    | |- context [UI.updateActive env L ?m1 _] =>
        destruct (updateActive_spec env L m1 (WindowSizeMsg w h))
          as (m' & c & HU & _ & _ & Hp); [discriminate|]
    end.
    exists m', c. split; [exact HU|].
    split; [|split]; intros Ha.
    + apply (proj2 (Hp UI.PJira)) in Ha. exact Ha.
    + apply (proj2 (Hp UI.PGitHub)) in Ha. exact Ha.
    + apply (proj2 (Hp UI.PChat)) in Ha. exact Ha.
Qed.

(** C1's theorem at start-up on the sample machine, for the message of
    the Jira fetch and a resize to 120 by 40. *)
Lemma message_goes_to_active_pane_witness :
  (exists m' c,
      UI.Update Sample.env Sample.lib (UI.New Sample.env Sample.lib)
        (JiraIssuesFetched
           [ {| Key_ := "BR-7"; Summary := "Fix tabs"; StatusName := "Open" |} ])
      = Ok (m', c) /\
      UI.state m' = UI.state (UI.New Sample.env Sample.lib) /\
      forall p,
        (UI.active (UI.New Sample.env Sample.lib) = Some p ->
         UI.delivered Sample.env Sample.lib p
           (JiraIssuesFetched
              [ {| Key_ := "BR-7"; Summary := "Fix tabs";
                   StatusName := "Open" |} ])
           (UI.New Sample.env Sample.lib) m') /\
        (UI.active (UI.New Sample.env Sample.lib) <> Some p ->
         UI.untouched p (UI.New Sample.env Sample.lib) m')) /\
  (exists m' c,
      UI.Update Sample.env Sample.lib (UI.New Sample.env Sample.lib)
        (WindowSizeMsg 120 40) = Ok (m', c) /\
      (UI.active (UI.New Sample.env Sample.lib) <> Some UI.PJira ->
       UI.jira m' =
       Jira.SetSize (UI.jira (UI.New Sample.env Sample.lib)) 120
         (wrap64 (40 - 5))) /\
      (UI.active (UI.New Sample.env Sample.lib) <> Some UI.PGitHub ->
       UI.github m' =
       GitHub.SetSize (UI.github (UI.New Sample.env Sample.lib)) 120
         (wrap64 (40 - 5))) /\
      (UI.active (UI.New Sample.env Sample.lib) <> Some UI.PChat ->
       UI.chat m' =
       Chat.SetSize Sample.lib (UI.chat (UI.New Sample.env Sample.lib)) 120
         (wrap64 (40 - 5)))).
Proof.
  split.
  - apply (proj1 (message_goes_to_active_pane Sample.env Sample.lib
                    (UI.New Sample.env Sample.lib))
             (JiraIssuesFetched
                [ {| Key_ := "BR-7"; Summary := "Fix tabs";
                     StatusName := "Open" |} ])).
    + intros k. discriminate.
    + intros w h. discriminate.
  - apply (proj2 (message_goes_to_active_pane Sample.env Sample.lib
                    (UI.New Sample.env Sample.lib))).
Defined.

(** C1's failure in a run.  At start-up the Shell tab is active; the Jira
    fetch issued by [Init] yields its message; the composer hands it to
    the Shell pane, and the Jira pane, which would have listed the issue,
    still shows its placeholder. *)
Lemma jira_reply_misses_jira_pane :
  In JiraFetchIssues (atoms (UI.Init (UI.New Sample.env Sample.lib))) /\
  exists msg m' c,
    UI.run Sample.env Sample.lib JiraFetchIssues = Ok (Some msg) /\
    msg = JiraIssuesFetched
            [ {| Key_ := "BR-7"; Summary := "Fix tabs";
                 StatusName := "Open" |} ] /\
    UI.active (UI.New Sample.env Sample.lib) = Some UI.PShell /\
    UI.Update Sample.env Sample.lib (UI.New Sample.env Sample.lib) msg
    = Ok (m', c) /\
    listItems (Jira.list (UI.jira m')) =
      [ {| title := "Setup Required";
           desc := "Please set JIRA_URL, JIRA_EMAIL, JIRA_TOKEN" |} ] /\
    listItems
      (Jira.list
         (fst (Jira.Update Sample.lib
                 (UI.jira (UI.New Sample.env Sample.lib)) msg))) =
      [ {| title := "BR-7 Fix tabs"; desc := "Status: Open" |} ] /\
    UI.jira m' <>
      fst (Jira.Update Sample.lib (UI.jira (UI.New Sample.env Sample.lib)) msg).
Proof.
  split; [cbn; tauto|].
  eexists. eexists. eexists.
  split; [reflexivity|]. split; [reflexivity|]. split; [reflexivity|].
  split; [reflexivity|]. split; [reflexivity|]. split; [reflexivity|].
  discriminate.
Qed.

(** C4 (what the code does).  While another tab is active, a resize event
    leaves the Shell pane, and so the width and height it stores, as they
    were. *)
Theorem resize_skips_inactive_shell (env : Env) (L : Lib) (m : UI.Model)
        (w h : Z) :
  UI.state m <> UI.viewShell ->
  exists m' c,
    UI.Update env L m (WindowSizeMsg w h) = Ok (m', c) /\
    UI.shell m' = UI.shell m.
Proof.
  intros Hs. unfold UI.Update.
  match goal with
  | |- context [UI.updateActive env L ?m1 _] =>
      destruct (updateActive_spec env L m1 (WindowSizeMsg w h))
        as (m' & c & HU & _ & _ & Hp); [discriminate|]
  end.
  exists m', c. split; [exact HU|].
  apply (proj2 (Hp UI.PShell)).
  unfold UI.active. cbn [UI.state UI.setChat UI.setGitHub UI.setJira UI.setSize].
  destruct (UI.state m =? UI.viewShell) eqn:E; [|].
  - apply Z.eqb_eq in E. contradiction.
  - destruct (UI.state m =? UI.viewJira); [discriminate|].
    destruct (UI.state m =? UI.viewGitHub); [discriminate|].
    destruct (UI.state m =? UI.viewChat); discriminate.
Qed.

(** C4's failure on the sample machine: with the Jira tab active, a resize
    to 120 by 40 reaches the Jira pane and not the Shell pane, whose
    viewport keeps its initial 30 by 20. *)
Lemma resize_skips_inactive_shell_witness :
  UI.state (UI.setState (UI.New Sample.env Sample.lib) UI.viewJira)
  <> UI.viewShell /\
  exists m' c,
    UI.Update Sample.env Sample.lib
      (UI.setState (UI.New Sample.env Sample.lib) UI.viewJira)
      (WindowSizeMsg 120 40) = Ok (m', c) /\
    UI.shell m' =
    UI.shell (UI.setState (UI.New Sample.env Sample.lib) UI.viewJira).
Proof.
  split; [discriminate|].
  apply (resize_skips_inactive_shell Sample.env Sample.lib
           (UI.setState (UI.New Sample.env Sample.lib) UI.viewJira) 120 40).
  discriminate.
Defined.

(** The same run from start-up: Tab, then the resize. *)
Lemma resize_after_tab_example :
  exists m' cs,
    UI.runAll Sample.env Sample.lib (UI.New Sample.env Sample.lib)
      [KeyMsg KeyTab; WindowSizeMsg 120 40] = Ok (m', cs) /\
    UI.width m' = 120 /\ UI.height m' = 40 /\
    listWidth (Jira.list (UI.jira m')) = 120 /\
    vpWidth (Chat.viewport (UI.chat m')) = 120 /\
    vpWidth (Shell.viewport (UI.shell m')) = 30 /\
    vpHeight (Shell.viewport (UI.shell m')) = 20 /\
    tiWidth (Shell.textInput (UI.shell m')) = 20.
Proof.
  eexists. eexists. split; [reflexivity|].
  repeat split.
Qed.

(** ** The issue lists *)

(** A fetch without issues leaves the Jira list with its one entry saying
    so; a fetch with issues lists them. *)
Lemma jira_fetch_items (L : Lib) (m : Jira.Model) (issues : list JiraIssue) :
  listItems (Jira.list (fst (Jira.Update L m (JiraIssuesFetched issues)))) =
  match issues with
  | [] => [Jira.noIssues]
  | _ => map Jira.issueItem issues
  end.
Proof.
  unfold Jira.Update.
  match goal with
  | |- context [listUpdate L ?l ?msg] =>
      pose proof (listUpdate_items L l msg) as H;
      destruct (listUpdate L l msg) as [l' c]
  end.
  cbn [fst Jira.list Jira.setList] in *. rewrite H.
  destruct issues; reflexivity.
Qed.

Lemma github_fetch_items (L : Lib) (m : GitHub.Model)
      (issues : list GitHubIssue) :
  listItems (GitHub.list (fst (GitHub.Update L m (GitHubIssuesFetched issues))))
  = map GitHub.issueItem issues.
Proof.
  unfold GitHub.Update.
  match goal with
  | |- context [listUpdate L ?l ?msg] =>
      pose proof (listUpdate_items L l msg) as H;
      destruct (listUpdate L l msg) as [l' c]
  end.
  cbn [fst GitHub.list GitHub.setList] in *. rewrite H.
  reflexivity.
Qed.

(** C6 (what the code does).  After a fetch that returns no issue the Jira
    pane lists exactly one entry, [No issues found]; the GitHub pane lists
    nothing. *)
Theorem empty_fetch_lists (L : Lib) (jm : Jira.Model) (gm : GitHub.Model) :
  listItems (Jira.list (fst (Jira.Update L jm (JiraIssuesFetched [])))) =
    [ {| title := "No issues found"; desc := "You have no assigned issues." |} ]
  /\
  listItems (GitHub.list (fst (GitHub.Update L gm (GitHubIssuesFetched [])))) =
    [].
Proof.
  split.
  - apply (jira_fetch_items L jm []).
  - apply (github_fetch_items L gm []).
Qed.

(** The GitHub pane of the sample machine: its fetch returns no issue, and
    the pane, with its tab active, ends with an empty list. *)
Lemma github_empty_list_example :
  exists m' c,
    UI.run Sample.env Sample.lib GitHubFetchIssues
    = Ok (Some (GitHubIssuesFetched [])) /\
    UI.Update Sample.env Sample.lib
      (UI.setState (UI.New Sample.env Sample.lib) UI.viewGitHub)
      (GitHubIssuesFetched []) = Ok (m', c) /\
    listItems (GitHub.list (UI.github m')) = [].
Proof.
  eexists. eexists. repeat split.
Qed.

(** ** The chat tools and the model-send command *)

Section ChatProps.
Variable env : Env.
Variable L : Lib.

Lemma eqb_nonempty (s : string) : s <> "" -> String.eqb s "" = false.
Proof. intros H. now apply String.eqb_neq. Qed.

(** A reply whose first candidate starts with a call of a tool that
    panics: the command panics with it. *)
Lemma runSendMessage_tool_panics (s : Genai.ChatSession) (text name : string)
      (reason : string) (parts : list Genai.Part)
      (others : list Genai.Candidate) :
  Getenv env "GEMINI_API_KEY" <> "" ->
  SendMessage env s text =
    inr ({| Genai.Content := Some (Genai.FunctionCall name :: parts) |}
           :: others) ->
  Chat.toolFunctions env L name = Some (Panic reason) ->
  Chat.runSendMessage env L (Some s) text = Panic reason.
Proof.
  intros Hk Hs Ht. unfold Chat.runSendMessage.
  rewrite (eqb_nonempty _ Hk), Hs.
  cbn [Genai.Content forEach Chat.renderPart]. rewrite Ht. reflexivity.
Qed.

(** A reply that is one call of a tool that succeeds: the command yields
    the tool's output as the response text. *)
Lemma runSendMessage_tool_output (s : Genai.ChatSession) (text name : string)
      (res : any) :
  Getenv env "GEMINI_API_KEY" <> "" ->
  SendMessage env s text =
    inr [ {| Genai.Content := Some [Genai.FunctionCall name] |} ] ->
  Chat.toolFunctions env L name = Some (Ok (inr res)) ->
  Chat.runSendMessage env L (Some s) text =
  Ok (ChatResponse
        (nl ++ "[Tool " ++ name ++ " Output]:" ++ nl ++
         MarshalIndent L res ++ nl)).
Proof.
  intros Hk Hs Ht. unfold Chat.runSendMessage.
  rewrite (eqb_nonempty _ Hk), Hs.
  cbn [Genai.Content forEach Chat.renderPart]. rewrite Ht.
  cbn [bind String.concat]. reflexivity.
Qed.

Lemma atoms_ofLib_map (c : list WidgetCmd) :
  atoms (ofLib c) = map ofWidget c.
Proof.
  unfold ofLib. cbn [atoms].
  induction c as [|w c IH]; [reflexivity|].
  cbn [map flat_map]. rewrite IH. now destruct w.
Qed.

Lemma filter_isSend_ofLib (c : list WidgetCmd) :
  filter isSend (atoms (ofLib c)) = [].
Proof.
  rewrite atoms_ofLib_map.
  induction c as [|w c IH]; [reflexivity|].
  cbn [map filter]. now destruct w.
Qed.

Lemma sends_ofLib (a b : list WidgetCmd) :
  sends (Batch [ofLib a; ofLib b]) = 0%nat.
Proof.
  unfold sends. cbn [atoms flat_map].
  rewrite !filter_app, !filter_isSend_ofLib. reflexivity.
Qed.

Lemma sends_ofLib_send (a b : list WidgetCmd) (s : option Genai.ChatSession)
      (text : string) :
  sends (Batch [ofLib a; ofLib b; ChatSendMessage s text]) = 1%nat.
Proof.
  unfold sends. cbn [atoms flat_map].
  rewrite !filter_app, !filter_isSend_ofLib. reflexivity.
Qed.

Lemma updateViewport_messages (m : Chat.Model) :
  Chat.messages (Chat.updateViewport L m) = Chat.messages m.
Proof.
  unfold Chat.updateViewport.
  destruct (0 <? Z.of_nat (List.length (Chat.messages m))); reflexivity.
Qed.

(** What the pane does with a response: one [model] turn, no command of
    its own. *)
Lemma Chat_Update_response (m : Chat.Model) (reply : string) :
  Chat.messages (fst (Chat.Update env L m (ChatResponse reply))) =
    (Chat.messages m ++
     [ {| Chat.Role := "model"; Chat.Content := reply |} ])%list /\
  sends (snd (Chat.Update env L m (ChatResponse reply))) = 0%nat.
Proof.
  unfold Chat.Update.
  destruct (textareaUpdate L (Chat.textarea m) (ChatResponse reply))
    as [ta tiCmd].
  destruct (viewportUpdate L (Chat.viewport m) (ChatResponse reply))
    as [vp vpCmd].
  cbn [fst snd]. rewrite updateViewport_messages. split.
  - reflexivity.
  - apply sends_ofLib.
Qed.

(** Whether [ensureClient] fails depends on the client field only. *)
Lemma ensureClient_error (m1 m2 : Chat.Model) :
  Chat.client m1 = Chat.client m2 ->
  snd (Chat.ensureClient env m1) = snd (Chat.ensureClient env m2).
Proof.
  intros H. unfold Chat.ensureClient. rewrite H.
  destruct (Chat.client m2); [reflexivity|].
  destruct (String.eqb (Getenv env "GEMINI_API_KEY") ""); [reflexivity|].
  destruct (NewClient env (Getenv env "GEMINI_API_KEY")); reflexivity.
Qed.

(** How many model-send commands one message makes the pane issue. *)
Lemma Chat_Update_sends (m : Chat.Model) (msg : Msg) :
  sends (snd (Chat.Update env L m msg)) =
  if Chat.submits env L m msg then 1%nat else 0%nat.
Proof.
  unfold Chat.Update, Chat.submits, Chat.clientReady.
  destruct (textareaUpdate L (Chat.textarea m) msg) as [ta tiCmd].
  destruct (viewportUpdate L (Chat.viewport m) msg) as [vp vpCmd].
  cbn [fst].
  destruct msg as [k| | | | | |]; cbn [snd]; try apply sends_ofLib.
  destruct k; cbn [snd]; try apply sends_ofLib.
  cbn [Chat.textarea Chat.setViewport Chat.setTextarea].
  destruct (String.eqb (taValue ta) ""); cbn [negb andb snd];
    [apply sends_ofLib|].
  rewrite (ensureClient_error m
             (Chat.setViewport (Chat.setTextarea m ta) vp) eq_refl).
  destruct (Chat.ensureClient env
              (Chat.setViewport (Chat.setTextarea m ta) vp)) as [m1 [e|]];
    cbn [snd].
  - reflexivity.
  - apply sends_ofLib_send.
Qed.

End ChatProps.

(** C5 (what the code does).  When the Jira search answers 200 with a JSON
    object whose [issues] entry is not an array (or is missing), the Jira
    tool panics, and so does every model-send command whose reply starts
    with a call of that tool: no message comes back. *)
Theorem jira_tool_panics_on_unexpected_payload (env : Env) (L : Lib)
        (resp : Response) (result : gomap) :
  String.eqb (Getenv env "JIRA_URL") ""
  || String.eqb (Getenv env "JIRA_EMAIL") ""
  || String.eqb (Getenv env "JIRA_TOKEN") "" = false ->
  urlParses L (URL (Chat.jiraToolRequest env L)) = true ->
  Do env (Chat.jiraToolRequest env L) = inr resp ->
  StatusCode resp = 200 ->
  decodeMap L (Body resp) = inr result ->
  (forall l, lookup result "issues" <> ASlice l) ->
  exists reason,
    Chat.getJiraIssues env L = Panic reason /\
    forall s text parts others,
      Getenv env "GEMINI_API_KEY" <> "" ->
      SendMessage env s text =
        inr ({| Genai.Content :=
                  Some (Genai.FunctionCall "get_jira_issues" :: parts) |}
               :: others) ->
      UI.run env L (ChatSendMessage (Some s) text) = Panic reason.
Proof.
  intros Hc Hu Hd Hs Hb Hi.
  assert (HP : Chat.getJiraIssues env L =
               Panic "interface conversion: interface {} is not []interface {}").
  { unfold Chat.getJiraIssues. rewrite Hc.
    cbv zeta. rewrite Hu. cbn [negb]. rewrite Hd, Hs.
    cbn [Z.eqb Pos.eqb negb]. rewrite Hb.
    destruct (lookup result "issues") eqn:E; try reflexivity.
    now elim (Hi elems). }
  eexists. split; [exact HP|].
  intros s text parts others Hk Hm.
  unfold UI.run.
  rewrite (runSendMessage_tool_panics env L s text "get_jira_issues"
             "interface conversion: interface {} is not []interface {}"
             parts others Hk Hm); [reflexivity|].
  unfold Chat.toolFunctions. cbn [String.eqb Ascii.eqb Bool.eqb andb].
  now rewrite HP.
Qed.

(** C5's failure on the sample machine, whose Jira answers the tool's
    search with an empty object. *)
Lemma jira_tool_panics_witness :
  (String.eqb (Getenv Sample.env "JIRA_URL") ""
   || String.eqb (Getenv Sample.env "JIRA_EMAIL") ""
   || String.eqb (Getenv Sample.env "JIRA_TOKEN") "" = false) /\
  urlParses Sample.lib (URL (Chat.jiraToolRequest Sample.env Sample.lib))
  = true /\
  Do Sample.env (Chat.jiraToolRequest Sample.env Sample.lib)
  = inr {| StatusCode := 200; Status := "200 OK"; Body := "{}" |} /\
  decodeMap Sample.lib "{}" = inr [] /\
  exists reason,
    Chat.getJiraIssues Sample.env Sample.lib = Panic reason /\
    forall s text parts others,
      Getenv Sample.env "GEMINI_API_KEY" <> "" ->
      SendMessage Sample.env s text =
        inr ({| Genai.Content :=
                  Some (Genai.FunctionCall "get_jira_issues" :: parts) |}
               :: others) ->
      UI.run Sample.env Sample.lib (ChatSendMessage (Some s) text)
      = Panic reason.
Proof.
  split; [reflexivity|]. split; [reflexivity|]. split; [reflexivity|].
  split; [reflexivity|].
  apply (jira_tool_panics_on_unexpected_payload Sample.env Sample.lib
           {| StatusCode := 200; Status := "200 OK"; Body := "{}" |} []);
    try reflexivity.
  intros l. discriminate.
Defined.

(** The command the question [jira?] gives rise to on the sample
    machine. *)
Lemma jira_question_panics_example :
  UI.run Sample.env Sample.lib (ChatSendMessage (Some Sample.session) "jira?")
  = Panic "interface conversion: interface {} is not []interface {}".
Proof. reflexivity. Qed.

(** The GitHub tool likewise: an issue without a [user] object. *)
Lemma github_tool_panics_without_user (env : Env) (L : Lib) (resp : Response)
      (i : gomap) (issues : list gomap) :
  urlParses L
    ("https://api.github.com/repos/charmbracelet/bubbletea" ++
     "/issues?state=open&per_page=5") = true ->
  Getenv env "GITHUB_REPO" = "" ->
  (forall req, Do env req = inr resp) ->
  StatusCode resp = 200 ->
  decodeMapSlice L (Body resp) = inr (i :: issues) ->
  (forall u, lookup i "user" <> AMap u) ->
  exists reason, Chat.getGitHubIssues env L = Panic reason.
Proof.
  intros Hu Hr Hd Hs Hb Hi.
  unfold Chat.getGitHubIssues. rewrite Hr.
  cbn [String.eqb]. cbv zeta.
  change ("https://api.github.com/repos/" ++ "charmbracelet/bubbletea" ++
          "/issues?state=open&per_page=5")
    with ("https://api.github.com/repos/charmbracelet/bubbletea" ++
          "/issues?state=open&per_page=5").
  rewrite Hu. cbn [negb]. rewrite Hd, Hs. cbn [Z.eqb Pos.eqb negb].
  rewrite Hb. cbn [forEach].
  destruct (lookup i "user") eqn:E; try (eexists; reflexivity).
  now elim (Hi entries).
Qed.

(** A first candidate without content: reading its parts dereferences the
    nil pointer. *)
Lemma runSendMessage_nil_content (env : Env) (L : Lib)
      (s : Genai.ChatSession) (text : string) (others : list Genai.Candidate) :
  Getenv env "GEMINI_API_KEY" <> "" ->
  SendMessage env s text = inr ({| Genai.Content := None |} :: others) ->
  returns (Chat.runSendMessage env L (Some s) text) = false.
Proof.
  intros Hk Hs. unfold Chat.runSendMessage.
  now rewrite (eqb_nonempty _ Hk), Hs.
Qed.

(** C2 (what the code does).  When the reply to a submitted text is a call
    of a catalogued tool and the tool succeeds, the model-send command
    yields the tool's output as the response text; the pane appends it as a
    single [model] turn and issues no further model-send command. *)
Theorem tool_output_ends_exchange (env : Env) (L : Lib)
        (s : Genai.ChatSession) (text name : string) (res : any)
        (m : Chat.Model) :
  Getenv env "GEMINI_API_KEY" <> "" ->
  SendMessage env s text =
    inr [ {| Genai.Content := Some [Genai.FunctionCall name] |} ] ->
  Chat.toolFunctions env L name = Some (Ok (inr res)) ->
  exists reply,
    reply = nl ++ "[Tool " ++ name ++ " Output]:" ++ nl ++
            MarshalIndent L res ++ nl /\
    UI.run env L (ChatSendMessage (Some s) text) = Ok (Some (ChatResponse reply)) /\
    Chat.messages (fst (Chat.Update env L m (ChatResponse reply))) =
      (Chat.messages m ++
       [ {| Chat.Role := "model"; Chat.Content := reply |} ])%list /\
    sends (snd (Chat.Update env L m (ChatResponse reply))) = 0%nat.
Proof.
  intros Hk Hs Ht. eexists. split; [reflexivity|].
  split.
  - unfold UI.run.
    now rewrite (runSendMessage_tool_output env L s text name res Hk Hs Ht).
  - apply Chat_Update_response.
Qed.

(** C2's failure on the sample machine, for the question [issues?]. *)
Lemma tool_output_ends_exchange_witness :
  Getenv Sample.env "GEMINI_API_KEY" <> "" /\
  SendMessage Sample.env Sample.session "issues?" =
    inr [ {| Genai.Content :=
               Some [Genai.FunctionCall "get_github_issues"] |} ] /\
  Chat.toolFunctions Sample.env Sample.lib "get_github_issues" =
    Some (Ok (inr (AMap [("issues", Nil)]))) /\
  exists reply,
    reply = nl ++ "[Tool " ++ "get_github_issues" ++ " Output]:" ++ nl ++
            MarshalIndent Sample.lib (AMap [("issues", Nil)]) ++ nl /\
    UI.run Sample.env Sample.lib
      (ChatSendMessage (Some Sample.session) "issues?")
    = Ok (Some (ChatResponse reply)) /\
    Chat.messages
      (fst (Chat.Update Sample.env Sample.lib (Sample.chatTyped "")
              (ChatResponse reply))) =
      (Chat.messages (Sample.chatTyped "") ++
       [ {| Chat.Role := "model"; Chat.Content := reply |} ])%list /\
    sends (snd (Chat.Update Sample.env Sample.lib (Sample.chatTyped "")
                  (ChatResponse reply))) = 0%nat.
Proof.
  split; [discriminate|]. split; [reflexivity|]. split; [reflexivity|].
  apply (tool_output_ends_exchange Sample.env Sample.lib Sample.session
           "issues?" "get_github_issues" (AMap [("issues", Nil)])
           (Sample.chatTyped ""));
    [discriminate | reflexivity | reflexivity].
Defined.

(** The whole exchange on the sample machine: with the Chat tab active the
    question is typed and submitted, the command issued is run, and its
    message handled.  The conversation ends as a [user] turn and a [model]
    turn holding the raw tool output; nothing is left to run. *)
Lemma tool_exchange_example :
  exists m1 cs send m2 c2 reply,
    UI.runAll Sample.env Sample.lib (UI.New Sample.env Sample.lib)
      [Sample.tab; Sample.tab; Sample.tab; Sample.type "issues?"; Sample.enter]
    = Ok (m1, cs) /\
    flat_map atoms cs = [send] /\
    send = ChatSendMessage (Some Sample.session) "issues?" /\
    UI.run Sample.env Sample.lib send = Ok (Some (ChatResponse reply)) /\
    UI.Update Sample.env Sample.lib m1 (ChatResponse reply) = Ok (m2, c2) /\
    map Chat.Role (Chat.messages (UI.chat m2)) = ["user"; "model"] /\
    atoms c2 = [].
Proof.
  do 6 eexists.
  split; [reflexivity|]. split; [reflexivity|]. split; [reflexivity|].
  split; [reflexivity|]. split; [reflexivity|]. split; reflexivity.
Qed.

(** C3 (as amended).  A message makes the Chat pane issue one model-send
    command when it is an Enter on a non-empty text with a usable client,
    and none otherwise; whether commands issued earlier are still in
    flight plays no part, so each such Enter adds one to their number. *)
Theorem chat_submit_always_sends (env : Env) (L : Lib) (m : Chat.Model)
        (msg : Msg) :
  sends (snd (Chat.Update env L m msg)) =
    (if Chat.submits env L m msg then 1%nat else 0%nat) /\
  (Chat.submits env L m msg = true ->
   forall pending, Chat.inFlight env L m pending [msg] = S pending).
Proof.
  split; [apply Chat_Update_sends|].
  intros H pending. cbn [Chat.inFlight].
  pose proof (Chat_Update_sends env L m msg) as HS. rewrite H in HS.
  destruct (Chat.Update env L m msg) as [m' c]. cbn [snd] in HS. rewrite HS.
  destruct msg as [k| | | | | |]; try discriminate H.
  lia.
Qed.

(** The amended C3 on the sample machine, with a text typed. *)
Lemma chat_submit_always_sends_witness :
  Chat.submits Sample.env Sample.lib (Sample.chatTyped "b") Sample.enter
  = true /\
  sends (snd (Chat.Update Sample.env Sample.lib (Sample.chatTyped "b")
                Sample.enter)) = 1%nat /\
  forall pending,
    Chat.inFlight Sample.env Sample.lib (Sample.chatTyped "b") pending
      [Sample.enter] = S pending.
Proof.
  split; [reflexivity|].
  split.
  - apply (proj1 (chat_submit_always_sends Sample.env Sample.lib
                    (Sample.chatTyped "b") Sample.enter)).
  - apply (proj2 (chat_submit_always_sends Sample.env Sample.lib
                    (Sample.chatTyped "b") Sample.enter)).
    reflexivity.
Defined.

(** C3 as stated fails.  On the sample machine a first text is submitted,
    which puts one model-send command in flight; before any reply arrives
    a second text is submitted, and a second command is issued: two are in
    flight. *)
Lemma second_submit_sends_again :
  Chat.inFlight Sample.env Sample.lib (Chat.New Sample.lib) 0
    [Sample.type "a"; Sample.enter] = 1%nat /\
  Chat.inFlight Sample.env Sample.lib (Chat.New Sample.lib) 0
    [Sample.type "a"; Sample.enter; Sample.type "b"; Sample.enter] = 2%nat.
Proof. split; reflexivity. Qed.

(* ================================================================== *)
(** * Further properties of the panes and the composer *)

(** ** The Shell pane *)

(** Where the interpreter fails to return, from the two lemmas on blank
    lines and on lines with fields. *)
Lemma executeCommand_panic_cases (env : Env) (L : Lib) (m : Shell.Model)
      (input : string) :
  returns (Shell.executeCommand env L m input) = false <->
  Fields input = ["cd"] /\ Stat env (Shell.cdTarget env L m []) <> Some true.
Proof.
  destruct (list_eq_dec string_dec (Fields input) ["cd"]) as [HF|HF].
  - rewrite (executeCommand_fields env L m input "cd" [] HF).
    cbn [String.eqb Ascii.eqb Bool.eqb].
    destruct (Stat env (Shell.cdTarget env L m [])) as [[|]|]; cbn.
    + split; [discriminate | intros [_ H]; now elim H].
    + split; intros _; [split; [exact HF | discriminate] | reflexivity].
    + split; intros _; [split; [exact HF | discriminate] | reflexivity].
  - destruct (executeCommand_returns env L m input HF) as (o & d & E).
    rewrite E. cbn. split; [discriminate | intros [H _]; now elim HF].
Qed.

(** What a line that changes the directory must be. *)
Lemma executeCommand_newDir (env : Env) (L : Lib) (m : Shell.Model)
      (input output newDir : string) :
  Shell.executeCommand env L m input = Ok (output, newDir) ->
  newDir <> "" ->
  (exists args, Fields input = "cd" :: args) /\
  Stat env newDir = Some true /\ output = "".
Proof.
  intros H Hn.
  destruct (Fields input) as [|name args] eqn:HF.
  - rewrite (executeCommand_blank env L m input HF) in H.
    injection H as _ <-. now elim Hn.
  - rewrite (executeCommand_fields env L m input name args HF) in H.
    destruct (String.eqb name "cd") eqn:En.
    + apply String.eqb_eq in En. subst name.
      destruct (Stat env (Shell.cdTarget env L m args)) as [[|]|] eqn:ES.
      * injection H as <- <-. split; [now exists args|]. split; [exact ES|reflexivity].
      * destruct (index args 0); cbn [bind] in H; [|discriminate H].
        injection H as _ <-. now elim Hn.
      * destruct (index args 0); cbn [bind] in H; [|discriminate H].
        injection H as _ <-. now elim Hn.
    + destruct (CombinedOutput env name args (Shell.currentDir m))
        as [out [e|]]; injection H as _ <-; now elim Hn.
Qed.

(** X1.  A submitted line whose first field is not [cd] is run as a
    program: named by the first field, with the other fields as arguments,
    in the pane's directory.  The pane returns, keeps its directory, clears
    the input and sets the transcript to the viewport's view, the prompt
    line and then the program's output as it is, or, when the run fails,
    the styled text [Error: ] with the failure. *)
Theorem shell_runs_program (env : Env) (L : Lib) (m : Shell.Model)
        (name : string) (args : list string) :
  Fields (Shell.submitted L m) = name :: args ->
  name <> "cd" ->
  exists m' c,
    Shell.Update env L m (KeyMsg KeyEnter) = Ok (m', c) /\
    Shell.currentDir m' = Shell.currentDir m /\
    tiValue (Shell.textInput m') = "" /\
    vpContent (Shell.viewport m') =
      Shell.shown L m ++ nl ++
      Shell.promptLine L m (Shell.submitted L m) ++ nl ++
      match CombinedOutput env name args (Shell.currentDir m) with
      | (_, Some err) => errStyle L ("Error: " ++ err)
      | (out, None) => out
      end.
Proof.
  intros HF Hn.
  apply String.eqb_neq in Hn.
  destruct (Shell_Update_enter env L m
              (match CombinedOutput env name args (Shell.currentDir m) with
               | (_, Some err) => errStyle L ("Error: " ++ err)
               | (out, None) => out
               end) "")
    as (m' & c & HU & Hd & Hi & Hc).
  { rewrite (executeCommand_fields env L _ _ _ _ HF), Hn.
    cbn [Shell.currentDir Shell.setTextInput Shell.setViewport].
    destruct (CombinedOutput env name args (Shell.currentDir m))
      as [out [e|]]; reflexivity. }
  exists m', c. cbn [String.eqb] in Hd.
  split; [exact HU|]. split; [exact Hd|]. split; [exact Hi|].
  rewrite Hc, Hd. reflexivity.
Qed.

(** X1 on the sample machine: [echo hi there] and an unknown program. *)
Lemma shell_runs_program_witness :
  (Fields (Shell.submitted Sample.lib (Sample.shellTyped "echo hi  there"))
   = ["echo"; "hi"; "there"] /\
   "echo" <> "cd" /\
   exists m' c,
     Shell.Update Sample.env Sample.lib (Sample.shellTyped "echo hi  there")
       (KeyMsg KeyEnter) = Ok (m', c) /\
     Shell.currentDir m' = "/home/dev/bridge" /\
     tiValue (Shell.textInput m') = "" /\
     vpContent (Shell.viewport m') =
       Shell.shown Sample.lib (Sample.shellTyped "echo hi  there") ++ nl ++
       Shell.promptLine Sample.lib (Sample.shellTyped "echo hi  there")
         (Shell.submitted Sample.lib (Sample.shellTyped "echo hi  there"))
       ++ nl ++
       match CombinedOutput Sample.env "echo" ["hi"; "there"]
               "/home/dev/bridge" with
       | (_, Some err) => errStyle Sample.lib ("Error: " ++ err)
       | (out, None) => out
       end) /\
  CombinedOutput Sample.env "echo" ["hi"; "there"] "/home/dev/bridge"
  = ("hi there" ++ nl, None).
Proof.
  split; [|reflexivity].
  split; [reflexivity|]. split; [discriminate|].
  apply (shell_runs_program Sample.env Sample.lib
           (Sample.shellTyped "echo hi  there") "echo" ["hi"; "there"]);
    [reflexivity | discriminate].
Defined.

(** X2.  A [cd] whose target is an existing directory prints nothing and
    makes the target the pane's directory; the prompt line written for
    this very input already names the new directory.  The target is the
    first argument, taken from the current directory unless absolute;
    further arguments are ignored. *)
Theorem shell_cd_enters (env : Env) (L : Lib) (m : Shell.Model)
        (arg : string) (rest : list string) :
  Fields (Shell.submitted L m) = "cd" :: arg :: rest ->
  Stat env (if IsAbs arg then arg else Join L (Shell.currentDir m) arg)
  = Some true ->
  (if IsAbs arg then arg else Join L (Shell.currentDir m) arg) <> "" ->
  exists m' c,
    Shell.Update env L m (KeyMsg KeyEnter) = Ok (m', c) /\
    Shell.currentDir m' =
      (if IsAbs arg then arg else Join L (Shell.currentDir m) arg) /\
    vpContent (Shell.viewport m') =
      Shell.shown L m ++ nl ++
      (pathStyle L (Base L (Shell.currentDir m')) ++ " $ " ++
       Shell.submitted L m) ++ nl.
Proof.
  intros HF HS Hne.
  assert (HT : Shell.cdTarget env L m (arg :: rest) =
               if IsAbs arg then arg else Join L (Shell.currentDir m) arg).
  { unfold Shell.cdTarget. destruct (IsAbs arg); reflexivity. }
  destruct (Shell_Update_enter env L m ""
              (if IsAbs arg then arg else Join L (Shell.currentDir m) arg))
    as (m' & c & HU & Hd & _ & Hc).
  { rewrite (executeCommand_fields env L _ _ _ _ HF).
    cbn [String.eqb Ascii.eqb Bool.eqb].
    change (Shell.cdTarget env L _ (arg :: rest))
      with (Shell.cdTarget env L m (arg :: rest)).
    rewrite HT, HS. reflexivity. }
  apply String.eqb_neq in Hne. rewrite Hne in Hd.
  exists m', c. split; [exact HU|]. split; [exact Hd|].
  rewrite Hc, append_empty_r. reflexivity.
Qed.

(** X2 on the sample machine: from [/home/dev/bridge], [cd /home/dev x]. *)
Lemma shell_cd_enters_witness :
  Fields (Shell.submitted Sample.lib (Sample.shellTyped "cd /home/dev x"))
  = ["cd"; "/home/dev"; "x"] /\
  Stat Sample.env
    (if IsAbs "/home/dev" then "/home/dev"
     else Join Sample.lib
            (Shell.currentDir (Sample.shellTyped "cd /home/dev x"))
            "/home/dev")
  = Some true /\
  exists m' c,
    Shell.Update Sample.env Sample.lib (Sample.shellTyped "cd /home/dev x")
      (KeyMsg KeyEnter) = Ok (m', c) /\
    Shell.currentDir m' =
      (if IsAbs "/home/dev" then "/home/dev"
       else Join Sample.lib
              (Shell.currentDir (Sample.shellTyped "cd /home/dev x"))
              "/home/dev") /\
    vpContent (Shell.viewport m') =
      Shell.shown Sample.lib (Sample.shellTyped "cd /home/dev x") ++ nl ++
      (pathStyle Sample.lib (Base Sample.lib (Shell.currentDir m')) ++ " $ " ++
       Shell.submitted Sample.lib (Sample.shellTyped "cd /home/dev x")) ++ nl.
Proof.
  split; [reflexivity|]. split; [reflexivity|].
  apply (shell_cd_enters Sample.env Sample.lib
           (Sample.shellTyped "cd /home/dev x") "/home/dev" ["x"]);
    [reflexivity | reflexivity | discriminate].
Defined.

(** X3.  Whatever message the Shell pane handles, its directory afterwards
    is the one before, or the message was an Enter on a [cd] line and the
    new directory is one the file system reports as an existing
    directory. *)
Theorem shell_directory_invariant (env : Env) (L : Lib) (m m' : Shell.Model)
        (msg : Msg) (c : Cmd) :
  Shell.Update env L m msg = Ok (m', c) ->
  Shell.currentDir m' = Shell.currentDir m \/
  (msg = KeyMsg KeyEnter /\
   (exists args, Fields (Shell.submitted L m) = "cd" :: args) /\
   Stat env (Shell.currentDir m') = Some true).
Proof.
  unfold Shell.Update, Shell.submitted.
  destruct (textinputUpdate L (Shell.textInput m) msg) as [ti tiCmd] eqn:Eti.
  destruct (viewportUpdate L (Shell.viewport m) msg) as [vp vpCmd].
  destruct msg as [k|w h| | | | |];
    try (cbn [bind]; intros H; injection H as <- _; left; reflexivity).
  destruct k;
    try (cbn [bind]; intros H; injection H as <- _; left; reflexivity).
  rewrite Eti. cbn [fst].
  cbn [Shell.textInput Shell.setViewport Shell.setTextInput Shell.viewport].
  match goal with
  | |- context [Shell.executeCommand env L ?m1 ?line] =>
      destruct (Shell.executeCommand env L m1 line) as [[output newDir]|r]
        eqn:E
  end; cbn [bind]; [|discriminate].
  destruct (String.eqb newDir "") eqn:En; cbn [negb];
    intros H; injection H as <- _.
  - left. reflexivity.
  - right. apply String.eqb_neq in En.
    destruct (executeCommand_newDir env L _ _ _ _ E En) as (Hargs & HS & _).
    split; [reflexivity|]. split; [exact Hargs | exact HS].
Qed.

(** X3 on the sample machine, for a bare [cd]. *)
Lemma shell_directory_invariant_witness :
  exists m' c,
    Shell.Update Sample.env Sample.lib (Sample.shellTyped "cd")
      (KeyMsg KeyEnter) = Ok (m', c) /\
    (Shell.currentDir m' = Shell.currentDir (Sample.shellTyped "cd") \/
     (KeyMsg KeyEnter = KeyMsg KeyEnter /\
      (exists args,
          Fields (Shell.submitted Sample.lib (Sample.shellTyped "cd"))
          = "cd" :: args) /\
      Stat Sample.env (Shell.currentDir m') = Some true)).
Proof.
  eexists. eexists. split; [reflexivity|].
  eapply (shell_directory_invariant Sample.env Sample.lib
            (Sample.shellTyped "cd")).
  reflexivity.
Defined.

(** ** The composer: which commands it issues *)

Lemma atoms_ofLib (o : list WidgetCmd) (a : Cmd) :
  In a (atoms (ofLib o)) -> a = Quit \/ exists n, a = LibCmd n.
Proof.
  rewrite atoms_ofLib_map. intros H.
  apply in_map_iff in H as ([|n] & <- & _); [now left | right; now exists n].
Qed.

Lemma atoms_ofLib2 (o1 o2 : list WidgetCmd) (a : Cmd) :
  In a (atoms (Batch [ofLib o1; ofLib o2])) ->
  a = Quit \/ exists n, a = LibCmd n.
Proof.
  cbn [atoms flat_map]. rewrite app_nil_r. intros H.
  apply in_app_or in H as [H|H]; now apply atoms_ofLib in H.
Qed.

(** The Shell pane and the tracker panes issue what their widgets hand
    back only: [Quit] or commands of the library. *)
Lemma Shell_Update_atoms (env : Env) (L : Lib) (m m' : Shell.Model)
      (msg : Msg) (c a : Cmd) :
  Shell.Update env L m msg = Ok (m', c) ->
  In a (atoms c) -> a = Quit \/ exists n, a = LibCmd n.
Proof.
  unfold Shell.Update.
  destruct (textinputUpdate L (Shell.textInput m) msg) as [ti tiCmd].
  destruct (viewportUpdate L (Shell.viewport m) msg) as [vp vpCmd].
  match goal with
  | |- bind ?r _ = _ -> _ => destruct r as [m1|r1]
  end; cbn [bind]; [|discriminate].
  intros H. injection H as _ <-. apply atoms_ofLib2.
Qed.

Lemma Jira_Update_atoms (L : Lib) (m : Jira.Model) (msg : Msg) (a : Cmd) :
  In a (atoms (snd (Jira.Update L m msg))) ->
  a = Quit \/ exists n, a = LibCmd n.
Proof.
  unfold Jira.Update.
  match goal with
  | |- context [listUpdate L ?l msg] => destruct (listUpdate L l msg) as [l' o]
  end.
  cbn [snd]. apply atoms_ofLib.
Qed.

Lemma GitHub_Update_atoms (L : Lib) (m : GitHub.Model) (msg : Msg) (a : Cmd) :
  In a (atoms (snd (GitHub.Update L m msg))) ->
  a = Quit \/ exists n, a = LibCmd n.
Proof.
  unfold GitHub.Update.
  match goal with
  | |- context [listUpdate L ?l msg] => destruct (listUpdate L l msg) as [l' o]
  end.
  cbn [snd]. apply atoms_ofLib.
Qed.

(** The Chat pane issues, besides those, model-send commands only. *)
Lemma Chat_Update_atoms (env : Env) (L : Lib) (m : Chat.Model) (msg : Msg)
      (a : Cmd) :
  In a (atoms (snd (Chat.Update env L m msg))) ->
  (a = Quit \/ exists n, a = LibCmd n) \/
  (exists s t, a = ChatSendMessage s t).
Proof.
  unfold Chat.Update.
  destruct (textareaUpdate L (Chat.textarea m) msg) as [ta tiCmd].
  destruct (viewportUpdate L (Chat.viewport m) msg) as [vp vpCmd].
  assert (Hlib : In a (atoms (Batch [ofLib tiCmd; ofLib vpCmd])) ->
                 (a = Quit \/ exists n, a = LibCmd n) \/
                 (exists s t, a = ChatSendMessage s t)).
  { intros H. left. now apply atoms_ofLib2 in H. }
  destruct msg as [k| | | | | |]; cbn [snd]; try exact Hlib.
  destruct k; cbn [snd]; try exact Hlib.
  destruct (String.eqb _ ""); cbn [snd]; [exact Hlib|].
  destruct (Chat.ensureClient env _) as [m1 [e|]]; cbn [snd atoms].
  - intros [].
  - cbn [flat_map atoms]. rewrite app_nil_r. intros H.
    apply in_app_or in H as [H|H]; [left; now apply atoms_ofLib in H|].
    apply in_app_or in H as [H|H]; [left; now apply atoms_ofLib in H|].
    destruct H as [<-|[]]. right. eauto.
Qed.

Lemma updateActive_atoms (env : Env) (L : Lib) (m m' : UI.Model) (msg : Msg)
      (c a : Cmd) :
  UI.updateActive env L m msg = Ok (m', c) ->
  In a (atoms c) ->
  (a = Quit \/ exists n, a = LibCmd n) \/
  (UI.active m = Some UI.PChat /\ exists s t, a = ChatSendMessage s t).
Proof.
  unfold UI.updateActive, UI.active.
  destruct (UI.state m =? UI.viewShell).
  { destruct (Shell.Update env L (UI.shell m) msg) as [[p c']|r] eqn:E;
      cbn [bind]; intros H; [|discriminate H].
    injection H as _ <-. cbn [atoms flat_map]. rewrite app_nil_r.
    intros Ha. left. exact (Shell_Update_atoms env L _ _ _ _ _ E Ha). }
  destruct (UI.state m =? UI.viewJira).
  { pose proof (Jira_Update_atoms L (UI.jira m) msg a) as HA.
    destruct (Jira.Update L (UI.jira m) msg) as [p c'].
    cbn [bind]. intros H. injection H as _ <-.
    cbn [atoms flat_map]. rewrite app_nil_r. intros Ha. left. now apply HA. }
  destruct (UI.state m =? UI.viewGitHub).
  { pose proof (GitHub_Update_atoms L (UI.github m) msg a) as HA.
    destruct (GitHub.Update L (UI.github m) msg) as [p c'].
    cbn [bind]. intros H. injection H as _ <-.
    cbn [atoms flat_map]. rewrite app_nil_r. intros Ha. left. now apply HA. }
  destruct (UI.state m =? UI.viewChat).
  { pose proof (Chat_Update_atoms env L (UI.chat m) msg a) as HA.
    destruct (Chat.Update env L (UI.chat m) msg) as [p c'].
    cbn [bind]. intros H. injection H as _ <-.
    cbn [atoms flat_map]. rewrite app_nil_r. intros Ha.
    destruct (HA Ha) as [Hl|Hs]; [left; exact Hl | right; now split]. }
  cbn [bind]. intros H. injection H as _ <-. intros [].
Qed.

(** Every command the composer's [Update] returns: [Quit], a command of
    the library, or a model-send command of the active Chat pane. *)
Lemma Update_atoms (env : Env) (L : Lib) (m m' : UI.Model) (msg : Msg)
      (c a : Cmd) :
  UI.Update env L m msg = Ok (m', c) ->
  In a (atoms c) ->
  (a = Quit \/ exists n, a = LibCmd n) \/
  (UI.active m = Some UI.PChat /\ exists s t, a = ChatSendMessage s t).
Proof.
  unfold UI.Update.
  destruct msg as [k|w h| | | | |];
    try (intros H Ha; exact (updateActive_atoms env L _ _ _ _ _ H Ha)).
  destruct (String.eqb (keyString k) "ctrl+c") eqn:Ec.
  { intros H. injection H as _ <-. intros [<-|[]]. left. now left. }
  destruct (String.eqb (keyString k) "tab").
  { destruct (Z.of_nat (List.length (UI.tabs m)) =? 0); [discriminate|].
    intros H. injection H as _ <-. intros []. }
  intros H Ha. exact (updateActive_atoms env L _ _ _ _ _ H Ha).
Qed.

Lemma runAll_atoms (env : Env) (L : Lib) (msgs : list Msg) :
  forall (m m' : UI.Model) (cs : list Cmd) (a : Cmd),
    UI.runAll env L m msgs = Ok (m', cs) ->
    In a (flat_map atoms cs) ->
    Runs.isFetch a = false.
Proof.
  induction msgs as [|msg rest IH]; intros m m' cs a; cbn [UI.runAll].
  - intros H. injection H as _ <-. intros [].
  - destruct (UI.Update env L m msg) as [[m1 c]|r] eqn:EU;
      cbn [bind]; [|discriminate].
    destruct (UI.runAll env L m1 rest) as [[m2 cs']|r] eqn:ER;
      cbn [bind]; [|discriminate].
    intros H. injection H as _ <-. cbn [flat_map]. intros Ha.
    apply in_app_or in Ha as [Ha|Ha].
    + destruct (Update_atoms env L _ _ _ _ _ EU Ha)
        as [[->|(n & ->)]|(_ & s & t & ->)]; reflexivity.
    + exact (IH _ _ _ _ ER Ha).
Qed.

Lemma filter_none {A} (f : A -> bool) (l : list A) :
  (forall a, In a l -> f a = false) -> filter f l = [].
Proof.
  induction l as [|x l IH]; intros H; [reflexivity|].
  cbn [filter]. rewrite (H x) by now left.
  apply IH. intros a Ha. apply H. now right.
Qed.

(** X5.  In every run of the composer the two trackers are fetched exactly
    once each: [Init] issues the Jira fetch and the GitHub fetch, and no
    message, whatever it is, makes [Update] issue a fetch again. *)
Theorem fetched_once (env : Env) (L : Lib) (msgs : list Msg)
        (m' : UI.Model) (cs : list Cmd) :
  UI.runAll env L (UI.New env L) msgs = Ok (m', cs) ->
  filter Runs.isFetch (flat_map atoms (UI.Init (UI.New env L) :: cs))
  = [JiraFetchIssues; GitHubFetchIssues].
Proof.
  intros H. cbn [flat_map]. rewrite filter_app.
  rewrite (filter_none Runs.isFetch (flat_map atoms cs)).
  - reflexivity.
  - intros a Ha. exact (runAll_atoms env L msgs _ _ _ _ H Ha).
Qed.

(** X5 on the sample machine: a run through all tabs with a resize, a
    reply and a submitted chat text. *)
Lemma fetched_once_witness :
  exists m' cs,
    UI.runAll Sample.env Sample.lib (UI.New Sample.env Sample.lib)
      [WindowSizeMsg 80 24; Sample.tab; JiraIssuesFetched []; Sample.tab;
       Sample.tab; Sample.type "hi"; Sample.enter] = Ok (m', cs) /\
    filter Runs.isFetch
      (flat_map atoms (UI.Init (UI.New Sample.env Sample.lib) :: cs))
    = [JiraFetchIssues; GitHubFetchIssues].
Proof.
  eexists. eexists. split; [vm_compute; reflexivity|].
  eapply (fetched_once Sample.env Sample.lib
            [WindowSizeMsg 80 24; Sample.tab; JiraIssuesFetched []; Sample.tab;
             Sample.tab; Sample.type "hi"; Sample.enter]).
  vm_compute; reflexivity.
Defined.

Lemma sends_lib_only (c : Cmd) :
  (forall a, In a (atoms c) -> a = Quit \/ exists n, a = LibCmd n) ->
  sends c = 0%nat.
Proof.
  intros H. unfold sends. rewrite filter_none; [reflexivity|].
  intros a Ha. destruct (H a Ha) as [->|[n ->]]; reflexivity.
Qed.

Lemma sends_Batch1 (c : Cmd) : sends (Batch [c]) = sends c.
Proof. unfold sends. cbn [atoms flat_map]. now rewrite app_nil_r. Qed.

(** The model-send commands of the second half of [Update] are those of
    the Chat pane, when it is active. *)
Lemma updateActive_sends (env : Env) (L : Lib) (m m' : UI.Model) (msg : Msg)
      (c : Cmd) :
  UI.updateActive env L m msg = Ok (m', c) ->
  sends c = 0%nat \/
  (UI.active m = Some UI.PChat /\
   sends c = sends (snd (Chat.Update env L (UI.chat m) msg))).
Proof.
  unfold UI.updateActive, UI.active.
  destruct (UI.state m =? UI.viewShell).
  { destruct (Shell.Update env L (UI.shell m) msg) as [[p c']|r] eqn:E;
      cbn [bind]; intros H; [|discriminate H].
    injection H as _ <-. left. rewrite sends_Batch1.
    apply sends_lib_only. intros a Ha.
    exact (Shell_Update_atoms env L _ _ _ _ _ E Ha). }
  destruct (UI.state m =? UI.viewJira).
  { pose proof (Jira_Update_atoms L (UI.jira m) msg) as HA.
    destruct (Jira.Update L (UI.jira m) msg) as [p c'].
    cbn [bind]. intros H. injection H as _ <-. left. rewrite sends_Batch1.
    apply sends_lib_only. exact HA. }
  destruct (UI.state m =? UI.viewGitHub).
  { pose proof (GitHub_Update_atoms L (UI.github m) msg) as HA.
    destruct (GitHub.Update L (UI.github m) msg) as [p c'].
    cbn [bind]. intros H. injection H as _ <-. left. rewrite sends_Batch1.
    apply sends_lib_only. exact HA. }
  destruct (UI.state m =? UI.viewChat).
  { destruct (Chat.Update env L (UI.chat m) msg) as [p c'].
    cbn [bind]. intros H. injection H as _ <-. right.
    split; [reflexivity|]. now rewrite sends_Batch1. }
  cbn [bind]. intros H. injection H as _ <-. left. reflexivity.
Qed.

(** X6.  The composer contacts the model only for the Chat pane: a message
    makes [Update] issue at most one model-send command, and it issues one
    only when the Chat tab is active and the message is an Enter that the
    Chat pane takes as a submission. *)
Theorem send_only_from_active_chat (env : Env) (L : Lib) (m m' : UI.Model)
        (msg : Msg) (c : Cmd) :
  UI.Update env L m msg = Ok (m', c) ->
  (sends c <= 1)%nat /\
  (sends c = 1%nat ->
   UI.active m = Some UI.PChat /\ msg = KeyMsg KeyEnter /\
   Chat.submits env L (UI.chat m) msg = true).
Proof.
  intros H.
  assert (HS : sends c = 0%nat \/
               (UI.active m = Some UI.PChat /\
                sends c = if Chat.submits env L (UI.chat m) msg
                          then 1%nat else 0%nat)).
  { revert H. unfold UI.Update.
    destruct msg as [k|w h| | | | |];
      try (intros H; apply updateActive_sends in H as [H|[Ha H]];
           [left; exact H | right; split; [exact Ha|];
            now rewrite H, Chat_Update_sends]).
    destruct (String.eqb (keyString k) "ctrl+c").
    { intros H. injection H as _ <-. left. reflexivity. }
    destruct (String.eqb (keyString k) "tab").
    { destruct (Z.of_nat (List.length (UI.tabs m)) =? 0); [discriminate|].
      intros H. injection H as _ <-. left. reflexivity. }
    intros H. apply updateActive_sends in H as [H|[Ha H]];
      [left; exact H | right; split; [exact Ha|]].
    now rewrite H, Chat_Update_sends. }
  destruct HS as [H0|[Ha Hs]].
  { rewrite H0. split; [lia | discriminate]. }
  rewrite Hs.
  destruct (Chat.submits env L (UI.chat m) msg) eqn:Esub;
    [|split; [lia | discriminate]].
  split; [lia|]. intros _. split; [exact Ha|]. split; [|reflexivity].
  destruct msg as [k| | | | | |]; try discriminate Esub.
  destruct k; try discriminate Esub. reflexivity.
Qed.

(** X6 on the sample machine: a text submitted with the Chat tab
    active. *)
Lemma send_only_from_active_chat_witness :
  exists m' c,
    UI.Update Sample.env Sample.lib
      (UI.setChat (UI.setState (UI.New Sample.env Sample.lib) UI.viewChat)
         (Sample.chatTyped "hi"))
      Sample.enter = Ok (m', c) /\
    sends c = 1%nat /\
    (sends c <= 1)%nat /\
    (sends c = 1%nat ->
     UI.active
       (UI.setChat (UI.setState (UI.New Sample.env Sample.lib) UI.viewChat)
          (Sample.chatTyped "hi")) = Some UI.PChat /\
     Sample.enter = KeyMsg KeyEnter /\
     Chat.submits Sample.env Sample.lib
       (UI.chat
          (UI.setChat (UI.setState (UI.New Sample.env Sample.lib) UI.viewChat)
             (Sample.chatTyped "hi")))
       Sample.enter = true).
Proof.
  eexists. eexists. split; [vm_compute; reflexivity|].
  split; [reflexivity|].
  eapply (send_only_from_active_chat Sample.env Sample.lib
            (UI.setChat
               (UI.setState (UI.New Sample.env Sample.lib) UI.viewChat)
               (Sample.chatTyped "hi")) _ Sample.enter).
  vm_compute; reflexivity.
Defined.

(** ** The composer: which panes a message reaches *)

(** The second half of [Update] never touches a pane that is not
    active. *)
Lemma updateActive_untouched (env : Env) (L : Lib) (m m' : UI.Model)
      (msg : Msg) (c : Cmd) (p : UI.Pane) :
  UI.updateActive env L m msg = Ok (m', c) ->
  UI.active m <> Some p ->
  UI.untouched p m m'.
Proof.
  unfold UI.updateActive, UI.active.
  destruct (UI.state m =? UI.viewShell).
  { destruct (Shell.Update env L (UI.shell m) msg) as [[q c']|r];
      cbn [bind]; intros H; [|discriminate H].
    injection H as <- _. intros Hp. destruct p; try reflexivity. now elim Hp. }
  destruct (UI.state m =? UI.viewJira).
  { destruct (Jira.Update L (UI.jira m) msg) as [q c'].
    cbn [bind]. intros H. injection H as <- _.
    intros Hp. destruct p; try reflexivity. now elim Hp. }
  destruct (UI.state m =? UI.viewGitHub).
  { destruct (GitHub.Update L (UI.github m) msg) as [q c'].
    cbn [bind]. intros H. injection H as <- _.
    intros Hp. destruct p; try reflexivity. now elim Hp. }
  destruct (UI.state m =? UI.viewChat).
  { destruct (Chat.Update env L (UI.chat m) msg) as [q c'].
    cbn [bind]. intros H. injection H as <- _.
    intros Hp. destruct p; try reflexivity. now elim Hp. }
  cbn [bind]. intros H. injection H as <- _.
  intros _. destruct p; reflexivity.
Qed.

(** X7.  No key reaches a pane that is not active: whatever key the
    composer handles, every pane other than the active one is afterwards
    as it was; the keys ctrl+c and tab leave the active pane as it was,
    too. *)
Theorem keys_stay_in_active_pane (env : Env) (L : Lib) (m m' : UI.Model)
        (k : Key) (c : Cmd) (p : UI.Pane) :
  UI.Update env L m (KeyMsg k) = Ok (m', c) ->
  (UI.active m <> Some p -> UI.untouched p m m') /\
  (keyString k = "ctrl+c" \/ keyString k = "tab" -> UI.untouched p m m').
Proof.
  unfold UI.Update.
  destruct (String.eqb (keyString k) "ctrl+c") eqn:Ec.
  { intros H. injection H as <- _.
    split; intros _; destruct p; reflexivity. }
  destruct (String.eqb (keyString k) "tab") eqn:Et.
  { destruct (Z.of_nat (List.length (UI.tabs m)) =? 0); [discriminate|].
    intros H. injection H as <- _.
    split; intros _; destruct p; reflexivity. }
  intros H. split.
  - exact (updateActive_untouched env L _ _ _ _ p H).
  - apply String.eqb_neq in Ec, Et. intros [Hk|Hk]; contradiction.
Qed.

(** X7 on the sample machine: a letter typed at start-up, seen from the
    Chat pane. *)
Lemma keys_stay_in_active_pane_witness :
  exists m' c,
    UI.Update Sample.env Sample.lib (UI.New Sample.env Sample.lib)
      (KeyMsg (KeyRunes "l")) = Ok (m', c) /\
    tiValue (Shell.textInput (UI.shell m')) = "l" /\
    (UI.active (UI.New Sample.env Sample.lib) <> Some UI.PChat ->
     UI.untouched UI.PChat (UI.New Sample.env Sample.lib) m') /\
    (keyString (KeyRunes "l") = "ctrl+c" \/ keyString (KeyRunes "l") = "tab" ->
     UI.untouched UI.PChat (UI.New Sample.env Sample.lib) m').
Proof.
  eexists. eexists. split; [vm_compute; reflexivity|].
  split; [reflexivity|].
  eapply (keys_stay_in_active_pane Sample.env Sample.lib
            (UI.New Sample.env Sample.lib) _ (KeyRunes "l")).
  vm_compute; reflexivity.
Defined.

Lemma runAll_wf (env : Env) (L : Lib) (msgs : list Msg) :
  forall (m m' : UI.Model) (cs : list Cmd),
    UI.wf m ->
    UI.runAll env L m msgs = Ok (m', cs) ->
    UI.wf m' /\ UI.tabs m' = UI.tabs m /\ List.length cs = List.length msgs.
Proof.
  induction msgs as [|msg rest IH]; intros m m' cs Hwf; cbn [UI.runAll].
  - intros H. injection H as <- <-. repeat split; apply Hwf.
  - destruct (UI.Update env L m msg) as [[m1 c]|r] eqn:EU;
      cbn [bind]; [|discriminate].
    destruct (UI.runAll env L m1 rest) as [[m2 cs']|r] eqn:ER;
      cbn [bind]; [|discriminate].
    intros H. injection H as <- <-.
    pose proof (Update_wf env L _ _ _ _ Hwf EU) as Hwf1.
    destruct (IH _ _ _ Hwf1 ER) as (Hwf2 & Ht & Hl).
    split; [exact Hwf2|]. split; [|cbn [List.length]; now rewrite Hl].
    rewrite Ht. clear - EU. unfold UI.Update in EU.
    destruct msg as [k|w h| | | | |];
      try (apply updateActive_frame in EU; apply EU).
    destruct (String.eqb (keyString k) "ctrl+c");
      [now injection EU as <- _|].
    destruct (String.eqb (keyString k) "tab");
      [|apply updateActive_frame in EU; apply EU].
    destruct (Z.of_nat (List.length (UI.tabs m)) =? 0); [discriminate|].
    now injection EU as <- _.
Qed.

(** X9.  After any run from start-up that the composer gets through, the
    four tabs are as at the start, the active index names one of them, so
    one of the four panes is the active one, and every message has been
    answered by one command. *)
Theorem run_keeps_a_pane_active (env : Env) (L : Lib) (msgs : list Msg)
        (m' : UI.Model) (cs : list Cmd) :
  UI.runAll env L (UI.New env L) msgs = Ok (m', cs) ->
  UI.tabs m' = ["Shell"; "Jira"; "GitHub"; "Chat"] /\
  0 <= UI.state m' < 4 /\
  (exists p, UI.active m' = Some p) /\
  List.length cs = List.length msgs.
Proof.
  intros H.
  destruct (runAll_wf env L msgs _ _ _ (New_wf env L) H) as ([Hs _] & Ht & Hl).
  change (UI.tabs (UI.New env L)) with ["Shell"; "Jira"; "GitHub"; "Chat"]
    in Ht.
  rewrite Ht in Hs. change (Z.of_nat (List.length _)) with 4 in Hs.
  split; [exact Ht|]. split; [exact Hs|]. split; [|exact Hl].
  unfold UI.active, UI.viewShell, UI.viewJira, UI.viewGitHub, UI.viewChat.
  destruct (UI.state m' =? 0) eqn:E0; [eauto|].
  destruct (UI.state m' =? 1) eqn:E1; [eauto|].
  destruct (UI.state m' =? 2) eqn:E2; [eauto|].
  destruct (UI.state m' =? 3) eqn:E3; [eauto|].
  lia.
Qed.

(** X9 on the sample machine: six tabs and a key. *)
Lemma run_keeps_a_pane_active_witness :
  exists m' cs,
    UI.runAll Sample.env Sample.lib (UI.New Sample.env Sample.lib)
      [Sample.tab; Sample.tab; Sample.tab; Sample.tab; Sample.tab; Sample.tab;
       Sample.type "x"] = Ok (m', cs) /\
    UI.state m' = 2 /\
    UI.tabs m' = ["Shell"; "Jira"; "GitHub"; "Chat"] /\
    0 <= UI.state m' < 4 /\
    (exists p, UI.active m' = Some p) /\
    List.length cs = 7%nat.
Proof.
  eexists. eexists. split; [vm_compute; reflexivity|].
  split; [reflexivity|].
  eapply (run_keeps_a_pane_active Sample.env Sample.lib
            [Sample.tab; Sample.tab; Sample.tab; Sample.tab; Sample.tab;
             Sample.tab; Sample.type "x"]).
  vm_compute; reflexivity.
Defined.

(** X10.  A resize that arrives while the Shell tab is active reaches all
    four panes: the composer stores the size, the Shell pane takes the
    width for its viewport and its input and three rows less than the
    height for its viewport, the two tracker lists take the width and five
    rows less than the height, and the Chat viewport takes the width.  The
    Shell pane's directory is not affected. *)
Theorem resize_with_shell_active (env : Env) (L : Lib) (m : UI.Model)
        (w h : Z) :
  UI.state m = UI.viewShell ->
  - 2 ^ 63 + 5 <= h < 2 ^ 63 ->
  exists m' c,
    UI.Update env L m (WindowSizeMsg w h) = Ok (m', c) /\
    (UI.width m' = w /\ UI.height m' = h) /\
    (vpWidth (Shell.viewport (UI.shell m')) = w /\
     vpHeight (Shell.viewport (UI.shell m')) = h - 3 /\
     tiWidth (Shell.textInput (UI.shell m')) = w /\
     Shell.currentDir (UI.shell m') = Shell.currentDir (UI.shell m)) /\
    (listWidth (Jira.list (UI.jira m')) = w /\
     listHeight (Jira.list (UI.jira m')) = h - 5) /\
    (listWidth (GitHub.list (UI.github m')) = w /\
     listHeight (GitHub.list (UI.github m')) = h - 5) /\
    vpWidth (Chat.viewport (UI.chat m')) = w.
Proof.
  intros Hs Hh. unfold UI.Update, UI.updateActive.
  cbn [UI.state UI.setChat UI.setGitHub UI.setJira UI.setSize UI.shell].
  rewrite Hs. cbn [Z.eqb].
  unfold Shell.Update.
  destruct (textinputUpdate L (Shell.textInput (UI.shell m))
              (WindowSizeMsg w h)) as [ti tiCmd].
  destruct (viewportUpdate L (Shell.viewport (UI.shell m))
              (WindowSizeMsg w h)) as [vp vpCmd].
  cbn [bind]. eexists. eexists. split; [reflexivity|].
  cbn. rewrite !wrap64_small by lia.
  repeat split.
Qed.

(** X10 on the sample machine: a resize to 120 by 40 at start-up. *)
Lemma resize_with_shell_active_witness :
  UI.state (UI.New Sample.env Sample.lib) = UI.viewShell /\
  - 2 ^ 63 + 5 <= 40 < 2 ^ 63 /\
  exists m' c,
    UI.Update Sample.env Sample.lib (UI.New Sample.env Sample.lib)
      (WindowSizeMsg 120 40) = Ok (m', c) /\
    (UI.width m' = 120 /\ UI.height m' = 40) /\
    (vpWidth (Shell.viewport (UI.shell m')) = 120 /\
     vpHeight (Shell.viewport (UI.shell m')) = 40 - 3 /\
     tiWidth (Shell.textInput (UI.shell m')) = 120 /\
     Shell.currentDir (UI.shell m') =
     Shell.currentDir (UI.shell (UI.New Sample.env Sample.lib))) /\
    (listWidth (Jira.list (UI.jira m')) = 120 /\
     listHeight (Jira.list (UI.jira m')) = 40 - 5) /\
    (listWidth (GitHub.list (UI.github m')) = 120 /\
     listHeight (GitHub.list (UI.github m')) = 40 - 5) /\
    vpWidth (Chat.viewport (UI.chat m')) = 120.
Proof.
  split; [reflexivity|]. split; [lia|].
  apply (resize_with_shell_active Sample.env Sample.lib
           (UI.New Sample.env Sample.lib) 120 40); [reflexivity | lia].
Defined.

(** ** The tracker panes *)

(** X12.  The Jira fetch yields no message exactly when one of JIRA_URL,
    JIRA_EMAIL and JIRA_TOKEN is empty, and fails to return exactly when
    all three are set and the search URL built from JIRA_URL cannot be
    parsed into a request; in every other case (transport failure, status
    other than 200, undecodable body, success) it yields a message. *)
Theorem jira_fetch_outcomes (env : Env) (L : Lib) :
  (Jira.fetchIssues env L = Ok None <->
   Getenv env "JIRA_URL" = "" \/ Getenv env "JIRA_EMAIL" = "" \/
   Getenv env "JIRA_TOKEN" = "") /\
  (returns (Jira.fetchIssues env L) = false <->
   (Getenv env "JIRA_URL" <> "" /\ Getenv env "JIRA_EMAIL" <> "" /\
    Getenv env "JIRA_TOKEN" <> "") /\
   urlParses L
     (Getenv env "JIRA_URL" ++
      "/rest/api/3/search?jql=assignee=currentUser()") = false).
Proof.
  unfold Jira.fetchIssues.
  destruct (String.eqb (Getenv env "JIRA_URL") "") eqn:E1.
  { apply String.eqb_eq in E1. cbn [orb returns]. split.
    - split; [intros _; now left | reflexivity].
    - split; [discriminate | intros [[H _] _]; contradiction]. }
  destruct (String.eqb (Getenv env "JIRA_EMAIL") "") eqn:E2.
  { apply String.eqb_eq in E2. cbn [orb returns]. split.
    - split; [intros _; right; now left | reflexivity].
    - split; [discriminate | intros [(_ & H & _) _]; contradiction]. }
  destruct (String.eqb (Getenv env "JIRA_TOKEN") "") eqn:E3.
  { apply String.eqb_eq in E3. cbn [orb returns]. split.
    - split; [intros _; right; now right | reflexivity].
    - split; [discriminate | intros [(_ & _ & H) _]; contradiction]. }
  apply String.eqb_neq in E1, E2, E3. cbn [orb].
  destruct (urlParses L _) eqn:EU; cbn [negb].
  - match goal with
    | |- (?r = _ <-> _) /\ _ =>
        assert (Hsome : exists msg, r = Ok (Some msg))
    end.
    { destruct (Do env _) as [e|resp]; [eauto|].
      destruct (negb (StatusCode resp =? 200)); [eauto|].
      destruct (decodeJiraSearch L (Body resp)); eauto. }
    destruct Hsome as [msg ->]. cbn [returns]. split.
    + split; [discriminate | intros [H|[H|H]]; contradiction].
    + split; [discriminate | intros [_ H]; discriminate H].
  - cbn [returns]. split.
    + split; [discriminate | intros [H|[H|H]]; contradiction].
    + split; [intros _; tauto | reflexivity].
Qed.

Lemma jiraRun_snoc (L : Lib) (m : Jira.Model) (msgs : list Msg) (msg : Msg) :
  Runs.jiraRun L m (msgs ++ [msg])%list =
  fst (Jira.Update L (Runs.jiraRun L m msgs) msg).
Proof. unfold Runs.jiraRun. now rewrite fold_left_app. Qed.

Lemma jira_err_items (L : Lib) (m : Jira.Model) (e : string) :
  listItems (Jira.list (fst (Jira.Update L m (ErrMsg e)))) =
    [ {| title := "Error"; desc := e |} ] /\
  Jira.err (fst (Jira.Update L m (ErrMsg e))) = Some e /\
  Jira.loading (fst (Jira.Update L m (ErrMsg e))) = false.
Proof.
  unfold Jira.Update.
  match goal with
  | |- context [listUpdate L ?l ?msg] =>
      pose proof (listUpdate_items L l msg) as H;
      destruct (listUpdate L l msg) as [l' c]
  end.
  cbn [fst Jira.list Jira.setList Jira.err Jira.loading] in *.
  rewrite H. repeat split.
Qed.

Lemma jira_fetch_err (L : Lib) (m : Jira.Model) (issues : list JiraIssue) :
  Jira.err (fst (Jira.Update L m (JiraIssuesFetched issues))) = Jira.err m /\
  Jira.loading (fst (Jira.Update L m (JiraIssuesFetched issues))) = false.
Proof.
  unfold Jira.Update.
  match goal with
  | |- context [listUpdate L ?l ?msg] => destruct (listUpdate L l msg) as [l' c]
  end.
  destruct (0 <? Z.of_nat (List.length (map Jira.issueItem issues)));
    split; reflexivity.
Qed.

(** X13.  In the Jira pane the last reply wins.  A failed fetch replaces
    the whole list by the single entry [Error] carrying the failure; when
    a fetch with issues arrives afterwards the list is those issues, one
    entry each in their order, and nothing of the error is listed any
    more, although the pane's error field still holds it. *)
Theorem jira_last_reply_wins (L : Lib) (m : Jira.Model) (e : string)
        (issues : list JiraIssue) :
  issues <> [] ->
  listItems (Jira.list (Runs.jiraRun L m [ErrMsg e])) =
    [ {| title := "Error"; desc := e |} ] /\
  listItems
    (Jira.list (Runs.jiraRun L m [ErrMsg e; JiraIssuesFetched issues])) =
    map (fun i => {| title := Key_ i ++ " " ++ Summary i;
                     desc := "Status: " ++ StatusName i |}) issues /\
  Jira.err (Runs.jiraRun L m [ErrMsg e; JiraIssuesFetched issues]) = Some e.
Proof.
  intros Hne.
  change [ErrMsg e; JiraIssuesFetched issues]
    with ([ErrMsg e] ++ [JiraIssuesFetched issues])%list.
  rewrite jiraRun_snoc.
  change (Runs.jiraRun L m [ErrMsg e])
    with (fst (Jira.Update L m (ErrMsg e))).
  destruct (jira_err_items L m e) as (Hi & He & _).
  split; [exact Hi|]. split.
  - rewrite jira_fetch_items. destruct issues; [now elim Hne | reflexivity].
  - rewrite (proj1 (jira_fetch_err L _ issues)). exact He.
Qed.

(** X13 on the sample library, from the fresh pane. *)
Lemma jira_last_reply_wins_witness :
  [ {| Key_ := "BR-7"; Summary := "Fix tabs"; StatusName := "Open" |} ] <> [] /\
  listItems
    (Jira.list (Runs.jiraRun Sample.lib Jira.New [ErrMsg "timeout"])) =
    [ {| title := "Error"; desc := "timeout" |} ] /\
  listItems
    (Jira.list
       (Runs.jiraRun Sample.lib Jira.New
          [ErrMsg "timeout";
           JiraIssuesFetched
             [ {| Key_ := "BR-7"; Summary := "Fix tabs";
                  StatusName := "Open" |} ]])) =
    [ {| title := "BR-7 Fix tabs"; desc := "Status: Open" |} ] /\
  Jira.err
    (Runs.jiraRun Sample.lib Jira.New
       [ErrMsg "timeout";
        JiraIssuesFetched
          [ {| Key_ := "BR-7"; Summary := "Fix tabs";
               StatusName := "Open" |} ]]) = Some "timeout".
Proof.
  split; [discriminate|].
  apply (jira_last_reply_wins Sample.lib Jira.New "timeout"
           [ {| Key_ := "BR-7"; Summary := "Fix tabs"; StatusName := "Open" |} ]).
  discriminate.
Defined.

Lemma githubRun_snoc (L : Lib) (m : GitHub.Model) (msgs : list Msg)
      (msg : Msg) :
  Runs.githubRun L m (msgs ++ [msg])%list =
  fst (GitHub.Update L (Runs.githubRun L m msgs) msg).
Proof. unfold Runs.githubRun. now rewrite fold_left_app. Qed.

(** The error field of the GitHub pane after one message. *)
Lemma github_err_step (L : Lib) (m : GitHub.Model) (msg : Msg) :
  GitHub.err (fst (GitHub.Update L m msg)) =
  match msg with
  | ErrMsg e => Some e
  | _ => GitHub.err m
  end.
Proof.
  unfold GitHub.Update.
  match goal with
  | |- context [listUpdate L ?l ?msg] => destruct (listUpdate L l msg) as [l' c]
  end.
  destruct msg; reflexivity.
Qed.

(** X14.  An error sticks to the GitHub pane.  Once its error field is
    set, no run of messages clears it: the view is the text [Error: ]
    with an error, never the list, even after a fetch that succeeds; the
    error shown is the first one unless a later message is an error, of
    whatever command. *)
Theorem github_error_sticks (L : Lib) (S : Render.Surface) (m : GitHub.Model)
        (e : string) (msgs : list Msg) :
  GitHub.err m = Some e ->
  exists e',
    GitHub.err (Runs.githubRun L m msgs) = Some e' /\
    Render.GitHubView S (Runs.githubRun L m msgs) = "Error: " ++ e' /\
    ((forall x, ~ In (ErrMsg x) msgs) -> e' = e).
Proof.
  intros He.
  assert (H : exists e',
             GitHub.err (Runs.githubRun L m msgs) = Some e' /\
             ((forall x, ~ In (ErrMsg x) msgs) -> e' = e)).
  { induction msgs as [|msg msgs IH] using rev_ind.
    - exists e. split; [exact He | reflexivity].
    - destruct IH as (e1 & H1 & H2).
      rewrite githubRun_snoc, github_err_step.
      destruct msg as [| | | | |x|];
        try (exists e1; split; [exact H1|];
             intros Hn; apply H2; intros y Hy; apply (Hn y);
             apply in_or_app; now left).
      exists x. split; [reflexivity|].
      intros Hn. exfalso. apply (Hn x). apply in_or_app. right. now left. }
  destruct H as (e' & H1 & H2). exists e'.
  split; [exact H1|]. split; [|exact H2].
  unfold Render.GitHubView. now rewrite H1.
Qed.

(** X14 on the sample library: a failed fetch, then a successful one. *)
Lemma github_error_sticks_witness :
  GitHub.err (fst (GitHub.Update Sample.lib GitHub.New (ErrMsg "timeout")))
  = Some "timeout" /\
  exists e',
    GitHub.err
      (Runs.githubRun Sample.lib
         (fst (GitHub.Update Sample.lib GitHub.New (ErrMsg "timeout")))
         [GitHubIssuesFetched
            [ {| Number := 12; Title := "Crash"; State := "open";
                 Login := "ann" |} ]]) = Some e' /\
    Render.GitHubView Lab.surface
      (Runs.githubRun Sample.lib
         (fst (GitHub.Update Sample.lib GitHub.New (ErrMsg "timeout")))
         [GitHubIssuesFetched
            [ {| Number := 12; Title := "Crash"; State := "open";
                 Login := "ann" |} ]]) = "Error: " ++ e' /\
    ((forall x,
         ~ In (ErrMsg x)
           [GitHubIssuesFetched
              [ {| Number := 12; Title := "Crash"; State := "open";
                   Login := "ann" |} ]]) -> e' = "timeout").
Proof.
  split; [reflexivity|].
  apply (github_error_sticks Sample.lib Lab.surface
           (fst (GitHub.Update Sample.lib GitHub.New (ErrMsg "timeout")))
           "timeout").
  reflexivity.
Defined.

(** X15.  A tracker pane takes nothing from the issues fetched for the
    other tracker, from a response of the model or from a key: it keeps
    its entries, its error and its loading flag on every message that is
    neither its own list of issues nor an error.  An error it takes for
    its own, whichever command produced it: the Jira pane then lists the
    one entry [Error] and both panes store the error and stop loading. *)
Theorem tracker_ignores_foreign_messages (L : Lib) (msg : Msg) :
  ((forall issues, msg <> JiraIssuesFetched issues) ->
   (forall e, msg <> ErrMsg e) ->
   forall m : Jira.Model,
     listItems (Jira.list (fst (Jira.Update L m msg))) =
       listItems (Jira.list m) /\
     Jira.err (fst (Jira.Update L m msg)) = Jira.err m /\
     Jira.loading (fst (Jira.Update L m msg)) = Jira.loading m) /\
  ((forall issues, msg <> GitHubIssuesFetched issues) ->
   (forall e, msg <> ErrMsg e) ->
   forall m : GitHub.Model,
     listItems (GitHub.list (fst (GitHub.Update L m msg))) =
       listItems (GitHub.list m) /\
     GitHub.err (fst (GitHub.Update L m msg)) = GitHub.err m /\
     GitHub.loading (fst (GitHub.Update L m msg)) = GitHub.loading m) /\
  (forall e, msg = ErrMsg e ->
   (forall m : Jira.Model,
      listItems (Jira.list (fst (Jira.Update L m msg))) =
        [ {| title := "Error"; desc := e |} ] /\
      Jira.err (fst (Jira.Update L m msg)) = Some e /\
      Jira.loading (fst (Jira.Update L m msg)) = false) /\
   (forall m : GitHub.Model,
      listItems (GitHub.list (fst (GitHub.Update L m msg))) =
        listItems (GitHub.list m) /\
      GitHub.err (fst (GitHub.Update L m msg)) = Some e /\
      GitHub.loading (fst (GitHub.Update L m msg)) = false)).
Proof.
  split; [|split].
  - intros Hi He m. unfold Jira.Update.
    match goal with
    | |- context [listUpdate L ?l ?msg] =>
        pose proof (listUpdate_items L l msg) as H;
        destruct (listUpdate L l msg) as [l' c]
    end.
    cbn [fst Jira.list Jira.setList Jira.err Jira.loading] in *.
    rewrite H.
    destruct msg as [k|w h|issues|issues|r|e|n]; try (repeat split; fail).
    + now elim (Hi issues).
    + now elim (He e).
  - intros Hi He m. unfold GitHub.Update.
    match goal with
    | |- context [listUpdate L ?l ?msg] =>
        pose proof (listUpdate_items L l msg) as H;
        destruct (listUpdate L l msg) as [l' c]
    end.
    cbn [fst GitHub.list GitHub.setList GitHub.err GitHub.loading] in *.
    rewrite H.
    destruct msg as [k|w h|issues|issues|r|e|n]; try (repeat split; fail).
    + now elim (Hi issues).
    + now elim (He e).
  - intros e ->. split; intros m.
    + apply jira_err_items.
    + unfold GitHub.Update.
      match goal with
      | |- context [listUpdate L ?l ?msg] =>
          pose proof (listUpdate_items L l msg) as H;
          destruct (listUpdate L l msg) as [l' c]
      end.
      cbn [fst GitHub.list GitHub.setList GitHub.err GitHub.loading] in *.
      rewrite H. repeat split.
Qed.

(** X15 on the sample library: GitHub's issues handed to the Jira pane, a
    response of the model handed to the GitHub pane, and the error of a
    Jira fetch that timed out handed to both. *)
Lemma tracker_ignores_foreign_messages_witness :
  listItems
    (Jira.list
       (fst (Jira.Update Sample.lib Jira.New
               (GitHubIssuesFetched
                  [ {| Number := 12; Title := "Crash"; State := "open";
                       Login := "ann" |} ])))) =
    listItems (Jira.list Jira.New) /\
  GitHub.err (fst (GitHub.Update Sample.lib GitHub.New (ChatResponse "Hello!")))
  = GitHub.err GitHub.New /\
  Jira.err (fst (Jira.Update Sample.lib Jira.New (ErrMsg "timeout")))
  = Some "timeout" /\
  GitHub.err (fst (GitHub.Update Sample.lib GitHub.New (ErrMsg "timeout")))
  = Some "timeout".
Proof.
  split; [|split; [|split]].
  - apply (proj1 (tracker_ignores_foreign_messages Sample.lib
                    (GitHubIssuesFetched
                       [ {| Number := 12; Title := "Crash"; State := "open";
                            Login := "ann" |} ]))).
    + intros issues. discriminate.
    + intros e. discriminate.
  - apply (proj1 (proj2 (tracker_ignores_foreign_messages Sample.lib
                           (ChatResponse "Hello!")))).
    + intros issues. discriminate.
    + intros e. discriminate.
  - apply (proj2 (proj2 (tracker_ignores_foreign_messages Sample.lib
                           (ErrMsg "timeout"))) "timeout" eq_refl).
  - apply (proj2 (proj2 (tracker_ignores_foreign_messages Sample.lib
                           (ErrMsg "timeout"))) "timeout" eq_refl).
Defined.

(** X16.  The GitHub pane always fetches the issues of
    charmbracelet/bubbletea, ten at most: its fetch sends one request, to
    that repository, with the user agent TermiFlow and, when GITHUB_TOKEN
    is set, that token as bearer.  So two machines that agree on the token
    and on the answer to this one request yield the same message,
    whatever GITHUB_REPO is on either and however they answer other
    requests.  The fetch is never silent. *)
Theorem github_fetch_ignores_repo (L : Lib) (env1 env2 : Env)
        (token : string) :
  Getenv env1 "GITHUB_TOKEN" = token ->
  Getenv env2 "GITHUB_TOKEN" = token ->
  Do env1
    {| URL := "https://api.github.com/repos/charmbracelet/bubbletea/issues?state=open&per_page=10";
       Header :=
         ("User-Agent", "TermiFlow") ::
         (if String.eqb token "" then []
          else [("Authorization", "Bearer " ++ token)]) |} =
  Do env2
    {| URL := "https://api.github.com/repos/charmbracelet/bubbletea/issues?state=open&per_page=10";
       Header :=
         ("User-Agent", "TermiFlow") ::
         (if String.eqb token "" then []
          else [("Authorization", "Bearer " ++ token)]) |} ->
  GitHub.fetchIssues env1 L = GitHub.fetchIssues env2 L /\
  GitHub.fetchIssues env1 L <> Ok None.
Proof.
  intros H1 H2 Hd. unfold GitHub.fetchIssues. rewrite H1, H2.
  destruct (negb (urlParses L _)); [split; [reflexivity | discriminate]|].
  assert (Hh : (if negb (String.eqb token "")
                then [("Authorization", "Bearer " ++ token)] else []) =
               (if String.eqb token "" then []
                else [("Authorization", "Bearer " ++ token)])).
  { destruct (String.eqb token ""); reflexivity. }
  rewrite Hh, Hd.
  destruct (Do env2 _) as [e|resp]; [split; [reflexivity | discriminate]|].
  destruct (negb (StatusCode resp =? 200));
    [split; [reflexivity | discriminate]|].
  destruct (decodeGitHubIssues L (Body resp));
    split; try reflexivity; discriminate.
Qed.

(** X16 on the sample machine and the machine whose GITHUB_REPO names
    another repository, which answers differently. *)
Lemma github_fetch_ignores_repo_witness :
  Getenv Sample.env "GITHUB_REPO" <> Getenv Lab.fork "GITHUB_REPO" /\
  Do Sample.env
    {| URL := "https://api.github.com/repos/acme/widgets/issues?state=open&per_page=10";
       Header := [("User-Agent", "TermiFlow")] |} <>
  Do Lab.fork
    {| URL := "https://api.github.com/repos/acme/widgets/issues?state=open&per_page=10";
       Header := [("User-Agent", "TermiFlow")] |} /\
  GitHub.fetchIssues Sample.env Sample.lib
  = GitHub.fetchIssues Lab.fork Sample.lib /\
  GitHub.fetchIssues Sample.env Sample.lib <> Ok None.
Proof.
  split; [discriminate|]. split; [discriminate|].
  apply (github_fetch_ignores_repo Sample.lib Sample.env Lab.fork "");
    reflexivity.
Defined.

(** ** The Chat pane *)

(** X17.  The tools advertised to the model are exactly the tools the
    catalog can run: a name has a function in [toolFunctions] if and only
    if it is the name of a declaration in [tools]. *)
Theorem tools_match_catalog (env : Env) (L : Lib) (name : string) :
  (exists fn, Chat.toolFunctions env L name = Some fn) <->
  In name (map Genai.Name Chat.tools).
Proof.
  unfold Chat.toolFunctions. cbn [map Chat.tools Genai.Name In].
  destruct (String.eqb name "get_github_issues") eqn:E1.
  { apply String.eqb_eq in E1. split; [intros _; now left | eauto]. }
  destruct (String.eqb name "get_jira_issues") eqn:E2.
  { apply String.eqb_eq in E2. split; [intros _; right; now left | eauto]. }
  apply String.eqb_neq in E1, E2.
  split; [intros [fn H]; discriminate H|].
  intros [H|[H|[]]]; symmetry in H; contradiction.
Qed.

(** The turns one message adds to the conversation. *)
Lemma Chat_Update_messages (env : Env) (L : Lib) (m : Chat.Model) (msg : Msg) :
  exists l,
    Chat.messages (fst (Chat.Update env L m msg)) = (Chat.messages m ++ l)%list /\
    (List.length l <= 1)%nat /\
    Forall (fun t => Chat.Role t = "user" \/ Chat.Role t = "model" \/
                     Chat.Role t = "system") l.
Proof.
  assert (Hnil : forall m0 : Chat.Model,
             Chat.messages m0 = Chat.messages m ->
             exists l,
               Chat.messages m0 = (Chat.messages m ++ l)%list /\
               (List.length l <= 1)%nat /\
               Forall (fun t => Chat.Role t = "user" \/ Chat.Role t = "model" \/
                                Chat.Role t = "system") l).
  { intros m0 H. exists []. rewrite app_nil_r.
    split; [exact H|]. split; [cbn; lia | constructor]. }
  assert (Hone : forall (m0 : Chat.Model) role content,
             Chat.messages m0 =
               (Chat.messages m ++
                [ {| Chat.Role := role; Chat.Content := content |} ])%list ->
             role = "user" \/ role = "model" \/ role = "system" ->
             exists l,
               Chat.messages m0 = (Chat.messages m ++ l)%list /\
               (List.length l <= 1)%nat /\
               Forall (fun t => Chat.Role t = "user" \/ Chat.Role t = "model" \/
                                Chat.Role t = "system") l).
  { intros m0 role content H Hr. eexists. split; [exact H|].
    split; [cbn; lia|]. constructor; [exact Hr | constructor]. }
  unfold Chat.Update.
  destruct (textareaUpdate L (Chat.textarea m) msg) as [ta tiCmd].
  destruct (viewportUpdate L (Chat.viewport m) msg) as [vp vpCmd].
  destruct msg as [k| | | |s|e|]; cbn [fst];
    try (apply Hnil; reflexivity).
  - destruct k; cbn [fst]; try (apply Hnil; reflexivity).
    destruct (String.eqb _ ""); cbn [fst]; [apply Hnil; reflexivity|].
    unfold Chat.ensureClient.
    cbn [Chat.client Chat.setViewport Chat.setTextarea].
    destruct (Chat.client m); cbn [fst].
    { eapply Hone; [|left; reflexivity].
      cbn [Chat.messages Chat.setTextarea].
      rewrite updateViewport_messages. reflexivity. }
    destruct (String.eqb (Getenv env "GEMINI_API_KEY") ""); cbn [fst].
    { eapply Hone; [|right; right; reflexivity].
      cbn [Chat.messages Chat.setTextarea].
      rewrite updateViewport_messages. reflexivity. }
    destruct (NewClient env _); cbn [fst].
    + eapply Hone; [|right; right; reflexivity].
      cbn [Chat.messages Chat.setTextarea].
      rewrite updateViewport_messages. reflexivity.
    + eapply Hone; [|left; reflexivity].
      cbn [Chat.messages Chat.setTextarea].
      rewrite updateViewport_messages. reflexivity.
  - eapply Hone; [|right; left; reflexivity].
    rewrite updateViewport_messages. reflexivity.
  - eapply Hone; [|right; right; reflexivity].
    rewrite updateViewport_messages. reflexivity.
Qed.

Lemma chatRun_snoc (env : Env) (L : Lib) (m : Chat.Model) (msgs : list Msg)
      (msg : Msg) :
  Runs.chatRun env L m (msgs ++ [msg])%list =
  fst (Chat.Update env L (Runs.chatRun env L m msgs) msg).
Proof. unfold Runs.chatRun. now rewrite fold_left_app. Qed.

(** X18.  The conversation only grows.  Over any run of the Chat pane the
    turns it had stay in place, at most one turn is added per message
    handled, and every turn added has the role [user], [model] or
    [system]: no turn is ever rewritten or removed, and no turn of another
    role, such as a tool turn, is ever added. *)
Theorem conversation_only_grows (env : Env) (L : Lib) (m : Chat.Model)
        (msgs : list Msg) :
  exists l,
    Chat.messages (Runs.chatRun env L m msgs) = (Chat.messages m ++ l)%list /\
    (List.length l <= List.length msgs)%nat /\
    Forall (fun t => Chat.Role t = "user" \/ Chat.Role t = "model" \/
                     Chat.Role t = "system") l.
Proof.
  induction msgs as [|msg msgs IH] using rev_ind.
  - exists []. rewrite app_nil_r. split; [reflexivity|].
    split; [cbn; lia | constructor].
  - destruct IH as (l & Hl & Hn & Hr).
    destruct (Chat_Update_messages env L (Runs.chatRun env L m msgs) msg)
      as (l1 & Hl1 & Hn1 & Hr1).
    exists (l ++ l1)%list. rewrite chatRun_snoc, Hl1, Hl, <- app_assoc.
    split; [reflexivity|]. split.
    + rewrite !length_app. cbn [List.length]. lia.
    + apply Forall_app. now split.
Qed.

(** The failure of [ensureClient] leaves the model as it is. *)
Lemma ensureClient_failure (env : Env) (m : Chat.Model) (e : string) :
  snd (Chat.ensureClient env m) = Some e ->
  fst (Chat.ensureClient env m) = m.
Proof.
  unfold Chat.ensureClient.
  destruct (Chat.client m); [discriminate|].
  destruct (String.eqb (Getenv env "GEMINI_API_KEY") ""); [reflexivity|].
  destruct (NewClient env _); [reflexivity | discriminate].
Qed.

(** X19.  A text submitted when no client can be had (the credential
    GEMINI_API_KEY is not set, or opening the client fails) is not sent:
    the pane issues no command at all, appends one [system] turn with the
    text [Error: ] and the reason, and clears the input, so the text typed
    is gone; the pane remains without a client. *)
Theorem submit_without_client (env : Env) (L : Lib) (m : Chat.Model)
        (e : string) :
  taValue (fst (textareaUpdate L (Chat.textarea m) (KeyMsg KeyEnter))) <> "" ->
  snd (Chat.ensureClient env m) = Some e ->
  snd (Chat.Update env L m (KeyMsg KeyEnter)) = CmdNil /\
  Chat.messages (fst (Chat.Update env L m (KeyMsg KeyEnter))) =
    (Chat.messages m ++
     [ {| Chat.Role := "system"; Chat.Content := "Error: " ++ e |} ])%list /\
  taValue (Chat.textarea (fst (Chat.Update env L m (KeyMsg KeyEnter)))) = "" /\
  Chat.client (fst (Chat.Update env L m (KeyMsg KeyEnter))) = None /\
  (Getenv env "GEMINI_API_KEY" = "" ->
   e = "GEMINI_API_KEY environment variable not set").
Proof.
  intros Hv He.
  assert (Hkey : Getenv env "GEMINI_API_KEY" = "" ->
                 e = "GEMINI_API_KEY environment variable not set").
  { intros Hk. revert He. unfold Chat.ensureClient.
    destruct (Chat.client m); [discriminate|].
    rewrite Hk. cbn. intros H. now injection H as <-. }
  assert (Hc : Chat.client m = None).
  { revert He. unfold Chat.ensureClient.
    destruct (Chat.client m); [discriminate | reflexivity]. }
  unfold Chat.Update.
  destruct (textareaUpdate L (Chat.textarea m) (KeyMsg KeyEnter))
    as [ta tiCmd].
  destruct (viewportUpdate L (Chat.viewport m) (KeyMsg KeyEnter))
    as [vp vpCmd].
  cbn [fst] in Hv. apply String.eqb_neq in Hv.
  cbn [Chat.textarea Chat.setViewport Chat.setTextarea]. rewrite Hv.
  pose proof (ensureClient_error env
                (Chat.setViewport (Chat.setTextarea m ta) vp) m eq_refl) as HE.
  rewrite He in HE.
  pose proof (ensureClient_failure env _ e HE) as HF.
  destruct (Chat.ensureClient env
              (Chat.setViewport (Chat.setTextarea m ta) vp)) as [m1 o].
  cbn [fst snd] in HE, HF. subst o m1.
  cbn [fst snd Chat.textarea Chat.setTextarea].
  split; [reflexivity|]. split.
  { cbn [Chat.messages Chat.setTextarea].
    rewrite updateViewport_messages. reflexivity. }
  split; [reflexivity|]. split; [|exact Hkey].
  cbn [Chat.client Chat.setTextarea]. unfold Chat.updateViewport.
  destruct (0 <? _); exact Hc.
Qed.

(** X19 on the machine without variables. *)
Lemma submit_without_client_witness :
  taValue
    (fst (textareaUpdate Sample.lib (Chat.textarea (Sample.chatTyped "hello"))
            (KeyMsg KeyEnter))) <> "" /\
  snd (Chat.ensureClient Lab.unset (Sample.chatTyped "hello")) =
    Some "GEMINI_API_KEY environment variable not set" /\
  snd (Chat.Update Lab.unset Sample.lib (Sample.chatTyped "hello")
         (KeyMsg KeyEnter)) = CmdNil /\
  Chat.messages
    (fst (Chat.Update Lab.unset Sample.lib (Sample.chatTyped "hello")
            (KeyMsg KeyEnter))) =
    (Chat.messages (Sample.chatTyped "hello") ++
     [ {| Chat.Role := "system";
          Chat.Content :=
            "Error: " ++ "GEMINI_API_KEY environment variable not set" |} ])%list
  /\
  taValue
    (Chat.textarea
       (fst (Chat.Update Lab.unset Sample.lib (Sample.chatTyped "hello")
               (KeyMsg KeyEnter)))) = "" /\
  Chat.client
    (fst (Chat.Update Lab.unset Sample.lib (Sample.chatTyped "hello")
            (KeyMsg KeyEnter))) = None /\
  (Getenv Lab.unset "GEMINI_API_KEY" = "" ->
   "GEMINI_API_KEY environment variable not set" =
   "GEMINI_API_KEY environment variable not set").
Proof.
  split; [discriminate|]. split; [reflexivity|].
  apply (submit_without_client Lab.unset Sample.lib (Sample.chatTyped "hello")
           "GEMINI_API_KEY environment variable not set");
    [discriminate | reflexivity].
Defined.

(** With a client at hand [ensureClient] does nothing. *)
Lemma ensureClient_idle (env : Env) (m : Chat.Model) (c : Genai.Client) :
  Chat.client m = Some c -> Chat.ensureClient env m = (m, None).
Proof. intros H. unfold Chat.ensureClient. now rewrite H. Qed.

Lemma updateViewport_session (L : Lib) (m : Chat.Model) :
  Chat.client (Chat.updateViewport L m) = Chat.client m /\
  Chat.model (Chat.updateViewport L m) = Chat.model m /\
  Chat.chatSession (Chat.updateViewport L m) = Chat.chatSession m.
Proof.
  unfold Chat.updateViewport. destruct (0 <? _); repeat split.
Qed.

(** One message leaves an opened client and its session in place, and a
    send it issues carries that session. *)
Lemma Chat_Update_session (env : Env) (L : Lib) (m : Chat.Model)
      (c : Genai.Client) (msg : Msg) :
  Chat.client m = Some c ->
  (Chat.client (fst (Chat.Update env L m msg)) = Some c /\
   Chat.model (fst (Chat.Update env L m msg)) = Chat.model m /\
   Chat.chatSession (fst (Chat.Update env L m msg)) = Chat.chatSession m) /\
  (forall a, In a (atoms (snd (Chat.Update env L m msg))) -> isSend a = true ->
             exists text, a = ChatSendMessage (Chat.chatSession m) text).
Proof.
  intros Hc. unfold Chat.Update.
  destruct (textareaUpdate L (Chat.textarea m) msg) as [ta tiCmd].
  destruct (viewportUpdate L (Chat.viewport m) msg) as [vp vpCmd].
  assert (Hlib : forall a, In a (atoms (Batch [ofLib tiCmd; ofLib vpCmd])) ->
                           isSend a = true ->
                           exists text,
                             a = ChatSendMessage (Chat.chatSession m) text).
  { intros a Ha Hs. apply atoms_ofLib2 in Ha as [->|[n ->]]; discriminate Hs. }
  destruct msg as [k| | | |s|e|]; cbn [fst snd];
    try (split; [repeat split; exact Hc | exact Hlib]).
  - destruct k; cbn [fst snd];
      try (split; [repeat split; exact Hc | exact Hlib]).
    destruct (String.eqb _ ""); cbn [fst snd];
      [split; [repeat split; exact Hc | exact Hlib]|].
    rewrite (ensureClient_idle env _ c) by exact Hc.
    cbn [fst snd]. split.
    + cbn [Chat.client Chat.model Chat.chatSession Chat.setTextarea].
      destruct (updateViewport_session L
                  (Chat.append (Chat.setViewport (Chat.setTextarea m ta) vp)
                     "user" (taValue ta))) as (H1 & H2 & H3).
      cbn [Chat.textarea Chat.setViewport Chat.setTextarea] in *.
      rewrite H1, H2, H3. repeat split. exact Hc.
    + intros a Ha Hs. cbn [atoms flat_map] in Ha. rewrite app_nil_r in Ha.
      apply in_app_or in Ha as [Ha|Ha];
        [apply atoms_ofLib in Ha as [->|[n ->]]; discriminate Hs|].
      apply in_app_or in Ha as [Ha|Ha];
        [apply atoms_ofLib in Ha as [->|[n ->]]; discriminate Hs|].
      destruct Ha as [<-|[]]. unfold Chat.sendMessage.
      cbn [Chat.chatSession Chat.setTextarea].
      destruct (updateViewport_session L
                  (Chat.append (Chat.setViewport (Chat.setTextarea m ta) vp)
                     "user" (taValue ta))) as (_ & _ & H3).
      cbn [Chat.textarea Chat.setViewport Chat.setTextarea] in *.
      rewrite H3. eexists. reflexivity.
  - destruct (updateViewport_session L
                (Chat.append (Chat.setViewport (Chat.setTextarea m ta) vp)
                   "model" s)) as (H1 & H2 & H3).
    rewrite H1, H2, H3. split; [repeat split; exact Hc | exact Hlib].
  - destruct (updateViewport_session L
                (Chat.append (Chat.setViewport (Chat.setTextarea m ta) vp)
                   "system" ("Error: " ++ e))) as (H1 & H2 & H3).
    rewrite H1, H2, H3. split; [repeat split; exact Hc | exact Hlib].
Qed.

(** X20.  The Chat pane opens its session once.  When it has a client, no
    run of messages replaces the client, the model or the chat session,
    whatever the environment has become, and every model-send command it
    then issues carries that same session: all texts of a conversation go
    to one session of the model service. *)
Theorem session_is_kept (env : Env) (L : Lib) (m : Chat.Model)
        (c : Genai.Client) (msgs : list Msg) :
  Chat.client m = Some c ->
  Chat.client (Runs.chatRun env L m msgs) = Some c /\
  Chat.model (Runs.chatRun env L m msgs) = Chat.model m /\
  Chat.chatSession (Runs.chatRun env L m msgs) = Chat.chatSession m /\
  forall msg a,
    In a (atoms (snd (Chat.Update env L (Runs.chatRun env L m msgs) msg))) ->
    isSend a = true ->
    exists text, a = ChatSendMessage (Chat.chatSession m) text.
Proof.
  intros Hc.
  assert (H : Chat.client (Runs.chatRun env L m msgs) = Some c /\
              Chat.model (Runs.chatRun env L m msgs) = Chat.model m /\
              Chat.chatSession (Runs.chatRun env L m msgs) =
                Chat.chatSession m).
  { induction msgs as [|msg msgs IH] using rev_ind; [repeat split; exact Hc|].
    destruct IH as (H1 & H2 & H3). rewrite chatRun_snoc.
    destruct (Chat_Update_session env L _ c msg H1) as ((G1 & G2 & G3) & _).
    rewrite G1, G2, G3. repeat split; assumption. }
  destruct H as (H1 & H2 & H3).
  split; [exact H1|]. split; [exact H2|]. split; [exact H3|].
  intros msg a Ha Hs.
  destruct (Chat_Update_session env L _ c msg H1) as (_ & G).
  rewrite <- H3. exact (G a Ha Hs).
Qed.

(** X20 on the sample machine: the pane after a first submission, then a
    reply and a second submission. *)
Lemma session_is_kept_witness :
  Chat.client
    (fst (Chat.Update Sample.env Sample.lib (Sample.chatTyped "a")
            Sample.enter)) = Some {| Genai.apiKey := "key" |} /\
  Chat.chatSession
    (Runs.chatRun Lab.unset Sample.lib
       (fst (Chat.Update Sample.env Sample.lib (Sample.chatTyped "a")
               Sample.enter))
       [ChatResponse "Hello!"; Sample.type "b"; Sample.enter]) =
    Some Sample.session.
Proof.
  split; [reflexivity|].
  apply (session_is_kept Lab.unset Sample.lib
           (fst (Chat.Update Sample.env Sample.lib (Sample.chatTyped "a")
                   Sample.enter))
           {| Genai.apiKey := "key" |}
           [ChatResponse "Hello!"; Sample.type "b"; Sample.enter]).
  reflexivity.
Defined.

Lemma updateViewport_content (L : Lib) (m : Chat.Model) :
  Chat.messages m <> [] ->
  vpContent (Chat.viewport (Chat.updateViewport L m)) =
  String.concat "" (map Chat.renderMessage (Chat.messages m)).
Proof.
  intros H. unfold Chat.updateViewport.
  destruct (Chat.messages m) as [|t l] eqn:E; [now elim H|].
  cbn [List.length]. rewrite Nat2Z.inj_succ.
  destruct (0 <? Z.succ (Z.of_nat (List.length l))) eqn:E0;
    [|apply Z.ltb_ge in E0; lia].
  cbn [Chat.viewport Chat.setViewport].
  rewrite GotoBottom_content, SetContent_content. reflexivity.
Qed.

(** X21.  Whenever a message adds a turn, the Chat pane's viewport is set
    to the whole conversation rendered anew: each [user] turn as a blank
    line and [You: ] with its text, each [model] turn as [Gemini: ] with
    its text, any other turn as its bare text, one after the other. *)
Theorem viewport_shows_conversation (env : Env) (L : Lib) (m : Chat.Model)
        (msg : Msg) :
  Chat.messages (fst (Chat.Update env L m msg)) <> Chat.messages m ->
  vpContent (Chat.viewport (fst (Chat.Update env L m msg))) =
  String.concat ""
    (map (fun t =>
            if String.eqb (Chat.Role t) "user"
            then nl ++ "You: " ++ Chat.Content t ++ nl
            else if String.eqb (Chat.Role t) "model"
                 then "Gemini: " ++ Chat.Content t ++ nl
                 else Chat.Content t ++ nl)
         (Chat.messages (fst (Chat.Update env L m msg)))).
Proof.
  unfold Chat.Update.
  destruct (textareaUpdate L (Chat.textarea m) msg) as [ta tiCmd].
  destruct (viewportUpdate L (Chat.viewport m) msg) as [vp vpCmd].
  assert (Happ : forall (m0 : Chat.Model) role content,
             vpContent
               (Chat.viewport
                  (Chat.updateViewport L (Chat.append m0 role content))) =
             String.concat ""
               (map Chat.renderMessage
                  (Chat.messages
                     (Chat.updateViewport L (Chat.append m0 role content))))).
  { intros m0 role content. rewrite updateViewport_messages.
    apply updateViewport_content. cbn [Chat.messages Chat.append Chat.setMessages].
    destruct (Chat.messages m0); discriminate. }
  destruct msg as [k| | | |s|e|]; cbn [fst];
    try (intros H; now elim H).
  - destruct k; cbn [fst]; try (intros H; now elim H).
    destruct (String.eqb _ ""); cbn [fst]; [intros H; now elim H|].
    destruct (Chat.ensureClient env _) as [m1 [e|]]; cbn [fst];
      intros _; cbn [Chat.viewport Chat.messages Chat.setTextarea];
      apply Happ.
  - intros _. apply Happ.
  - intros _. apply Happ.
Qed.

(** X21 on the sample machine: a reply arriving after a question. *)
Lemma viewport_shows_conversation_witness :
  vpContent
    (Chat.viewport
       (Runs.chatRun Sample.env Sample.lib (Sample.chatTyped "hi")
          [Sample.enter; ChatResponse "Hello!"])) =
  nl ++ "You: hi" ++ nl ++ "Gemini: Hello!" ++ nl.
Proof.
  change (Runs.chatRun Sample.env Sample.lib (Sample.chatTyped "hi")
            [Sample.enter; ChatResponse "Hello!"])
    with (fst (Chat.Update Sample.env Sample.lib
                 (fst (Chat.Update Sample.env Sample.lib
                         (Sample.chatTyped "hi") Sample.enter))
                 (ChatResponse "Hello!"))).
  rewrite (viewport_shows_conversation Sample.env Sample.lib
             (fst (Chat.Update Sample.env Sample.lib (Sample.chatTyped "hi")
                     Sample.enter))
             (ChatResponse "Hello!")).
  - reflexivity.
  - discriminate.
Defined.

(** ** The model-send command and the tools *)

(** A part is rendered unless it calls a tool that panics. *)
Lemma renderPart_returns (env : Env) (L : Lib) (p : Genai.Part) :
  (forall name r, Chat.toolFunctions env L name = Some r -> returns r = true) ->
  returns (Chat.renderPart env L p) = true.
Proof.
  intros Ht. destruct p as [t|name|]; cbn [Chat.renderPart]; try reflexivity.
  destruct (Chat.toolFunctions env L name) as [r|] eqn:E; [|reflexivity].
  pose proof (Ht name r E) as Hr.
  destruct r as [[e|res]|reason]; [reflexivity | reflexivity | discriminate Hr].
Qed.

Lemma forEach_returns {A B} (f : A -> result B) (l : list A) :
  (forall a, returns (f a) = true) -> returns (forEach f l) = true.
Proof.
  intros H. induction l as [|a l IH]; [reflexivity|].
  cbn [forEach]. pose proof (H a) as Ha.
  destruct (f a); [|discriminate Ha]. cbn [bind].
  destruct (forEach f l); [reflexivity | discriminate IH].
Qed.

(** X22.  A model-send command fails to return only through a panicking
    tool or a first candidate without content: when neither of the two
    catalogued tools panics on this machine and the first candidate of
    the reply, if there is one, has content, the command returns a
    message, a response or an error, whatever the session, the text and
    the reply are. *)
Theorem send_returns_unless_tool_panics (env : Env) (L : Lib)
        (session : option Genai.ChatSession) (text : string) :
  returns (Chat.getGitHubIssues env L) = true ->
  returns (Chat.getJiraIssues env L) = true ->
  (forall s c others,
      SendMessage env s text = inr (c :: others) -> Genai.Content c <> None) ->
  exists msg,
    UI.run env L (ChatSendMessage session text) = Ok (Some msg) /\
    ((exists reply, msg = ChatResponse reply) \/ (exists e, msg = ErrMsg e)).
Proof.
  intros Hg Hj Hc.
  assert (Ht : forall name r,
             Chat.toolFunctions env L name = Some r -> returns r = true).
  { intros name r. unfold Chat.toolFunctions.
    destruct (String.eqb name "get_github_issues");
      [intros H; now injection H as <-|].
    destruct (String.eqb name "get_jira_issues");
      [intros H; now injection H as <-|].
    discriminate. }
  cbn [UI.run]. unfold Chat.runSendMessage.
  destruct (String.eqb (Getenv env "GEMINI_API_KEY") "");
    [eexists; split; [reflexivity | right; eauto]|].
  destruct session as [s|]; [|eexists; split; [reflexivity | right; eauto]].
  destruct (SendMessage env s text) as [e|[|cand others]] eqn:ES;
    try (eexists; split; [reflexivity | right; eauto]).
  pose proof (Hc s cand others ES) as Hcand.
  destruct (Genai.Content cand) as [[|p parts]|];
    [eexists; split; [reflexivity | right; eauto] | | now elim Hcand].
  pose proof (forEach_returns (Chat.renderPart env L) (p :: parts)
                (fun q => renderPart_returns env L q Ht)) as Hr.
  destruct (forEach (Chat.renderPart env L) (p :: parts));
    [|discriminate Hr].
  cbn [bind]. eexists. split; [reflexivity | left; eauto].
Qed.

(** X22 on the machine whose Jira answers the tool with one issue, for
    the question that makes the model call the Jira tool. *)
Lemma send_returns_unless_tool_panics_witness :
  returns (Chat.getGitHubIssues Lab.tracker Lab.lib) = true /\
  returns (Chat.getJiraIssues Lab.tracker Lab.lib) = true /\
  exists msg,
    UI.run Lab.tracker Lab.lib (ChatSendMessage (Some Sample.session) "jira?")
    = Ok (Some msg) /\
    ((exists reply, msg = ChatResponse reply) \/ (exists e, msg = ErrMsg e)).
Proof.
  split; [reflexivity|]. split; [reflexivity|].
  apply (send_returns_unless_tool_panics Lab.tracker Lab.lib
           (Some Sample.session) "jira?"); [reflexivity | reflexivity |].
  intros s c others H. injection H as <- _. discriminate.
Defined.

(** X23.  A tool that reports an error, and a call of a name the catalog
    does not have, do not fail the command: for a reply that is one such
    call the command yields an ordinary response whose text is
    [[Error executing NAME: ERROR]], or [[Unknown tool: NAME]], on a line
    of its own, and the pane appends it as a [model] turn. *)
Theorem tool_failure_is_response_text (env : Env) (L : Lib)
        (s : Genai.ChatSession) (text name : string) (m : Chat.Model) :
  Getenv env "GEMINI_API_KEY" <> "" ->
  SendMessage env s text =
    inr [ {| Genai.Content := Some [Genai.FunctionCall name] |} ] ->
  (forall e,
      Chat.toolFunctions env L name = Some (Ok (inl e)) ->
      UI.run env L (ChatSendMessage (Some s) text) =
        Ok (Some (ChatResponse
                    (nl ++ "[Error executing " ++ name ++ ": " ++ e ++ "]"
                        ++ nl)))) /\
  (Chat.toolFunctions env L name = None ->
   UI.run env L (ChatSendMessage (Some s) text) =
     Ok (Some (ChatResponse (nl ++ "[Unknown tool: " ++ name ++ "]" ++ nl)))) /\
  (forall reply,
      UI.run env L (ChatSendMessage (Some s) text) =
        Ok (Some (ChatResponse reply)) ->
      map Chat.Role
        (Chat.messages (fst (Chat.Update env L m (ChatResponse reply)))) =
      (map Chat.Role (Chat.messages m) ++ ["model"])%list).
Proof.
  intros Hk Hs.
  assert (HR : Chat.runSendMessage env L (Some s) text =
               let? texts :=
                 forEach (Chat.renderPart env L) [Genai.FunctionCall name] in
               Ok (ChatResponse (String.concat "" texts))).
  { unfold Chat.runSendMessage.
    now rewrite (eqb_nonempty _ Hk), Hs. }
  cbn [UI.run]. rewrite HR. cbn [forEach Chat.renderPart].
  split; [|split].
  - intros e He. rewrite He. reflexivity.
  - intros Hn. rewrite Hn. reflexivity.
  - intros reply _.
    rewrite (proj1 (Chat_Update_response env L m reply)), map_app.
    reflexivity.
Qed.

(** X23 on the machine with the model credential only: the Jira tool
    reports its missing configuration. *)
Lemma tool_failure_is_response_text_witness :
  Getenv Lab.modelOnly "GEMINI_API_KEY" <> "" /\
  SendMessage Lab.modelOnly Sample.session "jira?" =
    inr [ {| Genai.Content := Some [Genai.FunctionCall "get_jira_issues"] |} ] /\
  Chat.toolFunctions Lab.modelOnly Sample.lib "get_jira_issues" =
    Some (Ok (inl "Jira credentials not set (JIRA_URL, JIRA_EMAIL, JIRA_TOKEN)"))
  /\
  UI.run Lab.modelOnly Sample.lib
    (ChatSendMessage (Some Sample.session) "jira?") =
    Ok (Some (ChatResponse
                (nl ++ "[Error executing " ++ "get_jira_issues" ++ ": " ++
                 "Jira credentials not set (JIRA_URL, JIRA_EMAIL, JIRA_TOKEN)"
                 ++ "]" ++ nl))).
Proof.
  split; [discriminate|]. split; [reflexivity|]. split; [reflexivity|].
  apply (proj1 (tool_failure_is_response_text Lab.modelOnly Sample.lib
                  Sample.session "jira?" "get_jira_issues"
                  (Chat.New Sample.lib)
                  ltac:(discriminate) eq_refl)).
  reflexivity.
Defined.

(** The Jira tool's loop over well-shaped issues. *)
Lemma forEach_jira_entries (issues : list any) :
  Forall (fun i => exists out, Runs.jiraEntry i out) issues ->
  exists simplified,
    forEach
      (fun i : any =>
         let? issue := assertMap i in
         let? fields := assertMap (lookup issue "fields") in
         let? status := assertMap (lookup fields "status") in
         Ok (AMap [("key", lookup issue "key");
                   ("summary", lookup fields "summary");
                   ("status", lookup status "name")]))
      issues = Ok simplified /\
    Forall2 Runs.jiraEntry issues simplified.
Proof.
  induction 1 as [|i issues Hi _ IH].
  - exists []. split; [reflexivity | constructor].
  - destruct IH as (simplified & HE & HF).
    destruct Hi as (out & issue & fields & status & -> & Hf & Hs & ->).
    eexists. cbn [forEach assertMap bind]. rewrite Hf. cbn [assertMap bind].
    rewrite Hs. cbn [assertMap bind]. rewrite HE. cbn [bind].
    split; [reflexivity|].
    constructor; [|exact HF].
    exists issue, fields, status. repeat split; assumption.
Qed.

(** X24.  On a reply of the expected shape the Jira tool returns one entry
    per issue, in the order of the reply, each with the issue's key, the
    summary of its fields and the name of its status, under the single key
    [issues]; for a reply without issues the value under that key is the
    nil slice, which is JSON null, not an empty array. *)
Theorem jira_tool_simplifies (env : Env) (L : Lib) (resp : Response)
        (result : gomap) (issues : list any) :
  String.eqb (Getenv env "JIRA_URL") ""
  || String.eqb (Getenv env "JIRA_EMAIL") ""
  || String.eqb (Getenv env "JIRA_TOKEN") "" = false ->
  urlParses L (URL (Chat.jiraToolRequest env L)) = true ->
  Do env (Chat.jiraToolRequest env L) = inr resp ->
  StatusCode resp = 200 ->
  decodeMap L (Body resp) = inr result ->
  lookup result "issues" = ASlice issues ->
  Forall (fun i => exists out, Runs.jiraEntry i out) issues ->
  exists simplified,
    Chat.getJiraIssues env L =
      Ok (inr (AMap [("issues", sliceValue simplified)])) /\
    Forall2 Runs.jiraEntry issues simplified /\
    (issues = [] -> sliceValue simplified = Nil).
Proof.
  intros Hc Hu Hd Hs Hb Hi Hshape.
  destruct (forEach_jira_entries issues Hshape) as (simplified & HE & HF).
  exists simplified. split; [|split; [exact HF|]].
  - unfold Chat.getJiraIssues. rewrite Hc. cbv zeta.
    rewrite Hu. cbn [negb]. rewrite Hd, Hs. cbn [Z.eqb Pos.eqb negb].
    rewrite Hb, Hi. cbn [assertSlice bind]. rewrite HE. reflexivity.
  - intros ->. inversion HF. reflexivity.
Qed.

(** X24 on the machine whose Jira answers the tool with one issue. *)
Lemma jira_tool_simplifies_witness :
  lookup Lab.jiraReply "issues" =
    ASlice
      [AMap [("key", AString "BR-7");
             ("fields",
              AMap [("summary", AString "Fix tabs");
                    ("status", AMap [("name", AString "Open")])])]] /\
  Chat.getJiraIssues Lab.tracker Lab.lib =
    Ok (inr (AMap [("issues",
                    ASlice [AMap [("key", AString "BR-7");
                                  ("summary", AString "Fix tabs");
                                  ("status", AString "Open")]])])) /\
  exists simplified,
    Chat.getJiraIssues Lab.tracker Lab.lib =
      Ok (inr (AMap [("issues", sliceValue simplified)])) /\
    Forall2 Runs.jiraEntry
      [AMap [("key", AString "BR-7");
             ("fields",
              AMap [("summary", AString "Fix tabs");
                    ("status", AMap [("name", AString "Open")])])]]
      simplified /\
    ([AMap [("key", AString "BR-7");
            ("fields",
             AMap [("summary", AString "Fix tabs");
                   ("status", AMap [("name", AString "Open")])])]] = [] ->
     sliceValue simplified = Nil).
Proof.
  split; [reflexivity|]. split; [reflexivity|].
  apply (jira_tool_simplifies Lab.tracker Lab.lib
           {| StatusCode := 200; Status := "200 OK"; Body := Sample.jiraBody |}
           Lab.jiraReply); try reflexivity.
  constructor; [|constructor].
  eexists. eexists. eexists. eexists.
  split; [reflexivity|]. split; [reflexivity|]. split; reflexivity.
Defined.

(** ** The frame *)

(** X25.  The frame shows the tabs and the active pane and nothing else:
    two models of the composer with the same tabs, the same active index
    and the same active pane render the same frame, however their other
    panes differ. *)
Theorem frame_shows_active_pane_only (L : Lib) (S : Render.Surface)
        (m1 m2 : UI.Model) :
  UI.state m1 = UI.state m2 ->
  UI.tabs m1 = UI.tabs m2 ->
  (forall p, UI.active m1 = Some p -> UI.untouched p m1 m2) ->
  Render.View L S m1 = Render.View L S m2.
Proof.
  intros Hs Ht Hp. unfold Render.View. rewrite <- Hs, <- Ht.
  unfold UI.active in Hp.
  destruct (UI.state m1 =? UI.viewShell).
  { now rewrite (Hp UI.PShell eq_refl). }
  destruct (UI.state m1 =? UI.viewJira).
  { now rewrite (Hp UI.PJira eq_refl). }
  destruct (UI.state m1 =? UI.viewGitHub).
  { now rewrite (Hp UI.PGitHub eq_refl). }
  destruct (UI.state m1 =? UI.viewChat).
  { now rewrite (Hp UI.PChat eq_refl). }
  reflexivity.
Qed.

(** X25 on the sample machine: at start-up, with the Shell tab active,
    the frame is the same whether or not the Jira pane has its issues. *)
Lemma frame_shows_active_pane_only_witness :
  Render.View Sample.lib Lab.surface (UI.New Sample.env Sample.lib) =
  Render.View Sample.lib Lab.surface
    (UI.setJira (UI.New Sample.env Sample.lib)
       (fst (Jira.Update Sample.lib Jira.New
               (JiraIssuesFetched
                  [ {| Key_ := "BR-7"; Summary := "Fix tabs";
                       StatusName := "Open" |} ])))).
Proof.
  apply (frame_shows_active_pane_only Sample.lib Lab.surface
           (UI.New Sample.env Sample.lib)
           (UI.setJira (UI.New Sample.env Sample.lib)
              (fst (Jira.Update Sample.lib Jira.New
                      (JiraIssuesFetched
                         [ {| Key_ := "BR-7"; Summary := "Fix tabs";
                              StatusName := "Open" |} ]))))).
  - reflexivity.
  - reflexivity.
  - intros p Hp. injection Hp as <-. reflexivity.
Defined.

(** The tab loop when the active index lies before its first tab or
    after its last: no tab is highlighted. *)
Lemma renderTabs_outside (S : Render.Surface) (state : Z) (tabs : list string) :
  forall i,
    state < i \/ i + Z.of_nat (List.length tabs) <= state ->
    Render.renderTabs S state i tabs = map (Render.inactiveTabStyle S) tabs.
Proof.
  induction tabs as [|t tabs IH]; intros i Hi; [reflexivity|].
  cbn [Render.renderTabs map]. cbn [List.length] in Hi.
  rewrite Nat2Z.inj_succ in Hi.
  destruct (i =? state) eqn:E; [apply Z.eqb_eq in E; lia|].
  rewrite IH by lia. reflexivity.
Qed.

Lemma renderTabs_inside (S : Render.Surface) (state : Z) (tabs : list string) :
  forall i,
    i <= state < i + Z.of_nat (List.length tabs) ->
    Render.renderTabs S state i tabs =
    (map (Render.inactiveTabStyle S) (firstn (Z.to_nat (state - i)) tabs) ++
     Render.activeTabStyle S (nth (Z.to_nat (state - i)) tabs "") ::
     map (Render.inactiveTabStyle S)
       (skipn (Datatypes.S (Z.to_nat (state - i))) tabs))%list.
Proof.
  induction tabs as [|t tabs IH]; intros i Hi.
  - cbn [List.length Z.of_nat] in Hi. lia.
  - cbn [Render.renderTabs]. cbn [List.length] in Hi.
    rewrite Nat2Z.inj_succ in Hi.
    destruct (i =? state) eqn:E.
    + apply Z.eqb_eq in E. subst i. rewrite Z.sub_diag.
      cbn [Z.to_nat firstn map nth skipn app].
      rewrite renderTabs_outside by lia. reflexivity.
    + apply Z.eqb_neq in E.
      rewrite IH by lia.
      replace (Z.to_nat (state - i))
        with (Datatypes.S (Z.to_nat (state - (i + 1)))) by lia.
      reflexivity.
Qed.

(** X26.  When the active index names a tab, the frame's tab row is one
    label per tab in order, the label of the active tab in the active
    style and every other label in the inactive style: exactly one tab is
    highlighted, and it is the active one. *)
Theorem one_tab_is_highlighted (S : Render.Surface) (m : UI.Model) :
  0 <= UI.state m < Z.of_nat (List.length (UI.tabs m)) ->
  Render.renderTabs S (UI.state m) 0 (UI.tabs m) =
  (map (Render.inactiveTabStyle S)
     (firstn (Z.to_nat (UI.state m)) (UI.tabs m)) ++
   Render.activeTabStyle S (nth (Z.to_nat (UI.state m)) (UI.tabs m) "") ::
   map (Render.inactiveTabStyle S)
     (skipn (Datatypes.S (Z.to_nat (UI.state m))) (UI.tabs m)))%list.
Proof.
  intros H.
  rewrite (renderTabs_inside S (UI.state m) (UI.tabs m) 0) by lia.
  now rewrite Z.sub_0_r.
Qed.

(** X26 on the sample machine, with the GitHub tab active. *)
Lemma one_tab_is_highlighted_witness :
  0 <= UI.state (UI.setState (UI.New Sample.env Sample.lib) UI.viewGitHub)
    < Z.of_nat
        (List.length
           (UI.tabs (UI.setState (UI.New Sample.env Sample.lib) UI.viewGitHub)))
  /\
  Render.renderTabs Lab.surface UI.viewGitHub 0
    ["Shell"; "Jira"; "GitHub"; "Chat"] =
  ["[Shell]"; "[Jira]"; "[*GitHub]"; "[Chat]"].
Proof.
  assert (H : 0 <= UI.state
                     (UI.setState (UI.New Sample.env Sample.lib) UI.viewGitHub)
              < Z.of_nat
                  (List.length
                     (UI.tabs (UI.setState (UI.New Sample.env Sample.lib)
                                 UI.viewGitHub)))).
  { change (0 <= 2 < 4). lia. }
  split; [exact H|].
  exact (one_tab_is_highlighted Lab.surface
           (UI.setState (UI.New Sample.env Sample.lib) UI.viewGitHub) H).
Defined.

(** ** Opening the session, and the GitHub tool's repository *)


(** X27.  The first text submitted opens the session.  On a pane without a
    client, with the credential set and the client obtainable, an Enter on
    a non-empty text records the client, creates the model named by
    GEMINI_MODEL (or [gemini-1.5-flash-002] when that is empty) with the
    two tool declarations, starts its chat session, appends the text as a
    [user] turn, clears the input and issues one model-send command that
    carries the new session and the text. *)
Theorem first_submit_opens_session (env : Env) (L : Lib) (m : Chat.Model)
        (c : Genai.Client) :
  Chat.client m = None ->
  Getenv env "GEMINI_API_KEY" <> "" ->
  NewClient env (Getenv env "GEMINI_API_KEY") = inr c ->
  taValue (fst (textareaUpdate L (Chat.textarea m) (KeyMsg KeyEnter))) <> "" ->
  let text :=
    taValue (fst (textareaUpdate L (Chat.textarea m) (KeyMsg KeyEnter))) in
  let session :=
    {| Genai.csModel :=
         {| Genai.gmClient := c;
            Genai.gmName :=
              if String.eqb (Getenv env "GEMINI_MODEL") ""
              then "gemini-1.5-flash-002" else Getenv env "GEMINI_MODEL";
            Genai.Tools := Chat.tools |} |} in
  let m' := fst (Chat.Update env L m (KeyMsg KeyEnter)) in
  Chat.client m' = Some c /\
  Chat.chatSession m' = Some session /\
  Chat.initialized m' = true /\
  Chat.messages m' =
    (Chat.messages m ++ [ {| Chat.Role := "user"; Chat.Content := text |} ])%list
  /\
  taValue (Chat.textarea m') = "" /\
  filter isSend (atoms (snd (Chat.Update env L m (KeyMsg KeyEnter)))) =
    [ChatSendMessage (Some session) text].
Proof.
  intros Hc Hk Hn Hv text session m'. subst text session m'.
  unfold Chat.Update.
  destruct (textareaUpdate L (Chat.textarea m) (KeyMsg KeyEnter))
    as [ta tiCmd].
  destruct (viewportUpdate L (Chat.viewport m) (KeyMsg KeyEnter))
    as [vp vpCmd].
  cbn [fst] in *. apply String.eqb_neq in Hv, Hk.
  cbn [Chat.textarea Chat.setViewport Chat.setTextarea]. rewrite Hv.
  unfold Chat.ensureClient.
  cbn [Chat.client Chat.setViewport Chat.setTextarea
       Chat.viewport Chat.textarea Chat.messages].
  rewrite Hc, Hk, Hn. cbn [fst snd].
  unfold Chat.sendMessage, Chat.updateViewport, Chat.append, Chat.setMessages.
  cbn [Chat.messages Chat.viewport Chat.textarea Chat.client Chat.model
       Chat.chatSession Chat.initialized].
  destruct (0 <? _);
    cbn [Chat.setViewport Chat.setTextarea Chat.messages Chat.viewport
         Chat.textarea Chat.client Chat.model Chat.chatSession
         Chat.initialized];
    (repeat split;
     cbn [atoms flat_map]; rewrite app_nil_r, !filter_app,
       !filter_isSend_ofLib;
     reflexivity).
Qed.

(** X27 on the sample machine. *)
Lemma first_submit_opens_session_witness :
  Chat.client (Sample.chatTyped "hi") = None /\
  Getenv Sample.env "GEMINI_API_KEY" <> "" /\
  NewClient Sample.env (Getenv Sample.env "GEMINI_API_KEY")
  = inr {| Genai.apiKey := "key" |} /\
  Chat.chatSession
    (fst (Chat.Update Sample.env Sample.lib (Sample.chatTyped "hi")
            (KeyMsg KeyEnter))) = Some Sample.session /\
  filter isSend
    (atoms (snd (Chat.Update Sample.env Sample.lib (Sample.chatTyped "hi")
                   (KeyMsg KeyEnter)))) =
    [ChatSendMessage (Some Sample.session) "hi"].
Proof.
  split; [reflexivity|]. split; [discriminate|]. split; [reflexivity|].
  destruct (first_submit_opens_session Sample.env Sample.lib
              (Sample.chatTyped "hi") {| Genai.apiKey := "key" |}
              eq_refl ltac:(discriminate) eq_refl ltac:(discriminate))
    as (_ & Hs & _ & _ & _ & Hf).
  split; [exact Hs | exact Hf].
Defined.

(** X28.  The GitHub tool lists the repository named by GITHUB_REPO, and
    charmbracelet/bubbletea when the variable is empty.  It sends one
    request, for the open issues of that repository, five at most, with
    the user agent TermiFlow and, when GITHUB_TOKEN is set, that token as
    bearer; what it returns depends on the machine through the answer to
    this request only.  So two machines with the same token get the same
    from the tool when each gets the same answer for its repository. *)
Theorem github_tool_default_repo (L : Lib) (env1 env2 : Env)
        (repo1 repo2 token : string) :
  (if String.eqb (Getenv env1 "GITHUB_REPO") "" then "charmbracelet/bubbletea"
   else Getenv env1 "GITHUB_REPO") = repo1 ->
  (if String.eqb (Getenv env2 "GITHUB_REPO") "" then "charmbracelet/bubbletea"
   else Getenv env2 "GITHUB_REPO") = repo2 ->
  Getenv env1 "GITHUB_TOKEN" = token ->
  Getenv env2 "GITHUB_TOKEN" = token ->
  urlParses L
    ("https://api.github.com/repos/" ++ repo1 ++ "/issues?state=open&per_page=5")
  = urlParses L
      ("https://api.github.com/repos/" ++ repo2 ++
       "/issues?state=open&per_page=5") ->
  Do env1
    {| URL := "https://api.github.com/repos/" ++ repo1 ++
              "/issues?state=open&per_page=5";
       Header :=
         ("User-Agent", "TermiFlow") ::
         (if String.eqb token "" then []
          else [("Authorization", "Bearer " ++ token)]) |} =
  Do env2
    {| URL := "https://api.github.com/repos/" ++ repo2 ++
              "/issues?state=open&per_page=5";
       Header :=
         ("User-Agent", "TermiFlow") ::
         (if String.eqb token "" then []
          else [("Authorization", "Bearer " ++ token)]) |} ->
  Chat.getGitHubIssues env1 L = Chat.getGitHubIssues env2 L.
Proof.
  intros H1 H2 Ht1 Ht2 Hu Hd. unfold Chat.getGitHubIssues.
  rewrite H1, H2, Ht1, Ht2, Hu.
  destruct (negb (urlParses L _)); [reflexivity|].
  assert (Hh : (if negb (String.eqb token "")
                then [("Authorization", "Bearer " ++ token)] else []) =
               (if String.eqb token "" then []
                else [("Authorization", "Bearer " ++ token)])).
  { destruct (String.eqb token ""); reflexivity. }
  rewrite Hh, Hd. reflexivity.
Qed.

(** X28 on the sample machine, where the variable is empty, and on the
    machine where it names charmbracelet/bubbles: neither repository has
    an open issue. *)
Lemma github_tool_default_repo_witness :
  Getenv Sample.env "GITHUB_REPO" = "" /\
  Getenv Lab.repoSet "GITHUB_REPO" = "charmbracelet/bubbles" /\
  Chat.getGitHubIssues Sample.env Sample.lib =
  Chat.getGitHubIssues Lab.repoSet Sample.lib.
Proof.
  split; [reflexivity|]. split; [reflexivity|].
  apply (github_tool_default_repo Sample.lib Sample.env Lab.repoSet
           "charmbracelet/bubbletea" "charmbracelet/bubbles" "");
    reflexivity.
Defined.

(** The tool on the machine whose GITHUB_REPO names a repository GitHub
    does not show, and on the sample machine: the variable is read, and
    the pane's fetch, which does not read it, is the same on both. *)
Lemma github_tool_reads_repo_example :
  Chat.getGitHubIssues Lab.fork Sample.lib
  = Ok (inl "GitHub API Error: 404 Not Found") /\
  Chat.getGitHubIssues Sample.env Sample.lib
  = Ok (inr (AMap [("issues", Nil)])) /\
  GitHub.fetchIssues Lab.fork Sample.lib
  = GitHub.fetchIssues Sample.env Sample.lib.
Proof. repeat split. Qed.
